(** * The race engine of [course_selector.py]

    A shallow embedding of the time-synchronised course-selection race of
    [AHUCourseSelector]: the duplicate/conflict classification helpers, the
    two result pollers, the four-stage attempt, the NTP clock synchroniser,
    the race window and the bounded-concurrency scheduler loop.

    Conventions of the embedding.
    - A decoded JSON document is a [pyval]; a Python [dict] is an association
      list in insertion order, because the attempt iterates over
      [pred_map.values()] and stops at the first hit.
    - A Python [str] is modelled by its UTF-8 encoding.  UTF-8 is
      self-synchronising, so the substring test on encodings agrees with the
      test on code points.
    - Code that may raise lives in the error monad [res]; a [try/except
      Exception] is a [match] on the monadic value.
    - The network, the clock and the thread pool are the environment: they
      are explicit arguments (response oracles, clock readings, completion
      reports, the order in which a [set] is iterated), never fixed by the
      model.  So is the built-in [int], of which the code only needs to know
      whether it raises.
    - The attributes of the client that the requests read and write
      ([student_id], [turn_id], [semester_id]) are a [session], passed from
      call to call.
    - Console output and the on-disk query log only write text; they are
      assumed not to fail and are recorded only where a property is stated
      about them. *)

From Stdlib Require Import ZArith List String Bool Lia Floats Permutation.
From Stdlib Require DecimalString.
Import ListNotations.
Local Open Scope string_scope.
Local Open Scope list_scope.
Local Open Scope Z_scope.
Set Warnings "-register-all,-inexact-float".

(** ** Python values and exceptions *)

Module Py.

Inductive pyval : Type :=
| PNone
| PBool (b : bool)
| PInt (z : Z)
| PFloat (f : float)
| PStr (s : string)
| PList (l : list pyval)
| PDict (d : list (string * pyval)).

(** The exception classes that the modelled code can meet; every one of
    them is a subclass of [Exception]. *)
Inductive exn : Type :=
| TypeError
| AttributeError
| ValueError
| RequestError.

Inductive res (A : Type) : Type :=
| Ok (a : A)
| Raise (e : exn).
Arguments Ok {A} a.
Arguments Raise {A} e.

Definition bind {A B : Type} (c : res A) (k : A -> res B) : res B :=
  match c with
  | Ok a => k a
  | Raise e => Raise e
  end.

Notation "x <- c ;; k" := (bind c (fun x => k))
  (at level 61, c at next level, right associativity).

(** [bool(v)] *)
Definition truthy (v : pyval) : bool :=
  match v with
  | PNone => false
  | PBool b => b
  | PInt z => negb (z =? 0)
  | PFloat f => negb (PrimFloat.eqb f 0%float)
  | PStr s => negb (String.eqb s "")
  | PList l => match l with [] => false | _ => true end
  | PDict d => match d with [] => false | _ => true end
  end.

(** [a or b] *)
Definition py_or (a b : pyval) : pyval := if truthy a then a else b.

(** [v == 0] *)
Definition py_eq_zero (v : pyval) : bool :=
  match v with
  | PBool b => negb b
  | PInt z => z =? 0
  | PFloat f => PrimFloat.eqb f 0%float
  | _ => false
  end.

Fixpoint lookup (k : string) (d : list (string * pyval)) : option pyval :=
  match d with
  | [] => None
  | (k', v) :: rest => if String.eqb k k' then Some v else lookup k rest
  end.

(** [d[k] = v] on a dict: the entry is overwritten in place when the key is
    there and appended otherwise. *)
Fixpoint dict_set (k : string) (v : pyval) (d : list (string * pyval))
  : list (string * pyval) :=
  match d with
  | [] => [(k, v)]
  | (k', v') :: rest =>
      if String.eqb k k' then (k, v) :: rest else (k', v') :: dict_set k v rest
  end.

(** [obj.get(k, default)]: only a dict has the method. *)
Definition py_get (obj : pyval) (k : string) (default : pyval) : res pyval :=
  match obj with
  | PDict d => Ok (match lookup k d with Some v => v | None => default end)
  | _ => Raise AttributeError
  end.

(** [needle in hay] on two strings. *)
Fixpoint contains (needle hay : string) : bool :=
  match hay with
  | EmptyString => String.prefix needle EmptyString
  | String _ rest => String.prefix needle hay || contains needle rest
  end.

Definition is_str (kw : string) (v : pyval) : bool :=
  match v with
  | PStr s => String.eqb kw s
  | _ => false
  end.

(** [kw in v] for a string [kw]: substring of a string, element of a list,
    key of a dict; the other JSON types are not containers. *)
Definition py_in (kw : string) (v : pyval) : res bool :=
  match v with
  | PStr s => Ok (contains kw s)
  | PList l => Ok (existsb (is_str kw) l)
  | PDict d => Ok (match lookup kw d with Some _ => true | None => false end)
  | _ => Raise TypeError
  end.

(** [any(kw in message for kw in kws)]: the generator is consumed lazily. *)
Fixpoint py_any_in (kws : list string) (message : pyval) : res bool :=
  match kws with
  | [] => Ok false
  | kw :: rest =>
      b <- py_in kw message ;;
      if b then Ok true else py_any_in rest message
  end.

End Py.
Export Py.

(** ** Outcome classification helpers *)

Definition duplicate_keywords : list string :=
  ["相同教学班只能选一次"; "Duplicate lessons are not allowed"].

Definition conflict_keyword : string := "时间冲突".

(** [AHUCourseSelector._is_duplicate_message] *)
Definition _is_duplicate_message (message : pyval) : res bool :=
  if negb (truthy message) then Ok false
  else py_any_in duplicate_keywords message.

(** [AHUCourseSelector._extract_text_field] *)
Definition _extract_text_field (obj : pyval) : pyval :=
  match obj with
  | PDict d =>
      let field k := match lookup k d with Some v => v | None => PNone end in
      py_or (field "text") (py_or (field "textZh") (py_or (field "textEn") (PStr "")))
  | PStr s => PStr s
  | _ => PStr ""
  end.

(** ** Result pollers

    Both pollers run the same loop: one GET per round with the caller's
    timeout, a sleep of [poll_interval] between rounds, [None] once the
    rounds are used up.  They differ in how a decoded answer is read. *)

Inductive effect : Type :=
| EGet (endpoint : string) (request_id : pyval) (timeout : float)
| ESleep (interval : float).

Inductive round_result : Type :=
| RReturn (r : pyval)
| RNotReady.

(** The [try] block of one round of [get_predicate_response], from the
    decoded body [data] on. *)
Definition predicate_round (data : pyval) : res round_result :=
  r <- py_get data "result" PNone ;;
  if py_eq_zero r then
    d <- py_get data "data" PNone ;;
    if truthy d then
      let result := d in
      s <- py_get result "success" PNone ;;
      if truthy s then Ok (RReturn result)
      else
        em <- py_get result "errorMessage" (PDict []) ;;
        error_msg <- py_get em "text" (PStr "未知错误") ;;
        Ok (RReturn result)
    else Ok RNotReady
  else Ok (RReturn PNone).

(** The [try] block of one round of [get_add_drop_response]. *)
Definition add_drop_round (data : pyval) : res round_result :=
  r <- py_get data "result" PNone ;;
  if py_eq_zero r then
    d <- py_get data "data" PNone ;;
    let result := py_or d (PDict []) in
    s <- py_get result "success" PNone ;;
    if truthy s then Ok (RReturn result)
    else
      em <- py_get result "errorMessage" PNone ;;
      if truthy em then
        err_text <- py_get em "text" (PStr "未知错误") ;;
        dup <- _is_duplicate_message err_text ;;
        if dup then
          match result with
          | PDict fields =>
              Ok (RReturn (PDict (dict_set "duplicate" (PBool true)
                                    (dict_set "success" (PBool true) fields))))
          | _ => Raise TypeError
          end
        else Ok (RReturn result)
      else Ok RNotReady
  else Ok (RReturn PNone).

Section Poller.

Variable round : pyval -> res round_result.
Variable endpoint : string.
Variable request_id : pyval.
Variable max_retries : Z.
Variables poll_interval timeout : float.
(** [responses i] is what [session.get], [raise_for_status] and
    [resp.json()] yield in round [i]: a decoded body or an exception. *)
Variable responses : nat -> res pyval.

(** [i < max_retries - 1] *)
Definition more_rounds (i : nat) : bool := Z.of_nat i <? max_retries - 1.

(** [for i in range(max_retries): try: ... except Exception: ...] *)
Fixpoint poll_rounds (rounds : list nat) : pyval * list effect :=
  match rounds with
  | [] => (PNone, [])
  | i :: rest =>
      let get := EGet endpoint request_id timeout in
      match (data <- responses i ;; round data) with
      | Ok (RReturn r) => (r, [get])
      | Ok RNotReady =>
          let '(r, tr) := poll_rounds rest in
          (r, get :: (if more_rounds i then [ESleep poll_interval] else []) ++ tr)
      | Raise _ =>
          if more_rounds i then
            let '(r, tr) := poll_rounds rest in
            (r, get :: ESleep poll_interval :: tr)
          else (PNone, [get])
      end
  end.

Definition poll (student_id : option string) : pyval * list effect :=
  match student_id with
  | None | Some "" => (PNone, [])
  | Some _ => poll_rounds (seq 0 (Z.to_nat max_retries))
  end.

End Poller.

(** [AHUCourseSelector.get_predicate_response] *)
Definition get_predicate_response (student_id : option string)
    (request_id : pyval) (max_retries : Z) (poll_interval timeout : float)
    (responses : nat -> res pyval) : pyval * list effect :=
  poll predicate_round "predicate-response" request_id max_retries
       poll_interval timeout responses student_id.

(** [AHUCourseSelector.get_add_drop_response] *)
Definition get_add_drop_response (student_id : option string)
    (request_id : pyval) (max_retries : Z) (poll_interval timeout : float)
    (responses : nat -> res pyval) : pyval * list effect :=
  poll add_drop_round "add-drop-response" request_id max_retries
       poll_interval timeout responses student_id.

(** ** The client's session *)

(** [self.student_id] is set: neither [None] nor the empty string. *)
Definition session_ready (student_id : option string) : bool :=
  match student_id with
  | None | Some "" => false
  | Some _ => true
  end.


(** The attributes of the client that [get_turn_info] reads and writes. *)
Record session : Type := {
  session_student_id : option string;
  session_turn_id : pyval;
  session_semester_id : pyval
}.

(** [obj[key]] for a string key, inside a [try] whose handler catches every
    [Exception]: [None] stands for the [KeyError] of a missing key and for
    the [TypeError] of a value that is not an object. *)
Definition py_item (obj : pyval) (key : string) : option pyval :=
  match obj with
  | PDict d => lookup key d
  | _ => None
  end.

Definition set_turn_id (v : pyval) (s : session) : session :=
  {| session_student_id := session_student_id s;
     session_turn_id := v;
     session_semester_id := session_semester_id s |}.

Definition set_semester_id (v : pyval) (s : session) : session :=
  {| session_student_id := session_student_id s;
     session_turn_id := session_turn_id s;
     session_semester_id := v |}.

(** [AHUCourseSelector.get_turn_info]: the value returned and the client
    afterwards.  [response] is what the GET, [raise_for_status] and
    [resp.json()] yield. *)
Definition get_turn_info (s : session) (response : res pyval)
  : pyval * session :=
  if negb (session_ready (session_student_id s)) then (PNone, s)
  else
    match (data <- response ;;
           r <- py_get data "result" PNone ;;
           d <- py_get data "data" PNone ;;
           Ok (py_eq_zero r && truthy d, d)) with
    | Raise _ => (PNone, s)
    | Ok (false, _) => (PNone, s)
    | Ok (true, turn_data) =>
        match py_item turn_data "turn" with
        | None => (PNone, s)
        | Some turn =>
            match py_item turn "id" with
            | None => (PNone, s)
            | Some tid =>
                let s1 := set_turn_id tid s in
                match py_item turn_data "semester" with
                | None => (PNone, s1)
                | Some semester =>
                    match py_item semester "id" with
                    | None => (PNone, s1)
                    | Some sem_id =>
                        let s2 := set_semester_id sem_id s1 in
                        match py_item turn "name", py_item semester "nameZh" with
                        | Some _, Some _ => (turn_data, s2)
                        | _, _ => (PNone, s2)
                        end
                    end
                end
            end
        end
    end.

(** [verify_credentials]: [client.get_turn_info() is not None]. *)
Definition verify_credentials (s : session) (response : res pyval)
  : bool * session :=
  let '(r, s') := get_turn_info s response in
  (match r with PNone => false | _ => true end, s').

(** ** One attempt: submit, poll, confirm, poll *)

(** The [try] block of [add_course_predicate] and of [add_course_request]:
    [post] is what [_post_json] yields.  Both methods read the answer in the
    same way. *)
Definition read_request_id (post : res pyval) : pyval :=
  match (data <- post ;;
         r <- py_get data "result" PNone ;;
         d <- py_get data "data" PNone ;;
         Ok (if py_eq_zero r && truthy d then d else PNone)) with
  | Ok request_id => request_id
  | Raise _ => PNone
  end.

Section Submit.

(** The built-in [int] applied to a [str]: the number read, or the exception
    raised. *)
Variable py_int : string -> res Z.

(** [int(self.student_id)] *)
Definition int_of_student_id (s : session) : res Z :=
  match session_student_id s with
  | Some sid => py_int sid
  | None => Raise TypeError
  end.

(** [if not self.turn_id or not self.student_id:
         if not self.get_turn_info(): return None]:
    whether the method goes on, and the client afterwards.  [turn_response]
    is what the refresh gets from the network, if it is made. *)
Definition ensure_turn (s : session) (turn_response : res pyval)
  : bool * session :=
  if negb (truthy (session_turn_id s))
     || negb (session_ready (session_student_id s))
  then
    let '(turn_data, s') := get_turn_info s turn_response in
    (truthy turn_data, s')
  else (true, s).

(** [add_course_predicate] and [add_course_request]: the value returned, or
    the exception that leaves the method, and the client afterwards.  The
    payload, with its [int(self.student_id)], is built in front of the
    [try]: a student id that [int] refuses raises out of the method before
    anything is sent. *)
Definition submit_request (s : session) (turn_response post : res pyval)
  : res pyval * session :=
  let '(go_on, s1) := ensure_turn s turn_response in
  if go_on then
    (student <- int_of_student_id s1 ;; Ok (read_request_id post), s1)
  else (Ok PNone, s1).

Definition add_course_predicate := submit_request.
Definition add_course_request := submit_request.

End Submit.

(** What the network answers to one attempt.  [predicate_turn] and
    [request_turn] are the answers to the refresh of the turn in front of
    the two submissions, should it be made. *)
Record attempt_env : Type := {
  predicate_turn : res pyval;
  predicate_post : res pyval;
  predicate_polls : nat -> res pyval;
  request_turn : res pyval;
  request_post : res pyval;
  add_drop_polls : nat -> res pyval
}.

(** The text after [尝试{attempt_idx}: ] in the attempt's message. *)
Inductive attempt_msg : Type :=
| MNoRequestId
| MDuplicatePredicate
| MPredicateFailed (err : pyval)
| MDuplicatePredicateResult
| MNoAddRequestId
| MConfirmed
| MTimeConflict
| MDuplicateAddDrop
| MConfirmFailed (err : pyval)
| MException (e : exn).

Definition attempt_result : Type := bool * (nat * attempt_msg).

(** [pred_map.values()] *)
Definition py_values (v : pyval) : res (list pyval) :=
  match v with
  | PDict d => Ok (map snd d)
  | _ => Raise AttributeError
  end.

(** [for v in pred_map.values(): if isinstance(v, dict) and
    self._is_duplicate_message(v.get('text', '')): return True, ...] *)
Fixpoint scan_result_map (vals : list pyval) : res bool :=
  match vals with
  | [] => Ok false
  | v :: rest =>
      match v with
      | PDict _ =>
          t <- py_get v "text" (PStr "") ;;
          dup <- _is_duplicate_message t ;;
          if dup then Ok true else scan_result_map rest
      | _ => scan_result_map rest
      end
  end.

(** [self._extract_text_field((r or {}).get('errorMessage') if r else '')
    or fallback] *)
Definition error_text (r : pyval) (fallback : string) : res pyval :=
  em <- (if truthy r then py_get (py_or r (PDict [])) "errorMessage" PNone
         else Ok (PStr "")) ;;
  Ok (py_or (_extract_text_field em) (PStr fallback)).

Section Attempt.

Variable py_int : string -> res Z.
(** The client as the attempt finds it.  The attempt is followed on its
    own: the client changes under it only through its own calls.  This is
    exact whenever no other thread writes the client meanwhile, and so for
    every client whose turn id and student id are set, which no attempt
    writes. *)
Variable s : session.
Variable request_timeout : float.
Variable env : attempt_env.

(** [self.add_course_predicate(lesson_id, virtual_cost=0, ...)] *)
Definition intent_submission : res pyval * session :=
  add_course_predicate py_int s (predicate_turn env) (predicate_post env).

(** The [try] block of [_single_attempt], first half: submit the intent
    and poll its result.  [Some r] is an early [return r]; [None] lets the
    attempt go on to the confirm request. *)
Definition intent_stage : res (option (bool * attempt_msg)) :=
  req_id <- fst intent_submission ;;
  if negb (truthy req_id) then Ok (Some (false, MNoRequestId))
  else
    let pred := fst (get_predicate_response
                       (session_student_id (snd intent_submission)) req_id 8
                       0.15%float request_timeout (predicate_polls env)) in
    ps <- (if truthy pred then py_get pred "success" PNone else Ok PNone) ;;
    if negb (truthy pred) || negb (truthy ps) then
      err <- error_text pred "无结果" ;;
      dup <- _is_duplicate_message err ;;
      if dup then Ok (Some (true, MDuplicatePredicate))
      else Ok (Some (false, MPredicateFailed err))
    else
      pr <- py_get pred "result" PNone ;;
      vals <- py_values (py_or pr (PDict [])) ;;
      hit <- scan_result_map vals ;;
      if hit then Ok (Some (true, MDuplicatePredicateResult))
      else Ok None.

(** [self.add_course_request(lesson_id, virtual_cost=None, ...)] *)
Definition confirm_submission : res pyval * session :=
  add_course_request py_int (snd intent_submission) (request_turn env)
    (request_post env).

(** Second half: submit the confirm request and poll its result. *)
Definition confirm_stage : res (bool * attempt_msg) :=
  add_req_id <- fst confirm_submission ;;
  if negb (truthy add_req_id) then Ok (false, MNoAddRequestId)
  else
    let final := fst (get_add_drop_response
                        (session_student_id (snd confirm_submission))
                        add_req_id 10 0.2%float request_timeout
                        (add_drop_polls env)) in
    fs <- (if truthy final then py_get final "success" PNone
           else Ok PNone) ;;
    if truthy final && truthy fs then Ok (true, MConfirmed)
    else
      err <- error_text final "无最终结果" ;;
      conflict <- py_in conflict_keyword err ;;
      if conflict then Ok (false, MTimeConflict)
      else
        dup <- _is_duplicate_message err ;;
        flag <- (if dup then Ok true
                 else f <- py_get (py_or final (PDict [])) "duplicate" PNone ;;
                      Ok (truthy f)) ;;
        if flag then Ok (true, MDuplicateAddDrop)
        else Ok (false, MConfirmFailed err).

Definition attempt_body : res (bool * attempt_msg) :=
  early <- intent_stage ;;
  match early with
  | Some r => Ok r
  | None => confirm_stage
  end.

(** [_single_attempt(attempt_idx)]: every exception of the body becomes a
    failed attempt. *)
Definition _single_attempt (attempt_idx : nat) : attempt_result :=
  match attempt_body with
  | Ok (ok, msg) => (ok, (attempt_idx, msg))
  | Raise e => (false, (attempt_idx, MException e))
  end.

End Attempt.

(** ** Clock synchronisation *)

(** The float operations [sync_time_with_ntp] relies on.  [fsum] is the
    built-in [sum], whose rounding of a float total depends on the
    interpreter, so it is kept as an interface. *)
Class FloatOps (F : Type) : Type := {
  fzero : F;
  fsub : F -> F -> F;
  fsum : list F -> F;
  fdiv_len : F -> nat -> F
}.

(** IEEE binary64 with a left-to-right total. *)
#[export] Instance binary64_ops : FloatOps float := {
  fzero := 0%float;
  fsub := PrimFloat.sub;
  fsum := fun l => fold_left PrimFloat.add l 0%float;
  fdiv_len := fun x n => PrimFloat.div x (PrimFloat.of_uint63 (Uint63.of_Z (Z.of_nat n)))
}.

(** Integers with the floor quotient, the exact reading used to evaluate the
    model on offsets counted in a fixed small unit. *)
#[export] Instance exact_ops : FloatOps Z := {
  fzero := 0;
  fsub := Z.sub;
  fsum := fun l => fold_left Z.add l 0;
  fdiv_len := fun x n => x / Z.of_nat n
}.

Inductive ui_level : Type := INFO | OK_TAG | WARN | FAIL.

Section Ntp.

Context {F : Type} `{FloatOps F}.

(** One [client.request] and the local clock read after it. *)
Inductive ntp_sample : Type :=
| NtpReply (tx_time local_time : F)
| NtpFailure (e : exn).

Inductive ntp_note : Type :=
| NMeasured (round : nat) (offset : F)
| NSampleFailed (round : nat) (e : exn)
| NSynced
| NAverage (avg : F) (n : nat)
| NAllFailed
| NUseLocalClock.

Definition ntp_log : Type := list (ui_level * ntp_note).

Variable samples : nat -> ntp_sample.

(** [for i in range(3): try: ... offsets.append(offset) ... except ...] *)
Fixpoint ntp_rounds (rounds : list nat) (offsets : list F) (log : ntp_log)
  : list F * ntp_log :=
  match rounds with
  | [] => (offsets, log)
  | i :: rest =>
      match samples i with
      | NtpReply ntp_time local_time =>
          let offset := fsub ntp_time local_time in
          ntp_rounds rest (offsets ++ [offset])
                     (log ++ [(INFO, NMeasured (S i) offset)])
      | NtpFailure e =>
          ntp_rounds rest offsets (log ++ [(FAIL, NSampleFailed (S i) e)])
      end
  end.

(** [AHUCourseSelector.sync_time_with_ntp] *)
Definition sync_time_with_ntp : F * ntp_log :=
  let '(offsets, log) := ntp_rounds (seq 0 3) [] [] in
  match offsets with
  | [] => (fzero, log ++ [(FAIL, NAllFailed); (INFO, NUseLocalClock)])
  | _ =>
      let avg_offset := fdiv_len (fsum offsets) (List.length offsets) in
      (avg_offset,
       log ++ [(OK_TAG, NSynced); (INFO, NAverage avg_offset (List.length offsets))])
  end.

End Ntp.

(** ** Race window

    A [datetime] is its number of microseconds since the epoch; a
    [timedelta] is a number of microseconds. *)

Definition seconds (n : Z) : Z := n * 1000000.

Definition max_duration : Z := 180.

Record race_window : Type := {
  start_time : Z;
  deadline : Z
}.

(** The head of [rapid_select_course]: [now_dt] is the corrected clock
    reading [datetime.fromtimestamp(time.time() + time_offset)]. *)
Definition derive_window (target_time now_dt : Z) : race_window :=
  {| start_time :=
       if now_dt >? target_time then now_dt - seconds 1
       else target_time - seconds 5;
     deadline := Z.max target_time now_dt + seconds max_duration |}.

(** ** The race scheduler

    One iteration of the [while True] loop reads the corrected clock once
    and calls [wait] once.  What the scheduler can observe of the worker
    threads is which of its futures [wait] reports as done, so an iteration
    of the environment is a [tick]: the clock reading and either the futures
    finished by the time [wait] returns (none on a plain 50 ms timeout) or a
    Ctrl+C delivered while the main thread sits in [wait]. *)

Inductive tick : Type :=
| Completed (now : Z) (finished : list nat)
| KeyboardInterrupt (now : Z).

Definition tick_now (t : tick) : Z :=
  match t with
  | Completed now _ => now
  | KeyboardInterrupt now => now
  end.

Inductive race_event : Type :=
| ELaunch (attempt_idx : nat) (now : Z)
| ECancel (attempt_idx : nat).

(** The locals of the loop.  A future is named by the index of the attempt
    it runs; every [executor.submit] makes a new future, so [futures.add]
    always grows the set and a list in launch order represents it. *)
Record race_state : Type := {
  attempt_counter : nat;
  futures : list nat;
  last_error : option (nat * attempt_msg);
  status_line : option (bool * (nat * attempt_msg));
  events : list race_event
}.

Definition initial_state : race_state :=
  {| attempt_counter := 0%nat; futures := []; last_error := None;
     status_line := None; events := [] |}.

Inductive step_result : Type :=
| Continue (st : race_state)
| Return (b : bool) (st : race_state).

Inductive race_outcome : Type :=
| Returned (b : bool) (st : race_state)
| Raised (e : exn)
| Running (st : race_state)
| Waiting.

Definition mem (id : nat) (l : list nat) : bool := existsb (Nat.eqb id) l.

(** The order in which [for f in futures] visits the set, given its members
    in launch order: Python fixes no order, only that every member is
    visited once. *)
Record set_order : Type := {
  visit : list nat -> list nat;
  visit_perm : forall l : list nat, Permutation (visit l) l
}.

(** [wait(futures, return_when=FIRST_COMPLETED, timeout=0.05)]: the done
    futures, in the order in which the loop will iterate over them, and the
    ones still running. *)
Definition wait (fs finished : list nat) : list nat * list nat :=
  (nodup Nat.eq_dec (filter (fun id => mem id fs) finished),
   filter (fun id => negb (mem id finished)) fs).

Section Race.

(** [attempt idx] is [fut.result()] of the future that runs
    [_single_attempt(idx)]. *)
Variable order : set_order.
Variable attempt : nat -> attempt_result.
Variable concurrency : Z.
Variable w : race_window.

(** [attempt_counter += 1; futures.add(executor.submit(...))] *)
Definition launch (now : Z) (st : race_state) : race_state :=
  let idx := S (attempt_counter st) in
  {| attempt_counter := idx;
     futures := futures st ++ [idx];
     last_error := last_error st;
     status_line := status_line st;
     events := events st ++ [ELaunch idx now] |}.

(** [while len(futures) < concurrency: ...] *)
Fixpoint refill (fuel : nat) (now : Z) (st : race_state) : race_state :=
  match fuel with
  | O => st
  | S fuel' =>
      if Z.of_nat (List.length (futures st)) <? concurrency
      then refill fuel' now (launch now st)
      else st
  end.

(** [for fut in done: ok, msg = fut.result(); last_error = msg; ...] *)
Fixpoint process_done (done : list nat) (st : race_state)
  : bool * race_state :=
  match done with
  | [] => (false, st)
  | fut :: rest =>
      let '(ok, msg) := attempt fut in
      let st' := {| attempt_counter := attempt_counter st;
                    futures := futures st;
                    last_error := Some msg;
                    status_line := Some (ok, msg);
                    events := events st |} in
      if ok then (true, st') else process_done rest st'
  end.

(** [for f in futures: f.cancel()] *)
Definition cancel_rest (st : race_state) : race_state :=
  {| attempt_counter := attempt_counter st;
     futures := futures st;
     last_error := last_error st;
     status_line := status_line st;
     events := events st ++ map ECancel (visit order (futures st)) |}.

Definition set_futures (fs : list nat) (st : race_state) : race_state :=
  {| attempt_counter := attempt_counter st;
     futures := fs;
     last_error := last_error st;
     status_line := status_line st;
     events := events st |}.

(** One iteration of the [while True] loop. *)
Definition race_step (t : tick) (st : race_state) : step_result :=
  if tick_now t >? deadline w then Return false st
  else
    let st1 := refill (Z.to_nat concurrency) (tick_now t) st in
    match t with
    | KeyboardInterrupt _ => Return false (cancel_rest st1)
    | Completed _ finished =>
        let '(done, not_done) := wait (futures st1) finished in
        let '(success, st2) := process_done done (set_futures not_done st1) in
        if success then Return true (cancel_rest st2) else Continue st2
    end.

Fixpoint race_loop (ticks : list tick) (st : race_state) : race_outcome :=
  match ticks with
  | [] => Running st
  | t :: rest =>
      match race_step t st with
      | Return b st' => Returned b st'
      | Continue st' => race_loop rest st'
      end
  end.

(** The states the loop passes through: after each refill and after each
    [wait] with its results processed. *)
Fixpoint race_trace (ticks : list tick) (st : race_state)
  : list race_state :=
  match ticks with
  | [] => []
  | t :: rest =>
      if tick_now t >? deadline w then []
      else
        refill (Z.to_nat concurrency) (tick_now t) st ::
        match race_step t st with
        | Return _ st' => [st']
        | Continue st' => st' :: race_trace rest st'
        end
  end.

End Race.

(** The loop in front of the race: poll the corrected clock every 100 ms
    until it reaches [start_time]. *)
Definition started (start : Z) (clock : list Z) : bool :=
  existsb (fun current_dt => current_dt >=? start) clock.

(** [AHUCourseSelector.rapid_select_course].  [now_dt] is the first clock
    reading, [prestart] the readings of the waiting loop, [ticks] the
    iterations of the race, [envs idx] the network as attempt [idx] meets
    it and [clients idx] the client as it finds it: the attempts run in
    threads on the one client, and an attempt that has to refresh the turn
    writes it.  [ThreadPoolExecutor] refuses [max_workers <= 0]. *)
Definition rapid_select_course (py_int : string -> res Z) (order : set_order)
    (clients : nat -> session) (envs : nat -> attempt_env) (target_time : Z)
    (concurrency : Z) (request_timeout : float) (now_dt : Z)
    (prestart : list Z) (ticks : list tick) : race_outcome :=
  let w := derive_window target_time now_dt in
  if started (start_time w) prestart then
    if concurrency <=? 0 then Raised ValueError
    else
      race_loop order
        (fun idx =>
           _single_attempt py_int (clients idx) request_timeout (envs idx) idx)
        concurrency w ticks initial_state
  else Waiting.

(** ** Vocabulary of the statements *)

Definition get_or (k : string) (d : list (string * pyval)) (default : pyval)
  : pyval :=
  match lookup k d with Some v => v | None => default end.

(** A string, or a value that [or] skips. *)
Definition text_like (v : pyval) : bool :=
  match v with
  | PStr _ => true
  | _ => negb (truthy v)
  end.

(** Every one of the three text entries of an error map is absent, falsy or
    a string. *)
Definition text_fields_ok (obj : pyval) : bool :=
  match obj with
  | PDict d =>
      forallb (fun k => text_like (get_or k d PNone)) ["text"; "textZh"; "textEn"]
  | _ => true
  end.

(** What a trace of a poller may contain: a GET on its endpoint with the
    caller's timeout, or a sleep of the caller's interval. *)
Definition poll_effect (endpoint : string) (request_id : pyval)
    (poll_interval timeout : float) (e : effect) : Prop :=
  e = EGet endpoint request_id timeout \/ e = ESleep poll_interval.

Definition is_get (e : effect) : bool :=
  match e with EGet _ _ _ => true | ESleep _ => false end.

Definition is_sleep (e : effect) : bool :=
  match e with EGet _ _ _ => false | ESleep _ => true end.

Definition count_gets (tr : list effect) : Z :=
  Z.of_nat (List.length (filter is_get tr)).

Definition count_sleeps (tr : list effect) : Z :=
  Z.of_nat (List.length (filter is_sleep tr)).

(** Round [j] brings no value back: the result is not ready or the request
    failed. *)
Definition pending (round : pyval -> res round_result)
    (responses : nat -> res pyval) (j : nat) : bool :=
  match (data <- responses j ;; round data) with
  | Ok (RReturn _) => false
  | _ => true
  end.

(** The budget of one call of a poller that returned [out]: at most
    [max_retries] requests, at most [max_retries - 1] sleeps, nothing but
    these two effects, and [None] when no round brought a value back. *)
Definition within_budget (round : pyval -> res round_result)
    (endpoint : string) (request_id : pyval) (max_retries : Z)
    (poll_interval timeout : float) (responses : nat -> res pyval)
    (out : pyval * list effect) : Prop :=
  count_gets (snd out) <= Z.max 0 max_retries /\
  count_sleeps (snd out) <= Z.max 0 (max_retries - 1) /\
  Forall (poll_effect endpoint request_id poll_interval timeout) (snd out) /\
  ((forall i, Z.of_nat i < max_retries -> pending round responses i = true) ->
   fst out = PNone).

(** Round [i] lies within the retry budget and no earlier round returned. *)
Definition reaches_round (round : pyval -> res round_result)
    (responses : nat -> res pyval) (max_retries : Z) (i : nat) : bool :=
  (Z.of_nat i <? max_retries) && forallb (pending round responses) (seq 0 i).

(** The result object of a poll answer [{"result": 0, "data": {...}}]. *)
Definition body_of (data : pyval) : option (list (string * pyval)) :=
  match data with
  | PDict top =>
      if py_eq_zero (get_or "result" top PNone) then
        match get_or "data" top PNone with
        | PDict fields => Some fields
        | _ => None
        end
      else None
  | _ => None
  end.

(** The [text] of the error map of a result carries a duplicate marker. *)
Definition duplicate_text (fields : list (string * pyval)) : bool :=
  match get_or "errorMessage" fields PNone with
  | PDict (e :: em) =>
      match _is_duplicate_message (get_or "text" (e :: em) (PStr "未知错误")) with
      | Ok true => true
      | _ => false
      end
  | _ => false
  end.



(** The turn id and the student id of the client are set and [int] reads
    the student id: the submissions make no refresh and build their payload
    without an exception. *)
Definition established (py_int : string -> res Z) (s : session) : bool :=
  truthy (session_turn_id s) && session_ready (session_student_id s) &&
  match int_of_student_id py_int s with
  | Ok _ => true
  | Raise _ => false
  end.

(** The answer to the intent submission carries a request id, and round
    [i] of the poll, within the budget of eight and the first to bring a
    value back, answered with this result object. *)
Definition intent_result (env : attempt_env) (i : nat)
  : option (list (string * pyval)) :=
  if truthy (read_request_id (predicate_post env))
     && reaches_round predicate_round (predicate_polls env) 8 i
  then match predicate_polls env i with
       | Ok data => body_of data
       | Raise _ => None
       end
  else None.

(** The same for the confirm request and its poll, with its budget of ten. *)
Definition confirm_result (env : attempt_env) (i : nat)
  : option (list (string * pyval)) :=
  if truthy (read_request_id (request_post env))
     && reaches_round add_drop_round (add_drop_polls env) 10 i
  then match add_drop_polls env i with
       | Ok data => body_of data
       | Raise _ => None
       end
  else None.



(** A successful intent result whose result map is read to its end without
    a duplicate marker: the attempt goes on to the confirm request. *)
Definition intent_passes (fields : list (string * pyval)) : bool :=
  truthy (get_or "success" fields PNone) &&
  match py_values (py_or (get_or "result" fields PNone) (PDict [])) with
  | Ok vals =>
      match scan_result_map vals with
      | Ok false => true
      | _ => false
      end
  | Raise _ => false
  end.

(** What the confirm poll hands to the attempt of a client with this
    student id, once the confirm submission has been read. *)
Definition confirm_final (student_id : option string) (request_timeout : float)
    (env : attempt_env) : pyval :=
  fst (get_add_drop_response student_id (read_request_id (request_post env))
         10 0.2%float request_timeout (add_drop_polls env)).



Section NtpVocabulary.

Context {F : Type} `{FloatOps F}.

(** The offsets of the samples that came back, in order. *)
Definition successful_offsets (samples : nat -> @ntp_sample F) : list F :=
  flat_map (fun i => match samples i with
                     | NtpReply ntp_time local_time => [fsub ntp_time local_time]
                     | NtpFailure _ => []
                     end) (seq 0 3).

(** The rounds that left a line on the console. *)
Definition sampled_rounds (log : @ntp_log F) : list nat :=
  flat_map (fun line => match snd line with
                        | NMeasured i _ => [i]
                        | NSampleFailed i _ => [i]
                        | _ => []
                        end) log.

End NtpVocabulary.

Definition in_flight (st : race_state) : Z := Z.of_nat (List.length (futures st)).

Definition launched_by (d : Z) (e : race_event) : bool :=
  match e with
  | ELaunch _ now => now <=? d
  | ECancel _ => true
  end.

Definition is_launch (e : race_event) : bool :=
  match e with ELaunch _ _ => true | ECancel _ => false end.

(** ** Sample environments *)

(** A reading of [int] to run the model with: the number written by a
    non-empty string of ASCII digits, and [ValueError] for every other
    string.  It is the built-in on the ids used below, all digits or
    starting with a letter; the built-in also reads signs, blanks and
    underscores, which play no part here.  The properties are stated for
    every reading. *)
Fixpoint digits_value (acc : Z) (s : string) : option Z :=
  match s with
  | EmptyString => Some acc
  | String c rest =>
      let d := Z.of_nat (Ascii.nat_of_ascii c) - 48 in
      if (0 <=? d) && (d <=? 9) then digits_value (10 * acc + d) rest
      else None
  end.

Definition decimal_int (s : string) : res Z :=
  match s with
  | EmptyString => Raise ValueError
  | _ => match digits_value 0 s with
         | Some z => Ok z
         | None => Raise ValueError
         end
  end.

(** Two ways of going through a set: as launched, and backwards. *)
Definition in_launch_order : set_order :=
  {| visit := fun l => l; visit_perm := @Permutation_refl nat |}.

Definition in_reverse_order : set_order :=
  {| visit := @rev nat;
     visit_perm := fun l => Permutation_sym (Permutation_rev l) |}.

(** A client ready to race, one that has not fetched the turn yet, one
    whose student id is not a number, and one without a student id. *)
Definition sample_session : session :=
  {| session_student_id := Some "20240001";
     session_turn_id := PInt 700;
     session_semester_id := PInt 60 |}.

Definition session_without_turn : session :=
  {| session_student_id := Some "20240001";
     session_turn_id := PNone;
     session_semester_id := PNone |}.

Definition session_lettered_id : session :=
  {| session_student_id := Some "E20240001";
     session_turn_id := PInt 700;
     session_semester_id := PInt 60 |}.


Definition answer (result : pyval) : pyval :=
  PDict [("result", PInt 0); ("data", result)].

Definition failed_with (text : string) : pyval :=
  answer (PDict [("success", PBool false);
                 ("errorMessage", PDict [("text", PStr text)])]).

Definition succeeded : pyval := answer (PDict [("success", PBool true)]).

(** The intent poll reports that the class is already held. *)
Definition env_duplicate_intent : attempt_env :=
  {| predicate_turn := Raise RequestError;
     predicate_post := Ok (answer (PStr "req-1"));
     predicate_polls := fun _ => Ok (failed_with "相同教学班只能选一次");
     request_turn := Raise RequestError;
     request_post := Raise RequestError;
     add_drop_polls := fun _ => Raise RequestError |}.

(** The intent goes through and the confirm poll reports a clash. *)
Definition env_conflict : attempt_env :=
  {| predicate_turn := Raise RequestError;
     predicate_post := Ok (answer (PStr "req-1"));
     predicate_polls := fun _ => Ok succeeded;
     request_turn := Raise RequestError;
     request_post := Ok (answer (PStr "req-2"));
     add_drop_polls := fun _ => Ok (failed_with "与已选课程时间冲突") |}.

(** The intent goes through and the confirm poll reports a duplicate. *)
Definition env_duplicate_confirm : attempt_env :=
  {| predicate_turn := Raise RequestError;
     predicate_post := Ok (answer (PStr "req-1"));
     predicate_polls := fun _ => Ok succeeded;
     request_turn := Raise RequestError;
     request_post := Ok (answer (PStr "req-2"));
     add_drop_polls := fun i =>
       match i with
       | O => Ok (answer PNone)
       | _ => Ok (failed_with "Duplicate lessons are not allowed")
       end |}.


(** The confirm poll answers with this error object. *)
Definition env_confirm_error (error_message : pyval) : attempt_env :=
  {| predicate_turn := Raise RequestError;
     predicate_post := Ok (answer (PStr "req-1"));
     predicate_polls := fun _ => Ok succeeded;
     request_turn := Raise RequestError;
     request_post := Ok (answer (PStr "req-2"));
     add_drop_polls := fun _ =>
       Ok (answer (PDict [("success", PBool false);
                          ("errorMessage", error_message)])) |}.

(** The refresh of the turn is answered, nothing else is. *)
Definition env_refreshing : attempt_env :=
  {| predicate_turn :=
       Ok (PDict [("result", PInt 0);
                  ("data",
                   PDict [("turn", PDict [("id", PInt 741);
                                          ("name", PStr "第一轮")]);
                          ("semester", PDict [("id", PInt 61);
                                              ("nameZh", PStr "2025-2026-1")])])]);
     predicate_post := Raise RequestError;
     predicate_polls := fun _ => Raise RequestError;
     request_turn := Raise RequestError;
     request_post := Raise RequestError;
     add_drop_polls := fun _ => Raise RequestError |}.

(** Both stages succeed. *)
Definition env_success : attempt_env :=
  {| predicate_turn := Raise RequestError;
     predicate_post := Ok (answer (PStr "req-1"));
     predicate_polls := fun _ => Ok succeeded;
     request_turn := Raise RequestError;
     request_post := Ok (answer (PStr "req-2"));
     add_drop_polls := fun _ => Ok succeeded |}.

(** * Further code of the client *)

(** ** Lesson filter *)

(** [str(n)] for an integer. *)
Definition py_str_int (n : Z) : string :=
  DecimalString.NilZero.string_of_int (Z.to_int n).

(** The dataclass [CourseFilter], with the types it declares. *)
Record CourseFilter : Type := {
  course_name : string;
  weeks : string;
  weekday : Z;
  start_unit : Z;
  end_unit : Z;
  campus : string;
  building : string
}.

(** [weekday_map.get(weekday, '')] *)
Definition weekday_name (d : Z) : string :=
  match d with
  | 1 => "星期一"
  | 2 => "星期二"
  | 3 => "星期三"
  | 4 => "星期四"
  | 5 => "星期五"
  | 6 => "星期六"
  | 7 => "星期日"
  | _ => ""
  end.

(** [f"{start_unit}~{end_unit}节"] *)
Definition unit_pattern (f : CourseFilter) : string :=
  (py_str_int (start_unit f) ++ "~" ++ py_str_int (end_unit f) ++ "节")%string.

(** One criterion on the time-and-place text: [if active: if kw not in
    date_time_place: continue]. *)
Definition criterion (active : bool) (kw : string) (date_time_place : pyval)
  : res bool :=
  if active then py_in kw date_time_place else Ok true.

(** The body of the loop of [filter_lessons]: [Ok false] is a [continue],
    [Ok true] reaches [result.append(lesson)]. *)
Definition lesson_matches (f : CourseFilter) (lesson : pyval) : res bool :=
  named <- (if negb (String.eqb (course_name f) "") then
              course <- py_get lesson "course" (PDict []) ;;
              name <- py_get course "nameZh" (PStr "") ;;
              py_in (course_name f) name
            else Ok true) ;;
  if negb named then Ok false
  else
    dtp <- py_get lesson "dateTimePlace" (PDict []) ;;
    date_time_place <- py_get dtp "textZh" (PStr "") ;;
    c1 <- criterion (negb (String.eqb (weeks f) "")) (weeks f) date_time_place ;;
    if negb c1 then Ok false
    else
      c2 <- criterion (weekday f >? 0) (weekday_name (weekday f)) date_time_place ;;
      if negb c2 then Ok false
      else
        c3 <- criterion ((start_unit f >? 0) && (end_unit f >? 0))
                        (unit_pattern f) date_time_place ;;
        if negb c3 then Ok false
        else
          c4 <- criterion (negb (String.eqb (campus f) "")) (campus f)
                          date_time_place ;;
          if negb c4 then Ok false
          else
            criterion (negb (String.eqb (building f) "")) (building f)
                      date_time_place.

(** [AHUCourseSelector.filter_lessons] *)
Fixpoint filter_lessons (lessons : list pyval) (filter_obj : CourseFilter)
  : res (list pyval) :=
  match lessons with
  | [] => Ok []
  | lesson :: rest =>
      keep <- lesson_matches filter_obj lesson ;;
      result <- filter_lessons rest filter_obj ;;
      Ok (if keep then lesson :: result else result)
  end.

(** The time-and-place text of a lesson object, when it can be read. *)
Definition place_text (lesson : pyval) : res pyval :=
  dtp <- py_get lesson "dateTimePlace" (PDict []) ;;
  py_get dtp "textZh" (PStr "").

(** Everything the filter asks for is found in a time-and-place text. *)
Definition place_satisfies (f : CourseFilter) (text : pyval) : Prop :=
  (weeks f <> "" -> py_in (weeks f) text = Ok true) /\
  (1 <= weekday f <= 7 -> py_in (weekday_name (weekday f)) text = Ok true) /\
  (0 < start_unit f -> 0 < end_unit f -> py_in (unit_pattern f) text = Ok true) /\
  (campus f <> "" -> py_in (campus f) text = Ok true) /\
  (building f <> "" -> py_in (building f) text = Ok true).

(** The name asked for, if any, is found in the course name. *)
Definition name_satisfies (f : CourseFilter) (lesson : pyval) : Prop :=
  course_name f <> "" ->
  exists course name,
    py_get lesson "course" (PDict []) = Ok course /\
    py_get course "nameZh" (PStr "") = Ok name /\
    py_in (course_name f) name = Ok true.

Definition with_weekday (d : Z) (f : CourseFilter) : CourseFilter :=
  {| course_name := course_name f; weeks := weeks f; weekday := d;
     start_unit := start_unit f; end_unit := end_unit f;
     campus := campus f; building := building f |}.

Definition text_is_str (lesson : pyval) : Prop :=
  exists s, place_text lesson = Ok (PStr s).

(** The lesson passes every active criterion without raising. *)
Definition kept (f : CourseFilter) (lesson : pyval) : bool :=
  match lesson_matches f lesson with
  | Ok true => true
  | _ => false
  end.

Definition is_dict (v : pyval) : bool :=
  match v with PDict _ => true | _ => false end.

Definition sample_lesson (name place : string) : pyval :=
  PDict [("id", PInt 1001);
         ("course", PDict [("nameZh", PStr name)]);
         ("dateTimePlace", PDict [("textZh", PStr place)])].

Definition sample_filter : CourseFilter :=
  {| course_name := "示例课程A"; weeks := "1~12"; weekday := 2;
     start_unit := 3; end_unit := 4; campus := "磬苑校区"; building := "" |}.

(** ** Selection turn: a sample answer *)

Definition turn_answer (turn semester : pyval) : pyval :=
  answer (PDict [("turn", turn); ("semester", semester)]).

(** ** Forced repetition of the request *)

Inductive force_event : Type :=
| FAttempt (i : nat)
| FSleep (interval : float).

(** Code that may raise and that reads and writes the client: the value or
    the exception, and the client afterwards. *)
Definition client (A : Type) : Type := session -> res A * session.

Definition client_bind {A B : Type} (c : client A) (k : A -> client B)
  : client B :=
  fun s =>
    match c s with
    | (Ok a, s1) => k a s1
    | (Raise e, s1) => (Raise e, s1)
    end.

(** Code that may raise and leaves the client alone. *)
Definition pure_step {A : Type} (r : res A) : client A := fun s => (r, s).

Notation "x <~ c ;; k" := (client_bind c (fun x => k))
  (at level 61, c at next level, right associativity).

Section Force.

Variable py_int : string -> res Z.
Variable request_timeout : float.

(** The body of the loop of [force_send_requests]: [Ok true] is a
    [return True], [Ok false] reaches the [time.sleep(interval)] that ends
    the iteration (directly or through a [continue]).  Nothing is caught
    here. *)
Definition force_iteration (env : attempt_env) : client bool :=
  request_id <~ (fun s => add_course_predicate py_int s (predicate_turn env)
                            (predicate_post env)) ;;
  if negb (truthy request_id) then pure_step (Ok false)
  else
    result <~ (fun s =>
                 (Ok (fst (get_predicate_response (session_student_id s)
                             request_id 3 0.2%float request_timeout
                             (predicate_polls env))), s)) ;;
    if truthy result then
      ok <~ pure_step (py_get result "success" PNone) ;;
      if truthy ok then
        hit <~ pure_step (pr <- py_get result "result" PNone ;;
                          vals <- py_values (py_or pr (PDict [])) ;;
                          scan_result_map vals) ;;
        if hit then pure_step (Ok true)
        else
          add_request_id <~ (fun s => add_course_request py_int s
                                        (request_turn env) (request_post env)) ;;
          if negb (truthy add_request_id) then pure_step (Ok false)
          else
            final <~ (fun s =>
                        (Ok (fst (get_add_drop_response (session_student_id s)
                                    add_request_id 10 0.2%float request_timeout
                                    (add_drop_polls env))), s)) ;;
            fs <~ pure_step (if truthy final then py_get final "success" PNone
                             else Ok PNone) ;;
            if truthy final && truthy fs then pure_step (Ok true)
            else
              pure_step
                (em <- py_get (py_or final (PDict [])) "errorMessage"
                              (PDict []) ;;
                 text <- py_get em "text" (PStr "") ;;
                 dup <- _is_duplicate_message text ;;
                 if dup then Ok true
                 else f <- py_get (py_or final (PDict [])) "duplicate" PNone ;;
                      Ok (truthy f))
      else
        pure_step
          (m1 <- py_get result "errorMessage" PNone ;;
           m2 <- py_get result "message" PNone ;;
           let msg := py_or m1 (py_or m2 (PStr "无详细信息")) in
           text <- (match msg with
                    | PStr _ => Ok msg
                    | _ => py_get msg "text" (PStr "")
                    end) ;;
           _is_duplicate_message text)
    else pure_step (Ok false).

Variable interval : float.
(** [envs i] is the network as iteration [i] meets it. *)
Variable envs : nat -> attempt_env.

(** [for i in range(1, attempts + 1): ...] *)
Fixpoint force_loop (rounds : list nat) : client (bool * list force_event) :=
  match rounds with
  | [] => pure_step (Ok (false, []))
  | i :: rest =>
      won <~ force_iteration (envs i) ;;
      if won then pure_step (Ok (true, [FAttempt i]))
      else
        later <~ force_loop rest ;;
        pure_step (Ok (fst later, FAttempt i :: FSleep interval :: snd later))
  end.

(** [AHUCourseSelector.force_send_requests] *)
Definition force_send_requests (attempts : Z)
  : client (bool * list force_event) :=
  force_loop (seq 1 (Z.to_nat attempts)).

(** The client after the iterations [rounds]. *)
Fixpoint force_client (rounds : list nat) (s : session) : session :=
  match rounds with
  | [] => s
  | i :: rest => force_client rest (snd (force_iteration (envs i) s))
  end.

End Force.

Definition force_attempts (tr : list force_event) : list nat :=
  flat_map (fun e => match e with FAttempt i => [i] | FSleep _ => [] end) tr.

Definition force_sleeps (tr : list force_event) : nat :=
  List.length (filter (fun e => match e with FSleep _ => true | _ => false end) tr).

(** ** Targets one after the other *)

(** How one call of [rapid_select_course] ends for [main]: it returned
    [True], it returned [False], or a Ctrl+C reached [main] from its waiting
    loop. *)
Inductive race_result : Type :=
| RaceWon
| RaceLost
| RaceInterrupted.

Inductive runner_event : Type :=
| RunRace (i : nat) (lesson_id : pyval)
| AskContinue (i : nat)
| RefreshTurn (i : nat).

Inductive runner_report : Type :=
| StoppedAfterSuccess
| FinishedWithSuccess
| AllFailed
| Interrupted.

(** [ui.question(...).lower() == 'y'], the default being ['n'] when the
    question itself fails. *)
Definition says_yes (reply : res string) : bool :=
  match reply with
  | Ok s => String.eqb s "y" || String.eqb s "Y"
  | Raise _ => false
  end.

Section Runner.

(** [race i] is how the race for the [i]-th target ends, [reply i] what the
    operator answers after a win of the [i]-th target. *)
Variable race : nat -> race_result.
Variable reply : nat -> res string.

(** Step 7 of [main]: [for i, target in enumerate(lesson_targets, 1): ...],
    from target number [i] on. *)
Fixpoint run_targets (i : nat) (lesson_ids : list pyval) (success_any : bool)
  : runner_report * list runner_event :=
  match lesson_ids with
  | [] => (if success_any then FinishedWithSuccess else AllFailed, [])
  | lesson_id :: rest =>
      match race i with
      | RaceInterrupted => (Interrupted, [RunRace i lesson_id])
      | RaceWon =>
          if says_yes (reply i) then
            let '(report, evs) := run_targets (S i) rest true in
            (report, RunRace i lesson_id :: AskContinue i :: evs)
          else (StoppedAfterSuccess, [RunRace i lesson_id; AskContinue i])
      | RaceLost =>
          let '(report, evs) := run_targets (S i) rest success_any in
          (report, RunRace i lesson_id :: RefreshTurn i :: evs)
      end
  end.

End Runner.

Definition raced (evs : list runner_event) : list pyval :=
  flat_map (fun e => match e with RunRace _ id => [id] | _ => [] end) evs.

Definition refreshed (evs : list runner_event) : list nat :=
  flat_map (fun e => match e with RefreshTurn i => [i] | _ => [] end) evs.

Definition lost (r : race_result) : bool :=
  match r with RaceLost => true | _ => false end.

(** [obj[k1][k2]], when both lookups succeed. *)
Definition nested (obj : pyval) (k1 k2 : string) : option pyval :=
  match py_item obj k1 with
  | Some v => py_item v k2
  | None => None
  end.

(** The answer [{"result": 0, "data": turn_data}] with a usable
    [turn_data]. *)
Definition turn_data_of (response : res pyval) : option pyval :=
  match response with
  | Ok (PDict top) =>
      if py_eq_zero (get_or "result" top PNone)
         && truthy (get_or "data" top PNone)
      then Some (get_or "data" top PNone)
      else None
  | _ => None
  end.

(** ** Vocabulary for the pollers *)

(** What [get_predicate_response] can hand back: [None], or a non-empty
    result object that is a success or whose error message, if any, is an
    object. *)
Definition predicate_shape (r : pyval) : Prop :=
  r = PNone \/
  exists fields,
    r = PDict fields /\ truthy (PDict fields) = true /\
    (truthy (get_or "success" fields PNone) = true \/
     exists em, get_or "errorMessage" fields (PDict []) = PDict em).

(** What [get_add_drop_response] can hand back: [None], or a result object
    that is a success or carries a non-empty error object. *)
Definition add_drop_shape (r : pyval) : Prop :=
  r = PNone \/
  exists fields,
    r = PDict fields /\
    (truthy (get_or "success" fields PNone) = true \/
     exists e em, get_or "errorMessage" fields PNone = PDict (e :: em)).

(** A failed result whose [errorMessage] entry is there but is not an
    object ([null], a string, a number). *)
Definition malformed_failure (data : pyval) : bool :=
  match body_of data with
  | Some fields =>
      truthy (PDict fields) &&
      negb (truthy (get_or "success" fields PNone)) &&
      match lookup "errorMessage" fields with
      | Some v => negb (is_dict v)
      | None => false
      end
  | None => false
  end.

(** A failed result that says nothing about why. *)
Definition silent_failure (fields : list (string * pyval)) : bool :=
  truthy (PDict fields) &&
  negb (truthy (get_or "success" fields PNone)) &&
  match lookup "errorMessage" fields with
  | Some _ => false
  | None => true
  end.

(** An error whose [text] is read without a type error and is not a
    duplicate notice. *)
Definition plain_error (fields : list (string * pyval)) : bool :=
  negb (truthy (get_or "success" fields PNone)) &&
  match get_or "errorMessage" fields PNone with
  | PDict (e :: em) =>
      match _is_duplicate_message (get_or "text" (e :: em) (PStr "未知错误")) with
      | Ok false => true
      | _ => false
      end
  | _ => false
  end.

(** ** Vocabulary for the attempt *)

(** The messages of an attempt that ended as a success or as "already
    held". *)
Definition winning_msg (m : attempt_msg) : bool :=
  match m with
  | MDuplicatePredicate | MDuplicatePredicateResult
  | MConfirmed | MDuplicateAddDrop => true
  | _ => false
  end.

(** The network never answers this attempt. *)
Definition env_offline : attempt_env :=
  {| predicate_turn := Raise RequestError;
     predicate_post := Raise RequestError;
     predicate_polls := fun _ => Raise RequestError;
     request_turn := Raise RequestError;
     request_post := Raise RequestError;
     add_drop_polls := fun _ => Raise RequestError |}.




(** The intent poll fails with a number where the error text should be. *)
Definition env_bad_text : attempt_env :=
  {| predicate_turn := Raise RequestError;
     predicate_post := Ok (answer (PStr "req-1"));
     predicate_polls := fun _ =>
       Ok (answer (PDict [("success", PBool false);
                          ("errorMessage", PDict [("text", PInt 5)])]));
     request_turn := Raise RequestError;
     request_post := Raise RequestError;
     add_drop_polls := fun _ => Raise RequestError |}.

(** ** Vocabulary for the scheduler *)

(** The attempt indices launched, in the order of their launch. *)
Definition launched (evs : list race_event) : list nat :=
  flat_map (fun e => match e with
                     | ELaunch idx _ => [idx]
                     | ECancel _ => []
                     end) evs.

(** The attempts launched so far are numbered 1, 2, ... up to the counter,
    and the futures in flight are distinct ones among them. *)
Definition well_numbered (st : race_state) : Prop :=
  launched (events st) = seq 1 (attempt_counter st) /\
  NoDup (futures st) /\
  forall f, In f (futures st) -> (1 <= f <= attempt_counter st)%nat.

(** No [cancel] has been called. *)
Definition never_cancelled (st : race_state) : Prop :=
  Forall (fun e => is_launch e = true) (events st).

(** * Properties *)

(** ** Classification helpers *)

Example dup_zh :
  _is_duplicate_message (PStr "选课失败: 相同教学班只能选一次!") = Ok true.
Proof. reflexivity. Qed.

Example dup_en :
  _is_duplicate_message (PStr "Duplicate lessons are not allowed.") = Ok true.
Proof. reflexivity. Qed.

Example dup_none : _is_duplicate_message PNone = Ok false.
Proof. reflexivity. Qed.

Example dup_list :
  _is_duplicate_message (PList [PStr "Duplicate lessons are not allowed"]) = Ok true.
Proof. reflexivity. Qed.

Example extract_zh :
  _extract_text_field (PDict [("text", PNone); ("textZh", PStr "时间冲突")])
  = PStr "时间冲突".
Proof. reflexivity. Qed.

Example extract_list : _extract_text_field (PList [PStr "text"]) = PStr "".
Proof. reflexivity. Qed.

Lemma is_duplicate_str (s : string) :
  _is_duplicate_message (PStr s) =
  Ok (negb (String.eqb s "") &&
      (contains "相同教学班只能选一次" s || contains "Duplicate lessons are not allowed" s)).
Proof.
  unfold _is_duplicate_message, duplicate_keywords.
  cbn [truthy py_any_in py_in bind].
  destruct (String.eqb s ""); cbn [negb andb]; [reflexivity|].
  destruct (contains "相同教学班只能选一次" s); cbn [orb]; [reflexivity|].
  destruct (contains "Duplicate lessons are not allowed" s); reflexivity.
Qed.

Lemma is_duplicate_falsy (v : pyval) :
  truthy v = false -> _is_duplicate_message v = Ok false.
Proof. intros E. unfold _is_duplicate_message. rewrite E. reflexivity. Qed.


Lemma text_like_cases (v : pyval) :
  text_like v = true -> (exists s, v = PStr s) \/ truthy v = false.
Proof.
  destruct v; cbn [text_like]; intros E;
    try (right; apply negb_true_iff in E; exact E).
  left. eexists. reflexivity.
Qed.

Lemma py_or_text (a b : pyval) :
  text_like a = true -> (exists s, b = PStr s) -> exists s, py_or a b = PStr s.
Proof.
  intros Ha [s Hb]. unfold py_or.
  destruct (text_like_cases a Ha) as [[t ->] | F].
  - destruct (truthy (PStr t)); eauto.
  - rewrite F. eauto.
Qed.

Lemma extract_text_is_string (obj : pyval) :
  text_fields_ok obj = true -> exists s, _extract_text_field obj = PStr s.
Proof.
  destruct obj; cbn [_extract_text_field text_fields_ok]; intros E; eauto.
  cbn [forallb] in E.
  apply andb_true_iff in E as [E1 E].
  apply andb_true_iff in E as [E2 E].
  apply andb_true_iff in E as [E3 _].
  unfold get_or in E1, E2, E3.
  apply py_or_text; [exact E1|].
  apply py_or_text; [exact E2|].
  apply py_or_text; [exact E3|].
  eauto.
Qed.

(** C9, amended.  Both helpers are functions of their argument alone (no
    state is read or written).  The duplicate check yields exactly one
    boolean on every string and on every falsy value ([None], [''], [0],
    [[]], [{}]).  The text extractor never raises; on every string, every
    value that is not a dict, and every dict whose [text], [textZh] and
    [textEn] entries are absent, falsy or strings, it yields exactly one
    string, and extracting again from that string returns it unchanged. *)
Theorem classification_total_on_text :
  (forall s, exists! b, _is_duplicate_message (PStr s) = Ok b) /\
  (forall v, truthy v = false -> _is_duplicate_message v = Ok false) /\
  (forall obj, text_fields_ok obj = true ->
     exists! s, _extract_text_field obj = PStr s) /\
  (forall obj, text_fields_ok obj = true ->
     _extract_text_field (_extract_text_field obj) = _extract_text_field obj).
Proof.
  split; [|split; [|split]].
  - intros s. eexists. split; [apply is_duplicate_str|].
    intros b' E. rewrite is_duplicate_str in E. congruence.
  - exact is_duplicate_falsy.
  - intros obj E. destruct (extract_text_is_string obj E) as [s Hs].
    exists s. split; [exact Hs|]. intros s' Hs'. congruence.
  - intros obj E. destruct (extract_text_is_string obj E) as [s Hs].
    rewrite Hs. reflexivity.
Qed.

Lemma classification_total_on_text_witness :
  _is_duplicate_message (PStr "") = Ok false /\
  (exists! s, _extract_text_field
                (PDict [("text", PNone); ("textZh", PStr "时间冲突")]) = PStr s).
Proof.
  destruct classification_total_on_text as (_ & Hfalsy & Htext & _).
  split.
  - apply Hfalsy. reflexivity.
  - apply Htext. reflexivity.
Defined.

(** C9 as stated fails: a truthy number makes the duplicate check raise
    [TypeError] ([in] needs a container), and an error map whose [text] is a
    number is returned by the extractor as that number, not as a string. *)
Lemma classification_not_total :
  ~ (forall v, exists b, _is_duplicate_message v = Ok b) /\
  ~ (forall obj, exists s, _extract_text_field obj = PStr s).
Proof.
  split; intros H.
  - destruct (H (PInt 5)) as [b Hb]. discriminate Hb.
  - destruct (H (PDict [("text", PInt 5)])) as [s Hs]. discriminate Hs.
Qed.

(** ** Race window *)

Example window_early :
  derive_window (seconds 100) (seconds 20)
  = {| start_time := seconds 95; deadline := seconds 280 |}.
Proof. reflexivity. Qed.

Example window_late :
  derive_window (seconds 100) (seconds 130)
  = {| start_time := seconds 129; deadline := seconds 310 |}.
Proof. reflexivity. Qed.

(** C4, amended.  The window starts one second before now when now is
    already past the target time and five seconds before the target time
    otherwise.  The start is therefore never later than
    [max(now, target - 5 s)], and the later of now and the start is exactly
    [max(now, target - 5 s)]: a race whose lead-in has begun starts at once.
    The deadline is [max(target, now) + 180 s], and start <= deadline always
    (strictly). *)
Theorem window_shape (target_time now_dt : Z) :
  let w := derive_window target_time now_dt in
  start_time w = (if now_dt >? target_time then now_dt - seconds 1
                  else target_time - seconds 5) /\
  start_time w <= Z.max now_dt (target_time - seconds 5) /\
  Z.max now_dt (start_time w) = Z.max now_dt (target_time - seconds 5) /\
  deadline w = Z.max target_time now_dt + seconds max_duration /\
  start_time w <= deadline w /\
  start_time w < deadline w.
Proof.
  cbn [derive_window start_time deadline].
  unfold seconds, max_duration.
  destruct (Z.gtb_spec now_dt target_time); repeat split; lia.
Qed.

(** C4 as stated fails: ten seconds after the target time the start is
    [now - 1 s], not [max(now, target - 5 s) = now]; two seconds before it
    the start is [target - 5 s], not [now]. *)
Lemma window_start_differs :
  start_time (derive_window 0 (seconds 10)) <> Z.max (seconds 10) (0 - seconds 5) /\
  start_time (derive_window (seconds 10) (seconds 8))
    <> Z.max (seconds 8) (seconds 10 - seconds 5).
Proof. split; vm_compute; discriminate. Qed.

(** ** Result pollers *)

Section PollerFacts.

Variable round : pyval -> res round_result.
Variable endpoint : string.
Variable request_id : pyval.
Variable max_retries : Z.
Variables poll_interval timeout : float.
Variable responses : nat -> res pyval.

Let rounds_of := poll_rounds round endpoint request_id max_retries
                            poll_interval timeout responses.

Let loop_effect := poll_effect endpoint request_id poll_interval timeout.

Lemma poll_rounds_effects (rounds : list nat) :
  Forall loop_effect (snd (rounds_of rounds)).
Proof.
  assert (G : loop_effect (EGet endpoint request_id timeout)) by (left; reflexivity).
  assert (S : loop_effect (ESleep poll_interval)) by (right; reflexivity).
  unfold rounds_of.
  induction rounds as [|i rest IH]; cbn [poll_rounds snd]; [constructor|].
  destruct (data <- responses i ;; round data) as [[r|]|e].
  - cbn [snd]. constructor; [exact G|constructor].
  - destruct (poll_rounds _ _ _ _ _ _ _ rest) as [r tr]. cbn [snd] in *.
    constructor; [exact G|].
    apply Forall_app. split; [|exact IH].
    destruct (more_rounds max_retries i); constructor; [exact S|constructor].
  - destruct (more_rounds max_retries i).
    + destruct (poll_rounds _ _ _ _ _ _ _ rest) as [r tr]. cbn [snd] in *.
      constructor; [exact G|]. constructor; [exact S|exact IH].
    + cbn [snd]. constructor; [exact G|constructor].
Qed.

Lemma count_get (e : string) (r : pyval) (t : float) (tr : list effect) :
  count_gets (EGet e r t :: tr) = 1 + count_gets tr /\
  count_sleeps (EGet e r t :: tr) = count_sleeps tr.
Proof.
  unfold count_gets, count_sleeps. cbn [filter is_get is_sleep List.length]. lia.
Qed.

Lemma count_sleep (i : float) (tr : list effect) :
  count_gets (ESleep i :: tr) = count_gets tr /\
  count_sleeps (ESleep i :: tr) = 1 + count_sleeps tr.
Proof.
  unfold count_gets, count_sleeps. cbn [filter is_get is_sleep List.length]. lia.
Qed.

Lemma count_nil : count_gets [] = 0 /\ count_sleeps [] = 0.
Proof. split; reflexivity. Qed.

Ltac count_effects :=
  repeat match goal with
         | |- context [count_gets (EGet ?e ?r ?t :: ?tr)] =>
             rewrite (proj1 (count_get e r t tr))
         | |- context [count_sleeps (EGet ?e ?r ?t :: ?tr)] =>
             rewrite (proj2 (count_get e r t tr))
         | |- context [count_gets (ESleep ?i :: ?tr)] =>
             rewrite (proj1 (count_sleep i tr))
         | |- context [count_sleeps (ESleep ?i :: ?tr)] =>
             rewrite (proj2 (count_sleep i tr))
         | |- context [count_gets []] => rewrite (proj1 count_nil)
         | |- context [count_sleeps []] => rewrite (proj2 count_nil)
         end.

(** One GET per round entered; a sleep only after a round that is not the
    last one of the budget. *)
Lemma poll_rounds_counts (rounds : list nat) :
  count_gets (snd (rounds_of rounds)) <= Z.of_nat (List.length rounds) /\
  count_sleeps (snd (rounds_of rounds))
    <= Z.of_nat (List.length (filter (more_rounds max_retries) rounds)).
Proof.
  unfold rounds_of.
  induction rounds as [|i rest [IHg IHs]]; cbn [poll_rounds snd].
  - split; reflexivity.
  - cbn [filter List.length].
    destruct (data <- responses i ;; round data) as [[r|]|e].
    + cbn [snd]. count_effects.
      destruct (more_rounds max_retries i); cbn [List.length]; lia.
    + destruct (poll_rounds _ _ _ _ _ _ _ rest) as [r tr]. cbn [snd] in *.
      destruct (more_rounds max_retries i); cbn [app List.length];
        count_effects; lia.
    + destruct (more_rounds max_retries i).
      * destruct (poll_rounds _ _ _ _ _ _ _ rest) as [r tr]. cbn [snd] in *.
        cbn [List.length]. count_effects. lia.
      * cbn [snd]. count_effects. lia.
Qed.

Lemma more_rounds_budget (a n : nat) :
  Z.of_nat (List.length (filter (more_rounds max_retries) (seq a n)))
  <= Z.max 0 (max_retries - 1 - Z.of_nat a).
Proof.
  revert a. induction n as [|n IH]; intros a; cbn [seq filter List.length].
  - lia.
  - specialize (IH (S a)). unfold more_rounds at 1.
    destruct (Z.ltb_spec (Z.of_nat a) (max_retries - 1)); cbn [List.length]; lia.
Qed.

Lemma poll_rounds_pending (rounds : list nat) :
  (forall i, In i rounds -> pending round responses i = true) ->
  fst (rounds_of rounds) = PNone.
Proof.
  unfold rounds_of.
  induction rounds as [|i rest IH]; intros P; cbn [poll_rounds fst]; [reflexivity|].
  assert (Pi := P i (or_introl eq_refl)). unfold pending in Pi.
  assert (IH' := IH (fun j Hj => P j (or_intror Hj))).
  destruct (data <- responses i ;; round data) as [[r|]|e]; [discriminate| |].
  - destruct (poll_rounds _ _ _ _ _ _ _ rest) as [r tr]. exact IH'.
  - destruct (more_rounds max_retries i); [|reflexivity].
    destruct (poll_rounds _ _ _ _ _ _ _ rest) as [r tr]. exact IH'.
Qed.

Lemma poll_rounds_answer (r : pyval) (n a i : nat) :
  (a <= i < a + n)%nat ->
  Z.of_nat i < max_retries ->
  (forall j, (a <= j < i)%nat -> pending round responses j = true) ->
  (data <- responses i ;; round data) = Ok (RReturn r) ->
  fst (rounds_of (seq a n)) = r.
Proof.
  unfold rounds_of.
  revert a. induction n as [|n IH]; intros a Hi Hmax P Hr; [lia|].
  cbn [seq poll_rounds].
  destruct (Nat.eq_dec a i) as [->|Hne].
  - rewrite Hr. reflexivity.
  - assert (Pa : pending round responses a = true) by (apply P; lia).
    assert (IH' : fst (poll_rounds round endpoint request_id max_retries
                         poll_interval timeout responses (seq (S a) n)) = r).
    { apply IH; [lia|exact Hmax| |exact Hr]. intros j Hj. apply P. lia. }
    unfold pending in Pa.
    assert (M : more_rounds max_retries a = true).
    { unfold more_rounds. apply Z.ltb_lt. lia. }
    destruct (data <- responses a ;; round data) as [[r'|]|e]; [discriminate| |].
    + destruct (poll_rounds _ _ _ _ _ _ _ (seq (S a) n)) as [r' tr]. exact IH'.
    + rewrite M.
      destruct (poll_rounds _ _ _ _ _ _ _ (seq (S a) n)) as [r' tr]. exact IH'.
Qed.

Lemma session_ready_poll (student_id : option string) :
  session_ready student_id = true ->
  poll round endpoint request_id max_retries poll_interval timeout responses
       student_id
  = rounds_of (seq 0 (Z.to_nat max_retries)).
Proof.
  unfold session_ready, poll, rounds_of.
  destruct student_id as [[|c s]|]; intros E; try discriminate; reflexivity.
Qed.

(** The budget of one call of the shared loop. *)
Lemma poll_bounded (student_id : option string) :
  within_budget round endpoint request_id max_retries poll_interval timeout
    responses
    (poll round endpoint request_id max_retries poll_interval timeout
          responses student_id).
Proof.
  unfold within_budget.
  destruct (session_ready student_id) eqn:S.
  - rewrite (session_ready_poll _ S).
    pose proof (poll_rounds_counts (seq 0 (Z.to_nat max_retries))) as [G L].
    pose proof (poll_rounds_effects (seq 0 (Z.to_nat max_retries))) as E.
    pose proof (poll_rounds_pending (seq 0 (Z.to_nat max_retries))) as P.
    pose proof (more_rounds_budget 0 (Z.to_nat max_retries)) as B.
    rewrite length_seq in G.
    repeat split; [lia|lia|exact E|].
    intros Hp. apply P. intros i Hi. apply in_seq in Hi. apply Hp. lia.
  - assert (poll round endpoint request_id max_retries poll_interval timeout
                 responses student_id = (PNone, [])) as ->.
    { unfold session_ready in S. unfold poll.
      destruct student_id as [[|c s]|]; try discriminate; reflexivity. }
    cbn [fst snd]. rewrite (proj1 count_nil), (proj2 count_nil).
    repeat split; try lia. constructor.
Qed.

(** The first round that returns decides the value of the call. *)
Lemma poll_answer (student_id : option string) (i : nat) (r : pyval) :
  session_ready student_id = true ->
  reaches_round round responses max_retries i = true ->
  (data <- responses i ;; round data) = Ok (RReturn r) ->
  fst (poll round endpoint request_id max_retries poll_interval timeout
            responses student_id) = r.
Proof.
  intros S R Hr. rewrite (session_ready_poll _ S).
  unfold reaches_round in R. apply andb_true_iff in R as [Hmax Hp].
  apply Z.ltb_lt in Hmax. rewrite forallb_forall in Hp.
  apply (poll_rounds_answer r (Z.to_nat max_retries) 0 i); [lia|exact Hmax| |exact Hr].
  intros j Hj. apply Hp. apply in_seq. lia.
Qed.

End PollerFacts.

Example predicate_not_ready_then_ok :
  get_predicate_response (Some "20240001") (PStr "req-1") 8 0.15%float 5%float
    (fun i => match i with
              | O => Ok (PDict [("result", PInt 0); ("data", PNone)])
              | S O => Raise RequestError
              | _ => Ok (PDict [("result", PInt 0);
                                ("data", PDict [("success", PBool true)])])
              end)
  = (PDict [("success", PBool true)],
     [EGet "predicate-response" (PStr "req-1") 5%float; ESleep 0.15%float;
      EGet "predicate-response" (PStr "req-1") 5%float; ESleep 0.15%float;
      EGet "predicate-response" (PStr "req-1") 5%float]).
Proof. reflexivity. Qed.

Example add_drop_never_ready :
  get_add_drop_response (Some "20240001") (PStr "req-2") 3 0.2%float 5%float
    (fun _ => Ok (PDict [("result", PInt 0); ("data", PNone)]))
  = (PNone,
     [EGet "add-drop-response" (PStr "req-2") 5%float; ESleep 0.2%float;
      EGet "add-drop-response" (PStr "req-2") 5%float; ESleep 0.2%float;
      EGet "add-drop-response" (PStr "req-2") 5%float]).
Proof. reflexivity. Qed.

Example add_drop_query_failed :
  get_add_drop_response (Some "20240001") (PStr "req-2") 10 0.2%float 5%float
    (fun _ => Ok (PDict [("result", PInt 1); ("message", PStr "busy")]))
  = (PNone, [EGet "add-drop-response" (PStr "req-2") 5%float]).
Proof. reflexivity. Qed.

(** C8.  A call of either poller makes at most [max_retries] GET requests,
    each with the caller's per-request timeout, sleeps the fixed
    [poll_interval] at most [max_retries - 1] times and does nothing else;
    the call is a total function of the answers it receives, and when no
    round within the budget brings a value back it returns [None]. *)
Theorem pollers_bounded (student_id : option string) (request_id : pyval)
    (max_retries : Z) (poll_interval timeout : float)
    (responses : nat -> res pyval) :
  within_budget predicate_round "predicate-response" request_id max_retries
    poll_interval timeout responses
    (get_predicate_response student_id request_id max_retries poll_interval
       timeout responses) /\
  within_budget add_drop_round "add-drop-response" request_id max_retries
    poll_interval timeout responses
    (get_add_drop_response student_id request_id max_retries poll_interval
       timeout responses).
Proof.
  split.
  - exact (poll_bounded predicate_round "predicate-response" request_id
             max_retries poll_interval timeout responses student_id).
  - exact (poll_bounded add_drop_round "add-drop-response" request_id
             max_retries poll_interval timeout responses student_id).
Qed.

Lemma pollers_bounded_witness :
  fst (get_add_drop_response (Some "20240001") (PStr "req-2") 3 0.2%float 5%float
         (fun _ => Ok (PDict [("result", PInt 0); ("data", PNone)]))) = PNone.
Proof.
  apply (proj2 (pollers_bounded (Some "20240001") (PStr "req-2") 3
                  0.2%float 5%float
                  (fun _ => Ok (PDict [("result", PInt 0); ("data", PNone)])))).
  intros i _. reflexivity.
Defined.

Lemma lookup_dict_set_same (k : string) (v : pyval) (d : list (string * pyval)) :
  lookup k (dict_set k v d) = Some v.
Proof.
  induction d as [|[k' v'] d IH]; cbn [dict_set lookup].
  - rewrite String.eqb_refl. reflexivity.
  - destruct (String.eqb k k') eqn:E; cbn [lookup]; rewrite ?String.eqb_refl, ?E;
      [reflexivity|exact IH].
Qed.

Lemma lookup_dict_set_other (k k' : string) (v : pyval) (d : list (string * pyval)) :
  String.eqb k k' = false ->
  lookup k (dict_set k' v d) = lookup k d.
Proof.
  intros N. induction d as [|[k0 v0] d IH]; cbn [dict_set lookup].
  - rewrite N. reflexivity.
  - destruct (String.eqb k' k0) eqn:E; cbn [lookup].
    + apply String.eqb_eq in E. subst k0. rewrite N. reflexivity.
    + destruct (String.eqb k k0); [reflexivity|exact IH].
Qed.

Lemma body_of_shape (data : pyval) (fields : list (string * pyval)) :
  body_of data = Some fields ->
  exists top, data = PDict top /\
              py_eq_zero (get_or "result" top PNone) = true /\
              get_or "data" top PNone = PDict fields.
Proof.
  unfold body_of. destruct data as [| | | | | |top]; try discriminate.
  destruct (py_eq_zero (get_or "result" top PNone)) eqn:Z0; [|discriminate].
  destruct (get_or "data" top PNone) as [| | | | | |fields'] eqn:D;
    try discriminate.
  intros [= ->]. exists top. repeat split; assumption.
Qed.

Lemma duplicate_text_shape (fields : list (string * pyval)) :
  duplicate_text fields = true ->
  exists e em,
    lookup "errorMessage" fields = Some (PDict (e :: em)) /\
    _is_duplicate_message (get_or "text" (e :: em) (PStr "未知错误")) = Ok true.
Proof.
  unfold duplicate_text, get_or at 1.
  destruct (lookup "errorMessage" fields) as [[| | | | | |[|e em]]|]; try discriminate.
  destruct (_is_duplicate_message _) as [[|]|] eqn:D; try discriminate.
  intros _. exists e, em. split; [reflexivity|exact D].
Qed.

(** A failed result whose error text is a duplicate notice comes back from
    one round rewritten as a success. *)
Lemma add_drop_round_duplicate (data : pyval) (fields : list (string * pyval)) :
  body_of data = Some fields ->
  truthy (get_or "success" fields PNone) = false ->
  duplicate_text fields = true ->
  add_drop_round data
  = Ok (RReturn (PDict (dict_set "duplicate" (PBool true)
                          (dict_set "success" (PBool true) fields)))).
Proof.
  intros B S D.
  destruct (body_of_shape _ _ B) as (top & -> & Z0 & Hd).
  destruct (duplicate_text_shape _ D) as (e & em & Hem & Hdup).
  unfold get_or in *.
  unfold add_drop_round. cbn [py_get bind]. rewrite Z0. cbn [bind]. rewrite Hd.
  assert (T : truthy (PDict fields) = true).
  { destruct fields; [discriminate Hem|reflexivity]. }
  unfold py_or. rewrite T. cbn [py_get bind]. rewrite S.
  rewrite Hem. cbn [truthy py_get bind]. rewrite Hdup. reflexivity.
Qed.

Example add_drop_duplicate_example :
  fst (get_add_drop_response (Some "20240001") (PStr "req-2") 10 0.2%float 5%float
         (fun _ => Ok (PDict [("result", PInt 0);
                              ("data", PDict [("success", PBool false);
                                              ("errorMessage",
                                               PDict [("text", PStr "相同教学班只能选一次")])])])))
  = PDict [("success", PBool true);
           ("errorMessage", PDict [("text", PStr "相同教学班只能选一次")]);
           ("duplicate", PBool true)].
Proof. reflexivity. Qed.

(** C10.  When a round of [get_add_drop_response] within the retry budget is
    reached and is answered [{"result": 0, "data": result}] with a [result]
    that is a server-reported error (its [success] is not set) whose
    [errorMessage] map has a [text] carrying a duplicate marker, the call
    returns that same result with [success] and [duplicate] set to [True]:
    the caller reads it as a success. *)
Theorem add_drop_duplicate_is_success (student_id : option string)
    (request_id : pyval) (max_retries : Z) (poll_interval timeout : float)
    (responses : nat -> res pyval) (i : nat) (data : pyval)
    (fields : list (string * pyval)) :
  session_ready student_id = true ->
  reaches_round add_drop_round responses max_retries i = true ->
  responses i = Ok data ->
  body_of data = Some fields ->
  truthy (get_or "success" fields PNone) = false ->
  duplicate_text fields = true ->
  let returned := dict_set "duplicate" (PBool true)
                    (dict_set "success" (PBool true) fields) in
  fst (get_add_drop_response student_id request_id max_retries poll_interval
         timeout responses) = PDict returned /\
  lookup "success" returned = Some (PBool true) /\
  lookup "duplicate" returned = Some (PBool true) /\
  (forall k, k <> "success" -> k <> "duplicate" ->
             lookup k returned = lookup k fields).
Proof.
  intros S R Hresp B Hs D returned.
  split; [|split; [|split]].
  - unfold get_add_drop_response.
    apply (poll_answer add_drop_round _ _ _ _ _ responses student_id i); auto.
    rewrite Hresp. cbn [bind]. apply add_drop_round_duplicate; assumption.
  - unfold returned. rewrite lookup_dict_set_other by reflexivity.
    apply lookup_dict_set_same.
  - apply lookup_dict_set_same.
  - intros k N1 N2. unfold returned.
    rewrite !lookup_dict_set_other; [reflexivity| |];
      apply String.eqb_neq; assumption.
Qed.

Lemma add_drop_duplicate_is_success_witness :
  fst (get_add_drop_response (Some "20240001") (PStr "req-2") 10 0.2%float 5%float
         (fun _ => Ok (PDict [("result", PInt 0);
                              ("data", PDict [("success", PBool false);
                                              ("errorMessage",
                                               PDict [("text", PStr "相同教学班只能选一次")])])])))
  = PDict (dict_set "duplicate" (PBool true)
             (dict_set "success" (PBool true)
                [("success", PBool false);
                 ("errorMessage", PDict [("text", PStr "相同教学班只能选一次")])])).
Proof.
  apply (add_drop_duplicate_is_success (Some "20240001") (PStr "req-2") 10
           0.2%float 5%float _ 0%nat
           (PDict [("result", PInt 0);
                   ("data", PDict [("success", PBool false);
                                   ("errorMessage",
                                    PDict [("text", PStr "相同教学班只能选一次")])])])
           [("success", PBool false);
            ("errorMessage", PDict [("text", PStr "相同教学班只能选一次")])]);
    reflexivity.
Defined.

(** ** Clock synchronisation *)

Example ntp_two_of_three :
  sync_time_with_ntp (F := Z)
    (fun i => match i with
              | O => NtpReply 1000 400
              | S O => NtpFailure RequestError
              | _ => NtpReply 900 500
              end)
  = (500,
     [(INFO, NMeasured 1 600); (FAIL, NSampleFailed 2 RequestError);
      (INFO, NMeasured 3 400); (OK_TAG, NSynced); (INFO, NAverage 500 2)]).
Proof. reflexivity. Qed.

Example ntp_binary64 :
  fst (sync_time_with_ntp (F := float)
         (fun _ => NtpReply 1700000000.75%float 1700000000.25%float))
  = 0.5%float.
Proof. reflexivity. Qed.

Section NtpFacts.

Context {F : Type} `{FloatOps F}.
Variable samples : nat -> @ntp_sample F.

Let offset_of (i : nat) : list F :=
  match samples i with
  | NtpReply ntp_time local_time => [fsub ntp_time local_time]
  | NtpFailure _ => []
  end.

(** The loop appends the offset of every answered round and one console
    line per round, whatever happened in the rounds before. *)
Lemma ntp_rounds_spec (rounds : list nat) (offsets : list F) (log : ntp_log) :
  fst (ntp_rounds samples rounds offsets log)
    = offsets ++ flat_map offset_of rounds /\
  sampled_rounds (snd (ntp_rounds samples rounds offsets log))
    = sampled_rounds log ++ map S rounds.
Proof.
  revert offsets log.
  induction rounds as [|i rest IH]; intros offsets log; cbn [ntp_rounds].
  - cbn [flat_map map fst snd]. rewrite !app_nil_r. split; reflexivity.
  - cbn [flat_map map]. unfold offset_of at 1.
    destruct (samples i) as [ntp_time local_time|e].
    + destruct (IH (offsets ++ [fsub ntp_time local_time])
                   (log ++ [(INFO, NMeasured (S i) (fsub ntp_time local_time))]))
        as [Ho Hl].
      rewrite Ho, Hl. unfold sampled_rounds. rewrite flat_map_app.
      cbn [flat_map snd app]. rewrite <- !app_assoc. split; reflexivity.
    + destruct (IH offsets (log ++ [(FAIL, NSampleFailed (S i) e)])) as [Ho Hl].
      rewrite Ho, Hl. unfold sampled_rounds. rewrite flat_map_app.
      cbn [flat_map snd app]. rewrite <- !app_assoc. split; reflexivity.
Qed.

(** C3.  [sync_time_with_ntp] takes its three samples whatever fails among
    them (every failure is caught within its own round and leaves a console
    line), and returns the arithmetic mean of the offsets of the answered
    samples: their total divided by their number.  When no sample is
    answered it returns exactly zero and warns on the console, without
    raising, that every attempt failed (a line under the [FAIL] tag) and
    that the local clock will be used.  The function is total: it returns a
    number for every behaviour of the NTP server. *)
Theorem ntp_mean_of_successes :
  let offsets := successful_offsets samples in
  (offsets <> [] ->
   fst (sync_time_with_ntp samples)
   = fdiv_len (fsum offsets) (List.length offsets)) /\
  (offsets = [] ->
   fst (sync_time_with_ntp samples) = fzero /\
   In (FAIL, NAllFailed) (snd (sync_time_with_ntp samples)) /\
   In (INFO, NUseLocalClock) (snd (sync_time_with_ntp samples))) /\
  sampled_rounds (snd (sync_time_with_ntp samples)) = [1; 2; 3]%nat.
Proof.
  intros offsets.
  destruct (ntp_rounds_spec (seq 0 3) [] []) as [Ho Hl].
  cbn [app] in Ho, Hl. change (flat_map offset_of (seq 0 3)) with offsets in Ho.
  unfold sync_time_with_ntp.
  destruct (ntp_rounds samples (seq 0 3) [] []) as [offs log].
  cbn [fst snd] in Ho, Hl. subst offs.
  assert (R : forall tail, sampled_rounds tail = [] ->
                           sampled_rounds (log ++ tail) = [1; 2; 3]%nat).
  { intros tail T. unfold sampled_rounds in *. rewrite flat_map_app, T, app_nil_r.
    exact Hl. }
  destruct offsets as [|o offsets'] eqn:E; cbn [fst snd].
  - split; [intros N; contradiction N; reflexivity|]. split.
    + intros _. split; [reflexivity|].
      split; apply in_or_app; right; cbn [In]; auto.
    + apply R. reflexivity.
  - split; [intros _; reflexivity|]. split; [discriminate|].
    apply R. reflexivity.
Qed.

End NtpFacts.

Lemma ntp_mean_of_successes_witness :
  fst (sync_time_with_ntp (F := Z) (fun _ => NtpFailure RequestError)) = 0 /\
  fst (sync_time_with_ntp (F := Z)
         (fun i => match i with
                   | O => NtpReply 1000 400
                   | S O => NtpFailure RequestError
                   | _ => NtpReply 900 500
                   end)) = 500.
Proof.
  split.
  - exact (proj1 (proj1 (proj2 (ntp_mean_of_successes (F := Z)
                                  (fun _ => NtpFailure RequestError)))
                        eq_refl)).
  - refine (proj1 (ntp_mean_of_successes (F := Z)
                     (fun i => match i with
                               | O => NtpReply 1000 400
                               | S O => NtpFailure RequestError
                               | _ => NtpReply 900 500
                               end)) _).
    discriminate.
Defined.

(** ** The race scheduler *)

Section RaceFacts.

Variable order : set_order.
Variable attempt : nat -> attempt_result.
Variable concurrency : Z.
Variable w : race_window.

Let step := race_step order attempt concurrency w.
Let loop := race_loop order attempt concurrency w.
Let fill := refill concurrency.

(** The refill loop launches exactly the missing attempts, numbered from
    the counter on, and then stops. *)
Lemma refill_spec (fuel : nat) (now : Z) (st : race_state) :
  (Z.to_nat (concurrency - in_flight st) <= fuel)%nat ->
  let n := Z.to_nat (concurrency - in_flight st) in
  let fresh := seq (S (attempt_counter st)) n in
  attempt_counter (fill fuel now st) = (attempt_counter st + n)%nat /\
  futures (fill fuel now st) = futures st ++ fresh /\
  last_error (fill fuel now st) = last_error st /\
  status_line (fill fuel now st) = status_line st /\
  events (fill fuel now st)
    = events st ++ map (fun idx => ELaunch idx now) fresh.
Proof.
  unfold fill. revert st.
  induction fuel as [|fuel IH]; intros st Hfuel; cbn [refill].
  - assert (Z.to_nat (concurrency - in_flight st) = 0%nat) as -> by lia.
    cbn [seq map]. rewrite !app_nil_r, Nat.add_0_r. repeat split.
  - fold (in_flight st).
    destruct (Z.ltb_spec (in_flight st) concurrency) as [Lt|Ge].
    + assert (L : in_flight (launch now st) = in_flight st + 1).
      { unfold in_flight, launch. cbn [futures]. rewrite length_app.
        cbn [List.length]. lia. }
      assert (N : Z.to_nat (concurrency - in_flight st)
                  = S (Z.to_nat (concurrency - in_flight (launch now st))))
        by lia.
      destruct (IH (launch now st)) as (Hc & Hf & He & Hs & Hev); [lia|].
      rewrite Hc, Hf, He, Hs, Hev, N.
      cbn [launch attempt_counter futures last_error status_line events seq map].
      rewrite <- !app_assoc. cbn [app].
      repeat split. lia.
    + assert (Z.to_nat (concurrency - in_flight st) = 0%nat) as -> by lia.
      cbn [seq map]. rewrite !app_nil_r, Nat.add_0_r. repeat split.
Qed.

Lemma refill_enough (now : Z) (st : race_state) :
  (Z.to_nat (concurrency - in_flight st) <= Z.to_nat concurrency)%nat.
Proof. unfold in_flight. lia. Qed.

(** After the refill the pool is full, and never more than full when it was
    not over-full before. *)
Lemma refill_in_flight (now : Z) (st : race_state) :
  in_flight (fill (Z.to_nat concurrency) now st)
  = Z.max (in_flight st) concurrency.
Proof.
  destruct (refill_spec _ now st (refill_enough now st)) as (_ & Hf & _).
  unfold in_flight in *. rewrite Hf, length_app, length_seq. lia.
Qed.

Lemma wait_not_done_length (fs finished : list nat) :
  (List.length (snd (wait fs finished)) <= List.length fs)%nat.
Proof. cbn [wait snd]. apply filter_length_le. Qed.

Lemma wait_done_iff (fs finished : list nat) (id : nat) :
  In id (fst (wait fs finished)) <-> In id finished /\ In id fs.
Proof.
  cbn [wait fst]. rewrite nodup_In, filter_In. unfold mem.
  rewrite existsb_exists. split.
  - intros [Hin (x & Hx & E)]. apply Nat.eqb_eq in E. subst x. auto.
  - intros [Hin Hfs]. split; [exact Hin|]. exists id. split; [exact Hfs|].
    apply Nat.eqb_refl.
Qed.

Lemma wait_not_done_iff (fs finished : list nat) (id : nat) :
  In id (snd (wait fs finished)) <-> In id fs /\ ~ In id finished.
Proof.
  cbn [wait snd]. rewrite filter_In. unfold mem. split.
  - intros [Hfs N]. split; [exact Hfs|]. intros Hin.
    apply negb_true_iff in N.
    assert (existsb (Nat.eqb id) finished = true); [|congruence].
    apply existsb_exists. exists id. split; [exact Hin|apply Nat.eqb_refl].
  - intros [Hfs N]. split; [exact Hfs|]. apply negb_true_iff.
    destruct (existsb (Nat.eqb id) finished) eqn:E; [|reflexivity].
    apply existsb_exists in E as (x & Hx & E). apply Nat.eqb_eq in E. subst x.
    contradiction.
Qed.

(** Processing the results changes neither the counter, nor the set of
    futures, nor the event log. *)
Lemma process_done_frame (done : list nat) (st : race_state) :
  attempt_counter (snd (process_done attempt done st)) = attempt_counter st /\
  futures (snd (process_done attempt done st)) = futures st /\
  events (snd (process_done attempt done st)) = events st.
Proof.
  revert st. induction done as [|fut rest IH]; intros st; cbn [process_done].
  - repeat split.
  - destruct (attempt fut) as [[|] msg].
    + cbn [snd attempt_counter futures events]. repeat split.
    + destruct (IH {| attempt_counter := attempt_counter st;
                      futures := futures st;
                      last_error := Some msg;
                      status_line := Some (false, msg);
                      events := events st |}) as (Hc & Hf & He).
      rewrite Hc, Hf, He. repeat split.
Qed.

(** The loop over the done futures reports success exactly when one of them
    succeeded. *)
Lemma process_done_success (done : list nat) (st : race_state) :
  fst (process_done attempt done st) = existsb (fun id => fst (attempt id)) done.
Proof.
  revert st. induction done as [|fut rest IH]; intros st;
    cbn [process_done existsb]; [reflexivity|].
  destruct (attempt fut) as [[|] msg]; cbn [fst orb]; [reflexivity|apply IH].
Qed.

(** One iteration that is not past the deadline and is not interrupted:
    refill, wait, then either stop on a success or go on. *)
Lemma race_step_completed (st : race_state) (now : Z) (finished : list nat) :
  now <= deadline w ->
  let st1 := fill (Z.to_nat concurrency) now st in
  let done := fst (wait (futures st1) finished) in
  let not_done := snd (wait (futures st1) finished) in
  let success := existsb (fun id => fst (attempt id)) done in
  exists st',
    step (Completed now finished) st
      = (if success then Return true st' else Continue st') /\
    attempt_counter st' = attempt_counter st1 /\
    futures st' = not_done /\
    events st' = events st1
                 ++ (if success then map ECancel (visit order not_done) else []).
Proof.
  intros Hnow st1 done not_done success.
  unfold step, race_step. cbn [tick_now].
  destruct (Z.gtb_spec now (deadline w)) as [Gt|_]; [lia|].
  fold fill. fold st1.
  destruct (wait (futures st1) finished) as [d nd] eqn:W.
  cbn [fst snd] in done, not_done. subst done not_done.
  pose proof (process_done_success d (set_futures nd st1)) as Hs.
  pose proof (process_done_frame d (set_futures nd st1)) as (Hc & Hf & He).
  destruct (process_done attempt d (set_futures nd st1)) as [ok st2].
  cbn [fst snd set_futures attempt_counter futures events] in Hs, Hc, Hf, He.
  fold success in Hs. rewrite <- Hs.
  destruct ok.
  - exists (cancel_rest order st2). split; [reflexivity|].
    cbn [cancel_rest attempt_counter futures events].
    rewrite Hc, Hf, He. repeat split.
  - exists st2. split; [reflexivity|].
    rewrite Hc, Hf, He, app_nil_r. repeat split.
Qed.

Lemma race_step_timeout (st : race_state) (t : tick) :
  tick_now t > deadline w -> step t st = Return false st.
Proof.
  intros Gt. unfold step, race_step.
  destruct (Z.gtb_spec (tick_now t) (deadline w)); [reflexivity|lia].
Qed.

Lemma race_step_interrupt (st : race_state) (now : Z) :
  now <= deadline w ->
  step (KeyboardInterrupt now) st
  = Return false (cancel_rest order (fill (Z.to_nat concurrency) now st)).
Proof.
  intros Le. unfold step, race_step. cbn [tick_now].
  destruct (Z.gtb_spec now (deadline w)); [lia|reflexivity].
Qed.

(** C1, amended.  In an iteration that reaches [wait] (its clock reading is
    not past the deadline and no Ctrl+C arrives), as soon as [wait] reports
    a future in flight whose attempt ended with a success-equivalent
    outcome, the iteration returns [True]: the attempt counter stays where
    the refill in front of this [wait] left it (nothing is launched any
    more), [cancel] is called once on every future that is still in flight
    and on nothing else, in whatever order the set is gone through, and the
    rest of the environment is never consulted. *)
Theorem first_success_wins (st : race_state) (now : Z)
    (finished : list nat) (later : list tick) (id : nat) :
  now <= deadline w ->
  let st1 := refill concurrency (Z.to_nat concurrency) now st in
  In id (futures st1) ->
  In id finished ->
  fst (attempt id) = true ->
  exists st',
    race_step order attempt concurrency w (Completed now finished) st = Return true st' /\
    race_loop order attempt concurrency w (Completed now finished :: later) st
      = Returned true st' /\
    attempt_counter st' = attempt_counter st1 /\
    futures st' = snd (wait (futures st1) finished) /\
    (exists cancelled,
       events st' = events st1 ++ map ECancel cancelled /\
       Permutation cancelled (futures st')) /\
    (forall f, In f (futures st1) -> ~ In f finished ->
               In (ECancel f) (events st')).
Proof.
  intros Hnow st1 Hin Hfin Hok.
  destruct (race_step_completed st now finished Hnow)
    as (st' & Hstep & Hc & Hf & He).
  unfold fill in *. subst st1.
  set (st1 := refill concurrency (Z.to_nat concurrency) now st) in *.
  assert (S : existsb (fun i => fst (attempt i))
                (fst (wait (futures st1) finished)) = true).
  { apply existsb_exists. exists id. split; [|exact Hok].
    apply wait_done_iff. split; assumption. }
  rewrite S in Hstep, He.
  exists st'. unfold step in Hstep.
  split; [exact Hstep|]. split.
  - cbn [race_loop]. rewrite Hstep. reflexivity.
  - split; [exact Hc|]. split; [exact Hf|]. split.
    + exists (visit order (snd (wait (futures st1) finished))).
      split; [exact He|]. rewrite Hf. apply visit_perm.
    + intros f Hf1 Hnf. rewrite He. apply in_or_app. right.
      apply in_map.
      apply (Permutation_in f (Permutation_sym (visit_perm order _))).
      apply wait_not_done_iff. split; assumption.
Qed.

(** A property kept by the refill and by every iteration that goes past the
    deadline check holds at every point of the loop and in its outcome. *)
Lemma race_invariant (P : race_state -> Prop) :
  (forall now st, now <= deadline w -> P st ->
                  P (fill (Z.to_nat concurrency) now st)) ->
  (forall t st, tick_now t <= deadline w -> P st ->
                match step t st with
                | Continue st' => P st'
                | Return _ st' => P st'
                end) ->
  forall ticks st, P st ->
    Forall P (race_trace order attempt concurrency w ticks st) /\
    match loop ticks st with
    | Returned _ st' => P st'
    | Running st' => P st'
    | _ => True
    end.
Proof.
  intros Hfill Hstep ticks.
  induction ticks as [|t rest IH]; intros st HP; cbn [race_trace race_loop].
  - split; [constructor|exact HP].
  - destruct (Z.gtb_spec (tick_now t) (deadline w)) as [Gt|Le].
    + split; [constructor|].
      unfold loop. cbn [race_loop]. fold step.
      rewrite (race_step_timeout st t) by lia. exact HP.
    + specialize (Hstep t st Le HP). unfold loop. cbn [race_loop].
      fold step. fold loop. fold fill.
      destruct (step t st) as [st'|b st'].
      * destruct (IH st' Hstep) as [Htr Hout].
        split; [|exact Hout].
        constructor; [apply Hfill; assumption|].
        constructor; assumption.
      * split; [|exact Hstep].
        constructor; [apply Hfill; assumption|].
        constructor; [exact Hstep|constructor].
Qed.

Lemma step_in_flight (t : tick) (st : race_state) :
  tick_now t <= deadline w ->
  in_flight st <= concurrency ->
  match step t st with
  | Continue st' => in_flight st' <= concurrency
  | Return _ st' => in_flight st' <= concurrency
  end.
Proof.
  intros Le Hin.
  assert (F : forall now, in_flight (fill (Z.to_nat concurrency) now st)
                          <= concurrency).
  { intros now. rewrite refill_in_flight. lia. }
  destruct t as [now finished|now]; cbn [tick_now] in Le.
  - destruct (race_step_completed st now finished Le) as (st' & -> & _ & Hf & _).
    pose proof (wait_not_done_length
                  (futures (fill (Z.to_nat concurrency) now st)) finished) as L.
    specialize (F now). unfold in_flight in *.
    destruct (existsb _ _); rewrite Hf; lia.
  - rewrite (race_step_interrupt st now Le).
    unfold in_flight at 1. cbn [cancel_rest futures]. apply F.
Qed.

Lemma launched_by_app (d : Z) (a b : list race_event) :
  Forall (fun e => launched_by d e = true) a ->
  Forall (fun e => launched_by d e = true) b ->
  Forall (fun e => launched_by d e = true) (a ++ b).
Proof. intros Ha Hb. apply Forall_app. split; assumption. Qed.

Lemma refill_launched_by (now : Z) (st : race_state) :
  now <= deadline w ->
  Forall (fun e => launched_by (deadline w) e = true) (events st) ->
  Forall (fun e => launched_by (deadline w) e = true)
         (events (fill (Z.to_nat concurrency) now st)).
Proof.
  intros Le H.
  destruct (refill_spec _ now st (refill_enough now st)) as (_ & _ & _ & _ & He).
  rewrite He. apply launched_by_app; [exact H|].
  apply Forall_forall. intros e Hin. apply in_map_iff in Hin as (idx & <- & _).
  cbn [launched_by]. apply Z.leb_le. exact Le.
Qed.

Lemma cancels_launched_by (d : Z) (fs : list nat) :
  Forall (fun e => launched_by d e = true) (map ECancel fs).
Proof.
  apply Forall_forall. intros e Hin. apply in_map_iff in Hin as (f & <- & _).
  reflexivity.
Qed.

Lemma step_launched_by (t : tick) (st : race_state) :
  tick_now t <= deadline w ->
  Forall (fun e => launched_by (deadline w) e = true) (events st) ->
  match step t st with
  | Continue st' => Forall (fun e => launched_by (deadline w) e = true) (events st')
  | Return _ st' => Forall (fun e => launched_by (deadline w) e = true) (events st')
  end.
Proof.
  intros Le H.
  destruct t as [now finished|now]; cbn [tick_now] in Le.
  - pose proof (refill_launched_by now st Le H) as H1.
    destruct (race_step_completed st now finished Le) as (st' & -> & _ & _ & He).
    destruct (existsb _ _); rewrite He; apply launched_by_app; auto.
    + apply cancels_launched_by.
  - rewrite (race_step_interrupt st now Le). cbn [cancel_rest events].
    apply launched_by_app; [apply refill_launched_by; assumption|].
    apply cancels_launched_by.
Qed.

End RaceFacts.

Example race_two_fail_third_wins :
  race_loop in_launch_order (fun idx => (Nat.eqb idx 3, (idx, if Nat.eqb idx 3 then MConfirmed
                                               else MNoRequestId)))
    2 (derive_window 0 0)
    [Completed 10 []; Completed 20 [1; 2]%nat; Completed 30 [3]%nat]
    initial_state
  = Returned true
      {| attempt_counter := 4%nat;
         futures := [4%nat];
         last_error := Some (3%nat, MConfirmed);
         status_line := Some (true, (3%nat, MConfirmed));
         events := [ELaunch 1 10; ELaunch 2 10; ELaunch 3 30; ELaunch 4 30;
                    ECancel 4] |}.
Proof. reflexivity. Qed.

Lemma first_success_wins_witness :
  exists st',
    race_loop in_reverse_order
      (fun idx => (Nat.eqb idx 2, (idx, MConfirmed))) 2
      (derive_window 0 0) [Completed 10 [2]%nat; Completed 20 [1]%nat] initial_state
    = Returned true st' /\
    attempt_counter st' = 2%nat /\
    In (ECancel 1) (events st').
Proof.
  destruct (first_success_wins in_reverse_order
              (fun idx => (Nat.eqb idx 2, (idx, MConfirmed))) 2
              (derive_window 0 0) initial_state 10 [2]%nat [Completed 20 [1]%nat] 2%nat)
    as (st' & _ & Hloop & Hc & _ & _ & Hcancel).
  - vm_compute. discriminate.
  - right. left. reflexivity.
  - left. reflexivity.
  - reflexivity.
  - exists st'. split; [exact Hloop|]. split; [exact Hc|].
    apply Hcancel.
    + left. reflexivity.
    + intros [E|[]]. discriminate E.
Defined.

(** C1 as stated fails.  A success that has completed is not always read:
    with two attempts in flight that both end in a success, an iteration
    whose clock reading is past the deadline returns [False] before [wait]
    is called, although both are reported finished by then, and cancels
    nothing; and a Ctrl+C that arrives in [wait] returns [False] whatever
    the attempts in flight have come to. *)
Lemma completed_success_not_read :
  race_loop in_launch_order (fun idx => (true, (idx, MConfirmed))) 2
    (derive_window 0 0)
    [Completed (seconds 10) []; Completed (seconds 181) [1; 2]%nat]
    initial_state
  = Returned false
      {| attempt_counter := 2%nat;
         futures := [1; 2]%nat;
         last_error := None;
         status_line := None;
         events := [ELaunch 1 (seconds 10); ELaunch 2 (seconds 10)] |} /\
  race_loop in_launch_order (fun idx => (true, (idx, MConfirmed))) 2
    (derive_window 0 0)
    [Completed (seconds 10) []; KeyboardInterrupt (seconds 20)]
    initial_state
  = Returned false
      {| attempt_counter := 2%nat;
         futures := [1; 2]%nat;
         last_error := None;
         status_line := None;
         events := [ELaunch 1 (seconds 10); ELaunch 2 (seconds 10);
                    ECancel 1; ECancel 2] |}.
Proof. split; reflexivity. Qed.

Lemma rapid_select_course_race (py_int : string -> res Z) (order : set_order)
    (clients : nat -> session) (envs : nat -> attempt_env)
    (target_time concurrency : Z) (request_timeout : float) (now_dt : Z)
    (prestart : list Z) (ticks : list tick) :
  started (start_time (derive_window target_time now_dt)) prestart = true ->
  1 <= concurrency ->
  rapid_select_course py_int order clients envs target_time concurrency
    request_timeout now_dt prestart ticks
  = race_loop order
      (fun idx =>
         _single_attempt py_int (clients idx) request_timeout (envs idx) idx)
      concurrency (derive_window target_time now_dt) ticks initial_state.
Proof.
  intros St Hk. unfold rapid_select_course. rewrite St.
  destruct (Z.leb_spec concurrency 0); [lia|reflexivity].
Qed.

Example rapid_select_course_run :
  rapid_select_course decimal_int in_reverse_order (fun _ => sample_session)
    (fun idx => match idx with
                | 1%nat => env_conflict
                | 2%nat => env_duplicate_confirm
                | _ => env_success
                end)
    (seconds 100) 2 5%float (seconds 90)
    [seconds 91; seconds 95]
    [Completed (seconds 95) []; Completed (seconds 96) [1]%nat;
     Completed (seconds 97) [2]%nat; Completed (seconds 98) [3]%nat]
  = Returned true
      {| attempt_counter := 3%nat;
         futures := [3%nat];
         last_error := Some (2%nat, MConfirmed);
         status_line := Some (true, (2%nat, MConfirmed));
         events := [ELaunch 1 (seconds 95); ELaunch 2 (seconds 95);
                    ELaunch 3 (seconds 97); ECancel 3] |}.
Proof. reflexivity. Qed.

Lemma pool_bound (order : set_order) (attempt : nat -> attempt_result) (concurrency : Z)
    (w : race_window) (ticks : list tick) :
  0 <= concurrency ->
  Forall (fun st => in_flight st <= concurrency)
         (race_trace order attempt concurrency w ticks initial_state) /\
  match race_loop order attempt concurrency w ticks initial_state with
  | Returned _ st' => in_flight st' <= concurrency
  | Running st' => in_flight st' <= concurrency
  | _ => True
  end.
Proof.
  intros Hk.
  apply (race_invariant order attempt concurrency w
           (fun st => in_flight st <= concurrency)).
  - intros now st _ Hin. rewrite refill_in_flight. lia.
  - intros t st Le Hin. apply step_in_flight; assumption.
  - unfold in_flight, initial_state. cbn [futures List.length]. lia.
Qed.

(** C2.  At every point of a race run with concurrency [k] (the executor
    only accepts [k >= 1]), after each refill and after each [wait], the
    number of attempts launched and not yet reported done is at most [k];
    the same holds when the race returns, in particular for every run of
    [rapid_select_course].  With [k = 1] there is never more than one
    attempt in flight. *)
Theorem pool_never_exceeds_concurrency (order : set_order) (attempt : nat -> attempt_result)
    (concurrency : Z) (w : race_window) (ticks : list tick) :
  1 <= concurrency ->
  Forall (fun st => in_flight st <= concurrency)
         (race_trace order attempt concurrency w ticks initial_state) /\
  match race_loop order attempt concurrency w ticks initial_state with
  | Returned _ st' => in_flight st' <= concurrency
  | Running st' => in_flight st' <= concurrency
  | _ => True
  end /\
  (forall py_int clients envs target_time request_timeout now_dt prestart,
     match rapid_select_course py_int order clients envs target_time
             concurrency request_timeout now_dt prestart ticks with
     | Returned _ st' => in_flight st' <= concurrency
     | Running st' => in_flight st' <= concurrency
     | _ => True
     end) /\
  (concurrency = 1 ->
   Forall (fun st => (List.length (futures st) <= 1)%nat)
          (race_trace order attempt concurrency w ticks initial_state)).
Proof.
  intros Hk.
  destruct (pool_bound order attempt concurrency w ticks) as [Htr Hout]; [lia|].
  split; [exact Htr|]. split; [exact Hout|]. split.
  - intros py_int clients envs target tmo now prestart.
    unfold rapid_select_course.
    destruct (started _ prestart); [|exact I].
    destruct (Z.leb_spec concurrency 0); [exact I|].
    apply pool_bound. lia.
  - intros ->. eapply Forall_impl; [|exact Htr].
    intros st. unfold in_flight. cbn beta. lia.
Qed.

Lemma pool_never_exceeds_concurrency_witness :
  Forall (fun st => in_flight st <= 2)
         (race_trace in_launch_order (fun idx => (false, (idx, MTimeConflict))) 2
            (derive_window 0 0)
            [Completed 10 [1]%nat; Completed 20 []; Completed 30 [2; 3]%nat]
            initial_state).
Proof.
  apply (pool_never_exceeds_concurrency
           in_launch_order (fun idx => (false, (idx, MTimeConflict))) 2 (derive_window 0 0)
           [Completed 10 [1]%nat; Completed 20 []; Completed 30 [2; 3]%nat]).
  lia.
Defined.

(** C5, amended.  Whenever the corrected clock read at the top of an
    iteration is strictly later than the deadline, the scheduler returns
    [False] in that iteration without launching anything, whatever is still
    in flight; in particular a race whose first reading is already past the
    deadline returns [False] with no attempt launched at all.  Every attempt
    of a race is launched in an iteration whose clock reading is not later
    than the deadline. *)
Theorem deadline_stops_race (order : set_order) (attempt : nat -> attempt_result)
    (concurrency : Z) (w : race_window) :
  (forall st t later,
     tick_now t > deadline w ->
     exists st',
       race_step order attempt concurrency w t st = Return false st' /\
       race_loop order attempt concurrency w (t :: later) st = Returned false st' /\
       attempt_counter st' = attempt_counter st /\
       filter is_launch (events st') = filter is_launch (events st)) /\
  (forall py_int clients envs target_time request_timeout now_dt prestart t
          later,
     started (start_time (derive_window target_time now_dt)) prestart = true ->
     1 <= concurrency ->
     tick_now t > deadline (derive_window target_time now_dt) ->
     rapid_select_course py_int order clients envs target_time concurrency
       request_timeout now_dt prestart (t :: later)
     = Returned false initial_state) /\
  (forall ticks,
     Forall (fun st => Forall (fun e => launched_by (deadline w) e = true)
                              (events st))
            (race_trace order attempt concurrency w ticks initial_state) /\
     match race_loop order attempt concurrency w ticks initial_state with
     | Returned _ st' =>
         Forall (fun e => launched_by (deadline w) e = true) (events st')
     | Running st' =>
         Forall (fun e => launched_by (deadline w) e = true) (events st')
     | _ => True
     end).
Proof.
  split; [|split].
  - intros st t later Gt. exists st.
    pose proof (race_step_timeout order attempt concurrency w st t Gt) as E.
    cbn [race_loop]. rewrite E. repeat split.
  - intros py_int clients envs target tmo now prestart t later St Hk Gt.
    rewrite rapid_select_course_race by assumption.
    cbn [race_loop]. rewrite race_step_timeout by exact Gt. reflexivity.
  - intros ticks.
    apply (race_invariant order attempt concurrency w
             (fun st => Forall (fun e => launched_by (deadline w) e = true)
                               (events st))).
    + intros now st Le H. apply refill_launched_by; assumption.
    + intros t st Le H. apply step_launched_by; assumption.
    + constructor.
Qed.

Lemma deadline_stops_race_witness :
  rapid_select_course decimal_int in_launch_order (fun _ => sample_session)
    (fun _ => env_success) (seconds 100) 4 5%float (seconds 90) [seconds 95]
    [Completed (seconds 281) [1]%nat]
  = Returned false initial_state.
Proof.
  apply (proj1 (proj2 (deadline_stops_race in_launch_order (fun idx => (true, (idx, MConfirmed)))
                         4 (derive_window 0 0)))).
  - reflexivity.
  - lia.
  - vm_compute. reflexivity.
Defined.

(** C5 as stated fails.  With the clock exactly on the deadline ([now >=
    deadline] holds and nothing has succeeded) the iteration does not return
    [False]: it fills the pool and goes on.  And when the clock is past the
    deadline with two attempts still in flight, the iteration returns
    [False] without calling [cancel] on any of them. *)
Lemma deadline_boundary_continues :
  race_step in_launch_order (fun idx => (false, (idx, MNoRequestId))) 2 (derive_window 0 0)
    (Completed (seconds 180) []) initial_state
  = Continue {| attempt_counter := 2%nat;
                futures := [1; 2]%nat;
                last_error := None;
                status_line := None;
                events := [ELaunch 1 (seconds 180); ELaunch 2 (seconds 180)] |} /\
  race_step in_launch_order (fun idx => (false, (idx, MNoRequestId))) 2 (derive_window 0 0)
    (Completed (seconds 181) [])
    {| attempt_counter := 2%nat;
       futures := [1; 2]%nat;
       last_error := None;
       status_line := None;
       events := [ELaunch 1 (seconds 180); ELaunch 2 (seconds 180)] |}
  = Return false
      {| attempt_counter := 2%nat;
         futures := [1; 2]%nat;
         last_error := None;
         status_line := None;
         events := [ELaunch 1 (seconds 180); ELaunch 2 (seconds 180)] |}.
Proof. split; reflexivity. Qed.

(** ** One attempt *)

Lemma py_get_dict (k : string) (d : list (string * pyval)) (default : pyval) :
  py_get (PDict d) k default = Ok (get_or k d default).
Proof. reflexivity. Qed.

Lemma get_or_found (k : string) (d : list (string * pyval)) (a v : pyval) :
  get_or k d a = v -> v <> a -> lookup k d = Some v.
Proof.
  unfold get_or. destruct (lookup k d); intros E N; congruence.
Qed.

Lemma get_or_lookup (k : string) (d : list (string * pyval)) (a v : pyval) :
  lookup k d = Some v -> get_or k d a = v.
Proof. unfold get_or. intros ->. reflexivity. Qed.

Lemma truthy_get_or_nonempty (k : string) (d : list (string * pyval)) :
  truthy (get_or k d PNone) = true -> truthy (PDict d) = true.
Proof. destruct d; [discriminate|reflexivity]. Qed.

Lemma lookup_nonempty (k : string) (d : list (string * pyval)) (v : pyval) :
  lookup k d = Some v -> truthy (PDict d) = true.
Proof. destruct d; [discriminate|reflexivity]. Qed.

Lemma py_or_truthy (a b : pyval) : truthy a = true -> py_or a b = a.
Proof. unfold py_or. intros ->. reflexivity. Qed.

(** A substring or membership hit needs a non-empty container. *)
Lemma py_in_truthy (v : pyval) :
  py_in conflict_keyword v = Ok true -> truthy v = true.
Proof.
  destruct v as [| | | |s|l|d]; cbn [py_in]; try discriminate.
  - destruct s; [discriminate|reflexivity].
  - destruct l; [discriminate|reflexivity].
  - destruct d; [discriminate|reflexivity].
Qed.



Lemma predicate_round_success (data : pyval) (fields : list (string * pyval)) :
  body_of data = Some fields ->
  truthy (get_or "success" fields PNone) = true ->
  predicate_round data = Ok (RReturn (PDict fields)).
Proof.
  intros B S. destruct (body_of_shape _ _ B) as (top & -> & Z0 & Hd).
  unfold predicate_round. rewrite !py_get_dict. cbn [bind].
  rewrite Z0, Hd, (truthy_get_or_nonempty _ _ S), py_get_dict. cbn [bind].
  rewrite S. reflexivity.
Qed.

Lemma predicate_round_failure (data : pyval) (fields em : list (string * pyval)) :
  body_of data = Some fields ->
  truthy (PDict fields) = true ->
  truthy (get_or "success" fields PNone) = false ->
  get_or "errorMessage" fields (PDict []) = PDict em ->
  predicate_round data = Ok (RReturn (PDict fields)).
Proof.
  intros B T S E. destruct (body_of_shape _ _ B) as (top & -> & Z0 & Hd).
  unfold predicate_round. rewrite !py_get_dict. cbn [bind].
  rewrite Z0, Hd, T, !py_get_dict. cbn [bind].
  rewrite S, E, py_get_dict. reflexivity.
Qed.

Lemma add_drop_round_success (data : pyval) (fields : list (string * pyval)) :
  body_of data = Some fields ->
  truthy (get_or "success" fields PNone) = true ->
  add_drop_round data = Ok (RReturn (PDict fields)).
Proof.
  intros B S. destruct (body_of_shape _ _ B) as (top & -> & Z0 & Hd).
  unfold add_drop_round. rewrite !py_get_dict. cbn [bind].
  rewrite Z0, Hd, (py_or_truthy _ _ (truthy_get_or_nonempty _ _ S)), py_get_dict.
  cbn [bind]. rewrite S. reflexivity.
Qed.

Lemma add_drop_round_plain_error (data : pyval) (fields : list (string * pyval)) :
  body_of data = Some fields ->
  plain_error fields = true ->
  add_drop_round data = Ok (RReturn (PDict fields)).
Proof.
  intros B P. unfold plain_error in P. apply andb_true_iff in P as [S P].
  apply negb_true_iff in S.
  destruct (get_or "errorMessage" fields PNone) as [| | | | | |[|e em]] eqn:E;
    try discriminate.
  destruct (_is_duplicate_message _) as [[|]|] eqn:D; try discriminate.
  destruct (body_of_shape _ _ B) as (top & -> & Z0 & Hd).
  assert (T : truthy (PDict fields) = true).
  { destruct fields; [discriminate E|reflexivity]. }
  unfold add_drop_round. rewrite !py_get_dict. cbn [bind].
  rewrite Z0, Hd, (py_or_truthy _ _ T), !py_get_dict. cbn [bind].
  rewrite S, E. cbn [truthy]. rewrite py_get_dict. cbn [bind].
  rewrite D. reflexivity.
Qed.

Lemma error_text_dict (fields : list (string * pyval)) (fallback : string) :
  truthy (PDict fields) = true ->
  error_text (PDict fields) fallback
  = Ok (py_or (_extract_text_field (get_or "errorMessage" fields PNone))
              (PStr fallback)).
Proof.
  intros T. unfold error_text. rewrite T, (py_or_truthy _ _ T), py_get_dict.
  reflexivity.
Qed.

Lemma get_turn_info_student_id (s : session) (response : res pyval) :
  session_student_id (snd (get_turn_info s response)) = session_student_id s.
Proof.
  unfold get_turn_info.
  repeat match goal with
         | |- context [match ?x with _ => _ end] => destruct x
         end; reflexivity.
Qed.

Lemma established_ready (py_int : string -> res Z) (s : session) :
  established py_int s = true -> session_ready (session_student_id s) = true.
Proof.
  unfold established. intros H.
  apply andb_true_iff in H as [H _]. apply andb_true_iff in H as [_ H].
  exact H.
Qed.

(** On an established client a submission makes no refresh, raises nothing
    and leaves the client as it is. *)
Lemma submit_request_established (py_int : string -> res Z) (s : session)
    (turn_response post : res pyval) :
  established py_int s = true ->
  submit_request py_int s turn_response post = (Ok (read_request_id post), s).
Proof.
  unfold established. intros H.
  apply andb_true_iff in H as [H I]. apply andb_true_iff in H as [T R].
  unfold submit_request, ensure_turn. rewrite T, R. cbn [negb orb].
  destruct (int_of_student_id py_int s); [reflexivity|discriminate].
Qed.

Section AttemptFacts.

Variable py_int : string -> res Z.
Variable s : session.
Variable request_timeout : float.
Variable env : attempt_env.
Hypothesis est : established py_int s = true.

Let ready : session_ready (session_student_id s) = true :=
  established_ready py_int s est.

Lemma intent_submission_established :
  intent_submission py_int s env = (Ok (read_request_id (predicate_post env)), s).
Proof. apply submit_request_established. exact est. Qed.

Lemma confirm_submission_established :
  confirm_submission py_int s env = (Ok (read_request_id (request_post env)), s).
Proof.
  unfold confirm_submission. rewrite intent_submission_established.
  apply submit_request_established. exact est.
Qed.

Lemma intent_result_shape (i : nat) (fields : list (string * pyval)) :
  intent_result env i = Some fields ->
  truthy (read_request_id (predicate_post env)) = true /\
  reaches_round predicate_round (predicate_polls env) 8 i = true /\
  exists data, predicate_polls env i = Ok data /\ body_of data = Some fields.
Proof.
  unfold intent_result.
  destruct (truthy (read_request_id (predicate_post env))); [|discriminate].
  destruct (reaches_round predicate_round (predicate_polls env) 8 i);
    [|discriminate].
  cbn [andb]. destruct (predicate_polls env i) as [data|e]; [|discriminate].
  intros B. repeat split. exists data. split; [reflexivity|exact B].
Qed.

Lemma confirm_result_shape (i : nat) (fields : list (string * pyval)) :
  confirm_result env i = Some fields ->
  truthy (read_request_id (request_post env)) = true /\
  reaches_round add_drop_round (add_drop_polls env) 10 i = true /\
  exists data, add_drop_polls env i = Ok data /\ body_of data = Some fields.
Proof.
  unfold confirm_result.
  destruct (truthy (read_request_id (request_post env))); [|discriminate].
  destruct (reaches_round add_drop_round (add_drop_polls env) 10 i);
    [|discriminate].
  cbn [andb]. destruct (add_drop_polls env i) as [data|e]; [|discriminate].
  intros B. repeat split. exists data. split; [reflexivity|exact B].
Qed.



Lemma confirm_final_answer (i : nat) (data : pyval) (r : pyval) :
  reaches_round add_drop_round (add_drop_polls env) 10 i = true ->
  add_drop_polls env i = Ok data ->
  add_drop_round data = Ok (RReturn r) ->
  confirm_final (session_student_id s) request_timeout env = r.
Proof.
  intros Hreach Hresp Hr. unfold confirm_final, get_add_drop_response.
  apply (poll_answer add_drop_round _ _ _ _ _ _ (session_student_id s) i); auto.
  rewrite Hresp. exact Hr.
Qed.



(** The attempt's own check of a confirm result that is not a success: the
    conflict marker is looked for first. *)
Lemma confirm_conflict (f : list (string * pyval)) :
  truthy (read_request_id (request_post env)) = true ->
  confirm_final (session_student_id s) request_timeout env = PDict f ->
  truthy (get_or "success" f PNone) = false ->
  py_in conflict_keyword (_extract_text_field (get_or "errorMessage" f PNone))
  = Ok true ->
  confirm_stage py_int s request_timeout env = Ok (false, MTimeConflict).
Proof.
  intros Hreq Hfinal S C.
  assert (T : truthy (PDict f) = true).
  { destruct f; [vm_compute in C; discriminate C|reflexivity]. }
  unfold confirm_final in Hfinal.
  unfold confirm_stage. rewrite confirm_submission_established.
  cbn [fst snd bind]. rewrite Hreq. cbn [negb]. cbv zeta.
  rewrite Hfinal, T, py_get_dict. cbn [bind]. rewrite S. cbn [andb].
  rewrite (error_text_dict _ _ T). cbn [bind].
  rewrite (py_or_truthy _ _ (py_in_truthy _ C)), C. reflexivity.
Qed.



Lemma attempt_of_confirm (idx : nat) (r : bool * attempt_msg) :
  intent_stage py_int s request_timeout env = Ok None ->
  confirm_stage py_int s request_timeout env = Ok r ->
  _single_attempt py_int s request_timeout env idx = (fst r, (idx, snd r)).
Proof.
  intros E C. unfold _single_attempt, attempt_body. rewrite E. cbn [bind].
  rewrite C. destruct r. reflexivity.
Qed.

(** A successful intent result whose result map shows no duplicate lets the
    attempt go on to the confirm request. *)
Lemma intent_stage_passes (i : nat) (fields : list (string * pyval)) :
  intent_result env i = Some fields ->
  intent_passes fields = true ->
  intent_stage py_int s request_timeout env = Ok None.
Proof.
  intros R P.
  destruct (intent_result_shape i fields R) as (Hreq & Hreach & data & Hresp & B).
  unfold intent_passes in P. apply andb_true_iff in P as [S P].
  pose proof (truthy_get_or_nonempty _ _ S) as T.
  assert (Hpred : fst (get_predicate_response (session_student_id s)
                         (read_request_id (predicate_post env)) 8
                         0.15%float request_timeout (predicate_polls env))
                  = PDict fields).
  { unfold get_predicate_response.
    apply (poll_answer predicate_round _ _ _ _ _ _ (session_student_id s) i); auto.
    rewrite Hresp. cbn [bind]. apply predicate_round_success; assumption. }
  unfold intent_stage. rewrite intent_submission_established.
  cbn [fst snd bind]. rewrite Hreq. cbn [negb]. cbv zeta.
  rewrite Hpred, T, !py_get_dict. cbn [bind]. rewrite S. cbn [negb orb].
  destruct (py_values _) as [vals|]; [|discriminate]. cbn [bind].
  destruct (scan_result_map vals) as [[|]|]; try discriminate. reflexivity.
Qed.

(** An error of the confirm poll that the poller hands on as it is. *)
Lemma confirm_final_plain_error (i : nat) (fields : list (string * pyval)) :
  confirm_result env i = Some fields ->
  plain_error fields = true ->
  truthy (read_request_id (request_post env)) = true /\
  confirm_final (session_student_id s) request_timeout env = PDict fields /\
  truthy (get_or "success" fields PNone) = false.
Proof.
  intros R P.
  destruct (confirm_result_shape i fields R) as (Hreq & Hreach & data & Hresp & B).
  split; [exact Hreq|]. split.
  - apply (confirm_final_answer i data); auto.
    apply add_drop_round_plain_error; assumption.
  - unfold plain_error in P. apply andb_true_iff in P as [S _].
    apply negb_true_iff in S. exact S.
Qed.


End AttemptFacts.

(** ** The race sees only the success flag of an attempt *)

Lemma filter_shrinks (f : nat -> bool) (l : list nat) (x : nat) :
  In x l -> f x = false ->
  (List.length (filter f l) < List.length l)%nat.
Proof.
  induction l as [|y l IH]; intros Hin Hf; [destruct Hin|].
  cbn [filter]. pose proof (filter_length_le f l) as Le.
  destruct Hin as [->|Hin].
  - rewrite Hf. cbn [List.length]. lia.
  - specialize (IH Hin Hf). destruct (f y); cbn [List.length]; lia.
Qed.

Lemma existsb_none {A : Type} (f : A -> bool) (l : list A) :
  (forall x, In x l -> f x = false) -> existsb f l = false.
Proof.
  intros H. destruct (existsb f l) eqn:E; [|reflexivity].
  apply existsb_exists in E as (x & Hin & Hx). rewrite (H x Hin) in Hx.
  discriminate.
Qed.


Section RaceRelational.

Variables order1 order2 : set_order.
Variables attempt1 attempt2 : nat -> attempt_result.
Variable concurrency : Z.
Variable w : race_window.
Hypothesis same_flags : forall id, fst (attempt1 id) = fst (attempt2 id).








End RaceRelational.

(** ** Already held counts as won, a clash does not *)

Example attempt_duplicate_intent :
  _single_attempt decimal_int sample_session 5%float env_duplicate_intent 7
  = (true, (7%nat, MDuplicatePredicate)).
Proof. reflexivity. Qed.

Example attempt_duplicate_confirm :
  _single_attempt decimal_int sample_session 5%float env_duplicate_confirm 7
  = (true, (7%nat, MConfirmed)).
Proof. reflexivity. Qed.

Example attempt_success :
  _single_attempt decimal_int sample_session 5%float env_success 7
  = (true, (7%nat, MConfirmed)).
Proof. reflexivity. Qed.

Example attempt_conflict :
  _single_attempt decimal_int sample_session 5%float env_conflict 7
  = (false, (7%nat, MTimeConflict)).
Proof. reflexivity. Qed.

Example attempt_bad_text :
  _single_attempt decimal_int sample_session 5%float
    {| predicate_turn := Raise RequestError;
     predicate_post := Ok (answer (PStr "req-1"));
       predicate_polls := fun _ =>
         Ok (answer (PDict [("success", PBool false);
                            ("errorMessage", PDict [("text", PInt 5)])]));
       request_turn := Raise RequestError;
       request_post := Raise RequestError;
       add_drop_polls := fun _ => Raise RequestError |} 7
  = (false, (7%nat, MException TypeError)).
Proof. reflexivity. Qed.




(** C7, amended.  On a client whose turn id and student id are set and
    whose student id [int] reads, when the attempt has reached the confirm
    poll and its first answer is a failed result whose error object the
    poller hands on as it is (its [text] holds no duplicate marker) and
    whose extracted text carries the conflict marker, the attempt ends with
    outcome "time conflict" and a failure flag.  A failure flag ends that
    attempt only: a tick within the deadline in which every attempt
    reported done has failed leaves the race running, the finished attempts
    leave the pool, and the next iteration within the deadline launches
    fresh attempts until the pool is full again. *)
Theorem conflict_keeps_race_running :
  (forall py_int s request_timeout env idx j passed i fields,
     established py_int s = true ->
     intent_result env j = Some passed ->
     intent_passes passed = true ->
     confirm_result env i = Some fields ->
     plain_error fields = true ->
     py_in conflict_keyword
           (_extract_text_field (get_or "errorMessage" fields PNone))
     = Ok true ->
     _single_attempt py_int s request_timeout env idx
     = (false, (idx, MTimeConflict))) /\
  (forall order attempt concurrency w st now finished id,
     now <= deadline w ->
     in_flight st <= concurrency ->
     In id (futures (refill concurrency (Z.to_nat concurrency) now st)) ->
     In id finished ->
     (forall f, In f finished ->
                In f (futures (refill concurrency (Z.to_nat concurrency) now st)) ->
                fst (attempt f) = false) ->
     exists st',
       race_step order attempt concurrency w (Completed now finished) st
       = Continue st' /\
       ~ In id (futures st') /\
       in_flight st' < concurrency /\
       forall now',
         now' <= deadline w ->
         let st2 := refill concurrency (Z.to_nat concurrency) now' st' in
         (attempt_counter st' < attempt_counter st2)%nat /\
         in_flight st2 = concurrency /\
         In (ELaunch (S (attempt_counter st')) now') (events st2)).
Proof.
  split.
  - intros py_int s tmo env idx j passed i fields E Rp P R Pl C.
    apply (attempt_of_confirm py_int s tmo env idx (false, MTimeConflict)
             (intent_stage_passes py_int s tmo env E j passed Rp P)).
    destruct (confirm_final_plain_error py_int s tmo env E i fields R Pl)
      as (Hreq & Hfinal & Hs).
    apply (confirm_conflict py_int s tmo env E fields); assumption.
  - intros order attempt concurrency w st now finished id Le Hpool Hin Hfin Hfail.
    destruct (race_step_completed order attempt concurrency w st now finished Le)
      as (st' & Hstep & _ & Hf & _).
    set (st1 := refill concurrency (Z.to_nat concurrency) now st) in *.
    assert (S : existsb (fun i => fst (attempt i))
                  (fst (wait (futures st1) finished)) = false).
    { apply existsb_none. intros x Hx. apply wait_done_iff in Hx as [X1 X2].
      apply Hfail; assumption. }
    rewrite S in Hstep.
    assert (Full : in_flight st1 = concurrency).
    { unfold st1. rewrite refill_in_flight. lia. }
    assert (Less : in_flight st' < concurrency).
    { rewrite <- Full. unfold in_flight. rewrite Hf. cbn [wait snd].
      apply inj_lt. apply (filter_shrinks _ _ id Hin).
      apply negb_false_iff. unfold mem. apply existsb_exists.
      exists id. split; [exact Hfin|apply Nat.eqb_refl]. }
    exists st'. split; [exact Hstep|]. split; [|split; [exact Less|]].
    + rewrite Hf. intros X. apply wait_not_done_iff in X as [_ X]. contradiction.
    + intros now' Le' st2.
      destruct (refill_spec concurrency _ now' st'
                  (refill_enough concurrency now' st'))
        as (Hc & _ & _ & _ & He).
      fold st2 in Hc, He.
      destruct (Z.to_nat (concurrency - in_flight st')) as [|n] eqn:N; [lia|].
      split; [lia|]. split.
      * unfold st2. rewrite refill_in_flight. lia.
      * rewrite He. apply in_or_app. right. cbn [seq map]. left. reflexivity.
Qed.

Lemma conflict_keeps_race_running_witness :
  _single_attempt decimal_int sample_session 5%float env_conflict 1
  = (false, (1%nat, MTimeConflict)) /\
  (exists st',
     race_step in_launch_order
       (_single_attempt decimal_int sample_session 5%float env_conflict) 2
       (derive_window 0 0) (Completed 10 [1]%nat) initial_state = Continue st' /\
     (attempt_counter st'
      < attempt_counter (refill 2 (Z.to_nat 2) 20 st'))%nat).
Proof.
  destruct conflict_keeps_race_running as [A B].
  split.
  - apply (A _ _ _ _ _ 0%nat [("success", PBool true)] 0%nat
             [("success", PBool false);
              ("errorMessage", PDict [("text", PStr "与已选课程时间冲突")])]);
      reflexivity.
  - destruct (B in_launch_order
                (_single_attempt decimal_int sample_session 5%float env_conflict)
                2 (derive_window 0 0) initial_state 10 [1%nat] 1%nat)
      as (st' & Hstep & _ & _ & Hnext).
    + vm_compute. discriminate.
    + vm_compute. discriminate.
    + left. reflexivity.
    + left. reflexivity.
    + intros f _ _. reflexivity.
    + exists st'. split; [exact Hstep|].
      apply (Hnext 20). vm_compute. discriminate.
Defined.

(** C7 as stated fails.  A confirm answer whose error [text] carries the
    conflict marker together with a duplicate marker is turned into a
    success by the poller: the attempt wins and the race stops.  A conflict
    marker that comes in an [errorMessage] that is a bare string is lost by
    the poller, and the attempt ends without a final result instead of a
    time conflict. *)
Lemma conflict_marker_missed :
  _single_attempt decimal_int sample_session 5%float
    (env_confirm_error
       (PDict [("text", PStr "与已选课程时间冲突，相同教学班只能选一次")])) 1
  = (true, (1%nat, MConfirmed)) /\
  (exists st',
     race_loop in_launch_order
       (_single_attempt decimal_int sample_session 5%float
          (env_confirm_error
             (PDict [("text", PStr "与已选课程时间冲突，相同教学班只能选一次")])))
       2 (derive_window 0 0) [Completed 10 [1]%nat; Completed 20 [2]%nat]
       initial_state
     = Returned true st' /\ attempt_counter st' = 2%nat) /\
  _single_attempt decimal_int sample_session 5%float
    (env_confirm_error (PStr "与已选课程时间冲突")) 1
  = (false, (1%nat, MConfirmFailed (PStr "无最终结果"))).
Proof.
  split; [reflexivity|]. split; [|reflexivity].
  eexists. split; reflexivity.
Qed.

(** * Properties of the further code *)

(** ** Lesson filter *)

Example filter_example :
  filter_lessons
    [sample_lesson "示例课程A" "1~12周 星期二 3~4节 磬苑校区 博北A101";
     sample_lesson "示例课程B" "1~12周 星期二 3~4节 磬苑校区 博北A102";
     sample_lesson "示例课程A" "1~12周 星期三 3~4节 磬苑校区 博北A101";
     sample_lesson "示例课程A(2)" "1~12周 星期二 3~4节 磬苑校区 博南B201"]
    sample_filter
  = Ok [sample_lesson "示例课程A" "1~12周 星期二 3~4节 磬苑校区 博北A101";
        sample_lesson "示例课程A(2)" "1~12周 星期二 3~4节 磬苑校区 博南B201"].
Proof. reflexivity. Qed.

Example unit_pattern_example : unit_pattern sample_filter = "3~4节".
Proof. reflexivity. Qed.

Lemma eqb_empty_false (s : string) : String.eqb s "" = false <-> s <> "".
Proof. apply String.eqb_neq. Qed.

Lemma criterion_holds (active : bool) (kw : string) (text : pyval) :
  criterion active kw text = Ok true ->
  active = true -> py_in kw text = Ok true.
Proof. unfold criterion. intros H ->. exact H. Qed.

(** What a kept lesson has shown. *)
Lemma lesson_matches_sound (f : CourseFilter) (lesson : pyval) :
  lesson_matches f lesson = Ok true ->
  name_satisfies f lesson /\
  exists text, place_text lesson = Ok text /\ place_satisfies f text.
Proof.
  unfold lesson_matches, place_text, name_satisfies.
  intros H. split.
  - intros Hn. apply eqb_empty_false in Hn. rewrite Hn in H. cbn [negb] in H.
    destruct (py_get lesson "course" (PDict [])) as [course|] eqn:E1;
      [|discriminate].
    cbn [bind] in H.
    destruct (py_get course "nameZh" (PStr "")) as [name|] eqn:E2;
      [|discriminate].
    cbn [bind] in H.
    destruct (py_in (course_name f) name) as [[|]|] eqn:E3; try discriminate.
    exists course, name. repeat split; assumption.
  - destruct (if negb (String.eqb (course_name f) "") then _ else _)
      as [[|]|]; try discriminate.
    cbn [bind negb] in H.
    destruct (py_get lesson "dateTimePlace" (PDict [])) as [dtp|];
      [|discriminate].
    cbn [bind] in *.
    destruct (py_get dtp "textZh" (PStr "")) as [text|]; [|discriminate].
    cbn [bind] in H. exists text. split; [reflexivity|].
    destruct (criterion (negb (String.eqb (weeks f) "")) (weeks f) text)
      as [[|]|] eqn:C1; try discriminate. cbn [bind negb] in H.
    destruct (criterion (weekday f >? 0) (weekday_name (weekday f)) text)
      as [[|]|] eqn:C2; try discriminate. cbn [bind negb] in H.
    destruct (criterion ((start_unit f >? 0) && (end_unit f >? 0))
                (unit_pattern f) text) as [[|]|] eqn:C3; try discriminate.
    cbn [bind negb] in H.
    destruct (criterion (negb (String.eqb (campus f) "")) (campus f) text)
      as [[|]|] eqn:C4; try discriminate. cbn [bind negb] in H.
    unfold place_satisfies. repeat split.
    + intros N. apply (criterion_holds _ _ _ C1).
      apply eqb_empty_false in N. rewrite N. reflexivity.
    + intros D. apply (criterion_holds _ _ _ C2). apply Z.gtb_lt. lia.
    + intros S E. apply (criterion_holds _ _ _ C3).
      apply andb_true_iff. split; apply Z.gtb_lt; lia.
    + intros N. apply (criterion_holds _ _ _ C4).
      apply eqb_empty_false in N. rewrite N. reflexivity.
    + intros N. apply (criterion_holds _ _ _ H).
      apply eqb_empty_false in N. rewrite N. reflexivity.
Qed.

(** The loop keeps, in order, the lessons that pass, provided none raised. *)
Lemma filter_lessons_spec (f : CourseFilter) (lessons result : list pyval) :
  filter_lessons lessons f = Ok result ->
  result = filter (kept f) lessons /\
  Forall (fun l => exists b, lesson_matches f l = Ok b) lessons.
Proof.
  revert result. induction lessons as [|l rest IH]; intros result;
    cbn [filter_lessons filter].
  - intros [= <-]. split; [reflexivity|constructor].
  - unfold kept at 1.
    destruct (lesson_matches f l) as [b|] eqn:M; [|discriminate].
    cbn [bind].
    destruct (filter_lessons rest f) as [r|]; [|discriminate].
    cbn [bind]. intros [= <-].
    destruct (IH r eq_refl) as [-> Hall].
    split; [destruct b; reflexivity|].
    constructor; [exists b; exact M|exact Hall].
Qed.

Lemma filter_lessons_all_kept (f : CourseFilter) (lessons : list pyval) :
  Forall (fun l => lesson_matches f l = Ok true) lessons ->
  filter_lessons lessons f = Ok lessons.
Proof.
  induction 1 as [|l rest Hl _ IH]; cbn [filter_lessons]; [reflexivity|].
  rewrite Hl. cbn [bind]. rewrite IH. reflexivity.
Qed.

Lemma kept_true (f : CourseFilter) (l : pyval) :
  kept f l = true -> lesson_matches f l = Ok true.
Proof.
  unfold kept. destruct (lesson_matches f l) as [[|]|]; try discriminate.
  reflexivity.
Qed.

Lemma filter_lessons_app (f : CourseFilter) (a b : list pyval) :
  filter_lessons (a ++ b) f
  = (ra <- filter_lessons a f ;; rb <- filter_lessons b f ;; Ok (ra ++ rb)).
Proof.
  induction a as [|l a IH]; cbn [app filter_lessons bind].
  - destruct (filter_lessons b f); reflexivity.
  - destruct (lesson_matches f l) as [keep|e]; cbn [bind]; [|reflexivity].
    rewrite IH.
    destruct (filter_lessons a f) as [ra|]; cbn [bind]; [|reflexivity].
    destruct (filter_lessons b f) as [rb|]; cbn [bind]; [|reflexivity].
    destruct keep; reflexivity.
Qed.

Lemma lesson_matches_not_dict (f : CourseFilter) (l : pyval) :
  is_dict l = false -> lesson_matches f l = Raise AttributeError.
Proof.
  intros D. unfold lesson_matches.
  destruct l; try discriminate D;
    destruct (String.eqb (course_name f) ""); reflexivity.
Qed.

Lemma contains_empty (s : string) : contains "" s = true.
Proof. destruct s; reflexivity. Qed.

Lemma weekday_name_out (d : Z) : 7 < d -> weekday_name d = "".
Proof.
  intros H. destruct d as [|p|p]; [lia| |lia].
  destruct p as [[[p|p|]|[p|p|]|]|[[p|p|]|[p|p|]|]|]; try lia; reflexivity.
Qed.

Lemma lesson_matches_weekday_out (f : CourseFilter) (l : pyval) :
  7 < weekday f ->
  text_is_str l ->
  lesson_matches f l = lesson_matches (with_weekday 0 f) l.
Proof.
  intros Out [s Hs]. unfold lesson_matches.
  cbn [with_weekday course_name weeks weekday start_unit end_unit campus building].
  destruct (if negb (String.eqb (course_name f) "") then _ else _)
    as [[|]|]; cbn [bind negb]; try reflexivity.
  unfold place_text in Hs.
  destruct (py_get l "dateTimePlace" (PDict [])) as [dtp|]; [|discriminate].
  cbn [bind] in *. rewrite Hs. cbn [bind].
  destruct (criterion (negb (String.eqb (weeks f) "")) (weeks f) (PStr s))
    as [[|]|]; cbn [bind negb]; try reflexivity.
  assert (criterion (weekday f >? 0) (weekday_name (weekday f)) (PStr s)
          = Ok true) as ->.
  { unfold criterion. rewrite (weekday_name_out _ Out).
    destruct (weekday f >? 0); [|reflexivity].
    cbn [py_in]. rewrite contains_empty. reflexivity. }
  reflexivity.
Qed.

(** X1.  When [filter_lessons] returns, its result is the input with some
    lessons left out, in the input's order, the choice depending on each
    lesson alone; every lesson it returns shows the name asked for in its
    course name and every text asked for (weeks, weekday name, unit range,
    campus, building) in its time-and-place text. *)
Theorem filter_lessons_sound (f : CourseFilter) (lessons result : list pyval) :
  filter_lessons lessons f = Ok result ->
  result = filter (kept f) lessons /\
  forall l, In l result ->
    In l lessons /\
    name_satisfies f l /\
    exists text, place_text l = Ok text /\ place_satisfies f text.
Proof.
  intros H. destruct (filter_lessons_spec f lessons result H) as [-> _].
  split; [reflexivity|].
  intros l Hin. apply filter_In in Hin as [Hin K].
  split; [exact Hin|]. apply lesson_matches_sound. apply kept_true. exact K.
Qed.

Lemma filter_lessons_sound_witness :
  name_satisfies sample_filter
    (sample_lesson "示例课程A" "1~12周 星期二 3~4节 磬苑校区 博北A101").
Proof.
  apply (proj2 (filter_lessons_sound sample_filter
                  [sample_lesson "示例课程A" "1~12周 星期二 3~4节 磬苑校区 博北A101";
                   sample_lesson "示例课程B" "1~12周 星期二 3~4节 磬苑校区 博北A102"]
                  [sample_lesson "示例课程A" "1~12周 星期二 3~4节 磬苑校区 博北A101"]
                  eq_refl)
               (sample_lesson "示例课程A" "1~12周 星期二 3~4节 磬苑校区 博北A101")
               (or_introl eq_refl)).
Defined.

(** X2.  Filtering composes: filtering a concatenation of pages is filtering
    each page and concatenating (the first exception, if any, being the
    same), and filtering a result again with the same filter returns it
    unchanged. *)
Theorem filter_lessons_composes (f : CourseFilter) (a b : list pyval) :
  filter_lessons (a ++ b) f
  = (ra <- filter_lessons a f ;; rb <- filter_lessons b f ;; Ok (ra ++ rb)) /\
  (forall result, filter_lessons a f = Ok result ->
                  filter_lessons result f = Ok result).
Proof.
  split; [apply filter_lessons_app|].
  intros result H. destruct (filter_lessons_spec f a result H) as [-> _].
  apply filter_lessons_all_kept. apply Forall_forall.
  intros l Hin. apply filter_In in Hin as [_ K]. apply kept_true. exact K.
Qed.

Lemma filter_lessons_composes_witness :
  filter_lessons
    [sample_lesson "示例课程A" "1~12周 星期二 3~4节 磬苑校区 博北A101"] sample_filter
  = Ok [sample_lesson "示例课程A" "1~12周 星期二 3~4节 磬苑校区 博北A101"].
Proof.
  apply (proj2 (filter_lessons_composes sample_filter
                  [sample_lesson "示例课程A" "1~12周 星期二 3~4节 磬苑校区 博北A101";
                   sample_lesson "示例课程B" "1~12周 星期二 3~4节 磬苑校区 博北A102"]
                  [])).
  reflexivity.
Defined.

(** X3.  A weekday above 7 has no name in the weekday table, so the empty
    string is looked for and found: on lessons whose time-and-place text is
    a string, such a filter selects exactly what the same filter without a
    weekday selects. *)
Theorem filter_lessons_weekday_out_of_range (f : CourseFilter)
    (lessons : list pyval) :
  7 < weekday f ->
  Forall text_is_str lessons ->
  filter_lessons lessons f = filter_lessons lessons (with_weekday 0 f).
Proof.
  intros Out Hall. induction Hall as [|l rest Hl _ IH]; cbn [filter_lessons].
  - reflexivity.
  - rewrite (lesson_matches_weekday_out f l Out Hl), IH. reflexivity.
Qed.

Lemma filter_lessons_weekday_out_of_range_witness :
  filter_lessons
    [sample_lesson "示例课程A" "1~12周 星期三 3~4节 磬苑校区 博北A101"]
    (with_weekday 9 sample_filter)
  = filter_lessons
      [sample_lesson "示例课程A" "1~12周 星期三 3~4节 磬苑校区 博北A101"]
      (with_weekday 0 (with_weekday 9 sample_filter)).
Proof.
  apply (filter_lessons_weekday_out_of_range (with_weekday 9 sample_filter)).
  - cbn. lia.
  - constructor; [|constructor]. eexists. reflexivity.
Defined.

(** X4.  An entry of the lesson list that is not an object is not skipped:
    once the entries in front of it have been read without error, the call
    raises [AttributeError], whatever the filter and whatever follows. *)
Theorem filter_lessons_rejects_non_dict (f : CourseFilter)
    (before after : list pyval) (l : pyval) (kept_before : list pyval) :
  filter_lessons before f = Ok kept_before ->
  is_dict l = false ->
  filter_lessons (before ++ l :: after) f = Raise AttributeError.
Proof.
  intros Hb D. rewrite filter_lessons_app, Hb. cbn [bind filter_lessons].
  rewrite (lesson_matches_not_dict f l D). reflexivity.
Qed.

Lemma filter_lessons_rejects_non_dict_witness :
  filter_lessons
    [sample_lesson "示例课程B" "1~12周 星期二 3~4节 磬苑校区"; PStr "lesson";
     sample_lesson "示例课程A" "1~12周 星期二 3~4节 磬苑校区"]
    sample_filter
  = Raise AttributeError.
Proof.
  apply (filter_lessons_rejects_non_dict sample_filter
           [sample_lesson "示例课程B" "1~12周 星期二 3~4节 磬苑校区"]
           [sample_lesson "示例课程A" "1~12周 星期二 3~4节 磬苑校区"]
           (PStr "lesson") []); reflexivity.
Defined.

(** ** More on the result pollers *)

Section PollerAccounting.

Variable round : pyval -> res round_result.
Variable endpoint : string.
Variable request_id : pyval.
Variable max_retries : Z.
Variables poll_interval timeout : float.
Variable responses : nat -> res pyval.

Let rounds_of := poll_rounds round endpoint request_id max_retries
                            poll_interval timeout responses.

(** A value arriving in round [i] has cost one request per round entered and
    one sleep per round that brought nothing. *)
Lemma poll_rounds_answer_cost (r : pyval) (n a i : nat) :
  (a <= i < a + n)%nat ->
  Z.of_nat i < max_retries ->
  (forall j, (a <= j < i)%nat -> pending round responses j = true) ->
  (data <- responses i ;; round data) = Ok (RReturn r) ->
  count_gets (snd (rounds_of (seq a n))) = Z.of_nat (i - a) + 1 /\
  count_sleeps (snd (rounds_of (seq a n))) = Z.of_nat (i - a).
Proof.
  unfold rounds_of.
  revert a. induction n as [|n IH]; intros a Hi Hmax P Hr; [lia|].
  cbn [seq poll_rounds].
  destruct (Nat.eq_dec a i) as [->|Hne].
  - rewrite Hr. cbn [snd]. rewrite Nat.sub_diag.
    rewrite (proj1 (count_get _ _ _ _)), (proj2 (count_get _ _ _ _)).
    rewrite (proj1 count_nil), (proj2 count_nil). split; reflexivity.
  - assert (Pa : pending round responses a = true) by (apply P; lia).
    destruct (IH (S a)) as [Hg Hs]; [lia|exact Hmax| |exact Hr|].
    { intros j Hj. apply P. lia. }
    unfold pending in Pa.
    assert (M : more_rounds max_retries a = true).
    { unfold more_rounds. apply Z.ltb_lt. lia. }
    replace (Z.of_nat (i - a)) with (Z.of_nat (i - S a) + 1) by lia.
    destruct (data <- responses a ;; round data) as [[r'|]|e]; [discriminate| |];
      rewrite M;
      destruct (poll_rounds _ _ _ _ _ _ _ (seq (S a) n)) as [r' tr];
      cbn [snd app] in *;
      rewrite (proj1 (count_get _ _ _ _)), (proj2 (count_get _ _ _ _)),
              (proj1 (count_sleep _ _)), (proj2 (count_sleep _ _));
      split; lia.
Qed.

(** When no round brings a value back, every round of the budget is spent
    and a sleep separates two consecutive rounds. *)
Lemma poll_rounds_exhausted_cost (n a : nat) :
  Z.of_nat (a + n) = max_retries ->
  (forall j, (a <= j < a + n)%nat -> pending round responses j = true) ->
  count_gets (snd (rounds_of (seq a n))) = Z.of_nat n /\
  count_sleeps (snd (rounds_of (seq a n))) = Z.of_nat (Nat.pred n).
Proof.
  unfold rounds_of.
  revert a. induction n as [|n IH]; intros a Hmax P; cbn [seq poll_rounds snd].
  - split; reflexivity.
  - assert (Pa : pending round responses a = true) by (apply P; lia).
    destruct (IH (S a)) as [Hg Hs]; [lia| |].
    { intros j Hj. apply P. lia. }
    unfold pending in Pa. unfold more_rounds.
    destruct (Z.ltb_spec (Z.of_nat a) (max_retries - 1)) as [Lt|Ge].
    + assert (n <> 0%nat) by lia.
      destruct (data <- responses a ;; round data) as [[r'|]|e]; [discriminate| |];
        destruct (poll_rounds _ _ _ _ _ _ _ (seq (S a) n)) as [r' tr];
        cbn [snd app] in *;
        rewrite (proj1 (count_get _ _ _ _)), (proj2 (count_get _ _ _ _)),
                (proj1 (count_sleep _ _)), (proj2 (count_sleep _ _));
        split; lia.
    + assert (n = 0%nat) by lia. subst n. cbn [seq poll_rounds] in *.
      destruct (data <- responses a ;; round data) as [[r'|]|e]; [discriminate| |];
        cbn [snd app];
        rewrite (proj1 (count_get _ _ _ _)), (proj2 (count_get _ _ _ _)),
                (proj1 count_nil), (proj2 count_nil);
        split; reflexivity.
Qed.

(** Whatever a call returns is [None] or came out of one of its rounds. *)
Lemma poll_rounds_result (P : pyval -> Prop) (rounds : list nat) :
  P PNone ->
  (forall i r, (data <- responses i ;; round data) = Ok (RReturn r) -> P r) ->
  P (fst (rounds_of rounds)).
Proof.
  intros Hnone Hround. unfold rounds_of.
  induction rounds as [|i rest IH]; cbn [poll_rounds fst]; [exact Hnone|].
  destruct (data <- responses i ;; round data) as [[r|]|e] eqn:E.
  - cbn [fst]. apply (Hround i r E).
  - destruct (poll_rounds _ _ _ _ _ _ _ rest) as [r tr]. exact IH.
  - destruct (more_rounds max_retries i); [|exact Hnone].
    destruct (poll_rounds _ _ _ _ _ _ _ rest) as [r tr]. exact IH.
Qed.

Lemma poll_result (P : pyval -> Prop) (student_id : option string) :
  P PNone ->
  (forall i r, (data <- responses i ;; round data) = Ok (RReturn r) -> P r) ->
  P (fst (poll round endpoint request_id max_retries poll_interval timeout
               responses student_id)).
Proof.
  intros Hnone Hround. unfold poll.
  destruct student_id as [[|c s]|]; try exact Hnone;
    apply poll_rounds_result; assumption.
Qed.

Lemma poll_answer_cost (student_id : option string) (i : nat) (r : pyval) :
  session_ready student_id = true ->
  reaches_round round responses max_retries i = true ->
  (data <- responses i ;; round data) = Ok (RReturn r) ->
  let out := poll round endpoint request_id max_retries poll_interval timeout
                  responses student_id in
  fst out = r /\
  count_gets (snd out) = Z.of_nat i + 1 /\
  count_sleeps (snd out) = Z.of_nat i.
Proof.
  intros S R Hr out. subst out.
  split; [apply (poll_answer round _ _ _ _ _ _ student_id i r S R Hr)|].
  rewrite (session_ready_poll round endpoint request_id max_retries
             poll_interval timeout responses _ S).
  unfold reaches_round in R. apply andb_true_iff in R as [Hmax Hp].
  apply Z.ltb_lt in Hmax. rewrite forallb_forall in Hp.
  destruct (poll_rounds_answer_cost r (Z.to_nat max_retries) 0 i)
    as [Hg Hs]; [lia|exact Hmax| |exact Hr|].
  { intros j Hj. apply Hp. apply in_seq. lia. }
  rewrite Nat.sub_0_r in Hg, Hs. split; assumption.
Qed.

Lemma poll_exhausted_cost (student_id : option string) :
  session_ready student_id = true ->
  1 <= max_retries ->
  (forall i, Z.of_nat i < max_retries -> pending round responses i = true) ->
  let out := poll round endpoint request_id max_retries poll_interval timeout
                  responses student_id in
  fst out = PNone /\
  count_gets (snd out) = max_retries /\
  count_sleeps (snd out) = max_retries - 1.
Proof.
  intros S Hk Hp out. subst out.
  split.
  - apply (poll_bounded round endpoint request_id max_retries poll_interval
             timeout responses student_id). exact Hp.
  - rewrite (session_ready_poll round endpoint request_id max_retries
               poll_interval timeout responses _ S).
    destruct (poll_rounds_exhausted_cost (Z.to_nat max_retries) 0)
      as [Hg Hs]; [lia| |].
    { intros j Hj. apply Hp. lia. }
    unfold rounds_of in Hg, Hs. rewrite Hg, Hs. split; lia.
Qed.

End PollerAccounting.

Lemma predicate_round_shape (data r : pyval) :
  predicate_round data = Ok (RReturn r) -> predicate_shape r.
Proof.
  unfold predicate_round, predicate_shape.
  destruct (py_get data "result" PNone) as [z|]; [|discriminate]. cbn [bind].
  destruct (py_eq_zero z); [|intros [= <-]; left; reflexivity].
  destruct (py_get data "data" PNone) as [d|]; [|discriminate]. cbn [bind].
  destruct (truthy d) eqn:T; [|discriminate].
  destruct d as [| | | | | |fields]; try discriminate.
  rewrite py_get_dict. cbn [bind].
  destruct (truthy (get_or "success" fields PNone)) eqn:S.
  - intros [= <-]. right. exists fields.
    split; [reflexivity|]. split; [exact T|]. left. exact S.
  - rewrite py_get_dict. cbn [bind].
    destruct (get_or "errorMessage" fields (PDict [])) as [| | | | | |em] eqn:E;
      try discriminate.
    rewrite py_get_dict. cbn [bind]. intros [= <-].
    right. exists fields. split; [reflexivity|]. split; [exact T|].
    right. exists em. exact E.
Qed.

Lemma add_drop_round_shape (data r : pyval) :
  add_drop_round data = Ok (RReturn r) -> add_drop_shape r.
Proof.
  unfold add_drop_round, add_drop_shape.
  destruct (py_get data "result" PNone) as [z|]; [|discriminate]. cbn [bind].
  destruct (py_eq_zero z); [|intros [= <-]; left; reflexivity].
  destruct (py_get data "data" PNone) as [d|]; [|discriminate]. cbn [bind].
  destruct (py_or d (PDict [])) as [| | | | | |fields]; try discriminate.
  rewrite py_get_dict. cbn [bind].
  destruct (truthy (get_or "success" fields PNone)) eqn:S.
  - intros [= <-]. right. exists fields. split; [reflexivity|].
    left. exact S.
  - rewrite py_get_dict. cbn [bind].
    destruct (truthy (get_or "errorMessage" fields PNone)) eqn:T;
      [|discriminate].
    destruct (get_or "errorMessage" fields PNone) as [| | | | | |[|e em]] eqn:E;
      try discriminate.
    rewrite py_get_dict. cbn [bind].
    destruct (_is_duplicate_message _) as [[|]|]; cbn [bind]; try discriminate;
      intros [= <-]; right; eexists; (split; [reflexivity|]).
    + left. rewrite (get_or_lookup "success" _ PNone (PBool true)); [reflexivity|].
      rewrite lookup_dict_set_other by reflexivity. apply lookup_dict_set_same.
    + right. exists e, em. exact E.
Qed.

(** X5.  What the pollers hand back can be read without a type check:
    [get_predicate_response] returns [None] or a non-empty result object
    that is a success or whose error message, if present, is an object;
    [get_add_drop_response] returns [None] or a result object that is a
    success or carries a non-empty error object. *)
Theorem pollers_return_shape (student_id : option string) (request_id : pyval)
    (max_retries : Z) (poll_interval timeout : float)
    (responses : nat -> res pyval) :
  predicate_shape
    (fst (get_predicate_response student_id request_id max_retries
            poll_interval timeout responses)) /\
  add_drop_shape
    (fst (get_add_drop_response student_id request_id max_retries
            poll_interval timeout responses)).
Proof.
  split.
  - unfold get_predicate_response. apply poll_result; [left; reflexivity|].
    intros i r H. destruct (responses i) as [data|]; [|discriminate].
    apply (predicate_round_shape data r H).
  - unfold get_add_drop_response. apply poll_result; [left; reflexivity|].
    intros i r H. destruct (responses i) as [data|]; [|discriminate].
    apply (add_drop_round_shape data r H).
Qed.

(** X6.  A value that arrives in round [i] of a poller (counted from 0, no
    earlier round having returned) is returned after exactly [i + 1]
    requests and [i] sleeps: nothing is requested once a round has
    returned, be it a result or the [None] of a refused query. *)
Theorem pollers_cost_of_answer (student_id : option string)
    (request_id : pyval) (max_retries : Z) (poll_interval timeout : float)
    (responses : nat -> res pyval) (i : nat) (r : pyval) :
  session_ready student_id = true ->
  (reaches_round predicate_round responses max_retries i = true ->
   (data <- responses i ;; predicate_round data) = Ok (RReturn r) ->
   get_predicate_response student_id request_id max_retries poll_interval
     timeout responses
   = (r, snd (get_predicate_response student_id request_id max_retries
                poll_interval timeout responses)) /\
   count_gets (snd (get_predicate_response student_id request_id max_retries
                      poll_interval timeout responses)) = Z.of_nat i + 1 /\
   count_sleeps (snd (get_predicate_response student_id request_id max_retries
                        poll_interval timeout responses)) = Z.of_nat i) /\
  (reaches_round add_drop_round responses max_retries i = true ->
   (data <- responses i ;; add_drop_round data) = Ok (RReturn r) ->
   get_add_drop_response student_id request_id max_retries poll_interval
     timeout responses
   = (r, snd (get_add_drop_response student_id request_id max_retries
                poll_interval timeout responses)) /\
   count_gets (snd (get_add_drop_response student_id request_id max_retries
                      poll_interval timeout responses)) = Z.of_nat i + 1 /\
   count_sleeps (snd (get_add_drop_response student_id request_id max_retries
                        poll_interval timeout responses)) = Z.of_nat i).
Proof.
  intros S. split; intros R Hr.
  - destruct (poll_answer_cost predicate_round "predicate-response" request_id
                max_retries poll_interval timeout responses student_id i r
                S R Hr) as (Hf & Hg & Hs).
    unfold get_predicate_response.
    split; [|split; assumption].
    rewrite <- Hf. apply surjective_pairing.
  - destruct (poll_answer_cost add_drop_round "add-drop-response" request_id
                max_retries poll_interval timeout responses student_id i r
                S R Hr) as (Hf & Hg & Hs).
    unfold get_add_drop_response.
    split; [|split; assumption].
    rewrite <- Hf. apply surjective_pairing.
Qed.

Lemma pollers_cost_of_answer_witness :
  count_gets
    (snd (get_add_drop_response (Some "20240001") (PStr "req-2") 10 0.2%float
            5%float (add_drop_polls env_duplicate_confirm))) = 2 /\
  count_sleeps
    (snd (get_add_drop_response (Some "20240001") (PStr "req-2") 10 0.2%float
            5%float (add_drop_polls env_duplicate_confirm))) = 1.
Proof.
  refine (proj2 (proj2 (pollers_cost_of_answer (Some "20240001") (PStr "req-2")
                          10 0.2%float 5%float
                          (add_drop_polls env_duplicate_confirm) 1%nat _
                          eq_refl) eq_refl eq_refl)).
Defined.

(** X7.  When the session is set, the budget is at least one round and no
    round brings a value back, a poller spends its whole budget: exactly
    [max_retries] requests separated by [max_retries - 1] sleeps, then
    [None]. *)
Theorem pollers_exhaust_budget (student_id : option string)
    (request_id : pyval) (max_retries : Z) (poll_interval timeout : float)
    (responses : nat -> res pyval) :
  session_ready student_id = true ->
  1 <= max_retries ->
  ((forall i, Z.of_nat i < max_retries ->
              pending predicate_round responses i = true) ->
   fst (get_predicate_response student_id request_id max_retries poll_interval
          timeout responses) = PNone /\
   count_gets (snd (get_predicate_response student_id request_id max_retries
                      poll_interval timeout responses)) = max_retries /\
   count_sleeps (snd (get_predicate_response student_id request_id max_retries
                        poll_interval timeout responses)) = max_retries - 1) /\
  ((forall i, Z.of_nat i < max_retries ->
              pending add_drop_round responses i = true) ->
   fst (get_add_drop_response student_id request_id max_retries poll_interval
          timeout responses) = PNone /\
   count_gets (snd (get_add_drop_response student_id request_id max_retries
                      poll_interval timeout responses)) = max_retries /\
   count_sleeps (snd (get_add_drop_response student_id request_id max_retries
                        poll_interval timeout responses)) = max_retries - 1).
Proof.
  intros S Hk. split; intros Hp.
  - apply (poll_exhausted_cost predicate_round "predicate-response" request_id
             max_retries poll_interval timeout responses student_id S Hk Hp).
  - apply (poll_exhausted_cost add_drop_round "add-drop-response" request_id
             max_retries poll_interval timeout responses student_id S Hk Hp).
Qed.

Lemma pollers_exhaust_budget_witness :
  count_gets
    (snd (get_predicate_response (Some "20240001") (PStr "req-1") 8 0.15%float
            5%float (fun _ => Raise RequestError))) = 8 /\
  count_sleeps
    (snd (get_predicate_response (Some "20240001") (PStr "req-1") 8 0.15%float
            5%float (fun _ => Raise RequestError))) = 7.
Proof.
  refine (proj2 (proj1 (pollers_exhaust_budget (Some "20240001") (PStr "req-1")
                          8 0.15%float 5%float (fun _ => Raise RequestError)
                          eq_refl _) _)).
  - lia.
  - intros i _. reflexivity.
Defined.

Lemma predicate_round_malformed (data : pyval) :
  malformed_failure data = true ->
  predicate_round data = Raise AttributeError.
Proof.
  unfold malformed_failure.
  destruct (body_of data) as [fields|] eqn:B; [|discriminate].
  intros H. apply andb_true_iff in H as [H Hv].
  apply andb_true_iff in H as [T S]. apply negb_true_iff in S.
  destruct (lookup "errorMessage" fields) as [v|] eqn:L; [|discriminate].
  destruct (body_of_shape _ _ B) as (top & -> & Z0 & Hd).
  unfold predicate_round. rewrite !py_get_dict. cbn [bind].
  rewrite Z0, Hd, T, !py_get_dict. cbn [bind].
  rewrite S, (get_or_lookup _ _ (PDict []) _ L).
  destruct v; try discriminate Hv; reflexivity.
Qed.

(** X8.  [get_predicate_response] cannot report a failure whose
    [errorMessage] entry is present but is not an object (for instance
    [null]): reading its text raises inside the round, the round is retried
    like a network error, and if every answer within the budget is of that
    kind the call returns [None], as if no result had arrived. *)
Theorem predicate_poll_loses_malformed_failure (student_id : option string)
    (request_id : pyval) (max_retries : Z) (poll_interval timeout : float)
    (responses : nat -> res pyval) :
  (forall i, Z.of_nat i < max_retries ->
             exists data, responses i = Ok data /\ malformed_failure data = true) ->
  fst (get_predicate_response student_id request_id max_retries poll_interval
         timeout responses) = PNone.
Proof.
  intros H.
  apply (poll_bounded predicate_round "predicate-response" request_id
           max_retries poll_interval timeout responses student_id).
  intros i Hi. destruct (H i Hi) as (data & Hr & M).
  unfold pending. rewrite Hr. cbn [bind].
  rewrite (predicate_round_malformed data M). reflexivity.
Qed.

Lemma predicate_poll_loses_malformed_failure_witness :
  fst (get_predicate_response (Some "20240001") (PStr "req-1") 8 0.15%float
         5%float
         (fun _ => Ok (answer (PDict [("success", PBool false);
                                      ("errorMessage", PNone)])))) = PNone.
Proof.
  apply predicate_poll_loses_malformed_failure.
  intros i _. eexists. split; reflexivity.
Defined.

(** X9.  The two pollers read a failed result that carries no
    [errorMessage] differently.  Answered with it in every round,
    [get_predicate_response] returns it from the first round, while
    [get_add_drop_response] takes it for "not ready yet", polls until its
    budget is spent and returns [None]. *)
Theorem pollers_differ_on_silent_failure (student_id : option string)
    (request_id : pyval) (max_retries : Z) (poll_interval timeout : float)
    (data : pyval) (fields : list (string * pyval)) :
  session_ready student_id = true ->
  1 <= max_retries ->
  body_of data = Some fields ->
  silent_failure fields = true ->
  get_predicate_response student_id request_id max_retries poll_interval
    timeout (fun _ => Ok data)
  = (PDict fields, [EGet "predicate-response" request_id timeout]) /\
  fst (get_add_drop_response student_id request_id max_retries poll_interval
         timeout (fun _ => Ok data)) = PNone /\
  count_gets (snd (get_add_drop_response student_id request_id max_retries
                     poll_interval timeout (fun _ => Ok data))) = max_retries.
Proof.
  intros S Hk B Sil.
  unfold silent_failure in Sil. apply andb_true_iff in Sil as [Sil Hn].
  apply andb_true_iff in Sil as [T Hs]. apply negb_true_iff in Hs.
  destruct (lookup "errorMessage" fields) eqn:L; [discriminate|].
  destruct (body_of_shape _ _ B) as (top & -> & Z0 & Hd).
  split.
  - assert (R : predicate_round (PDict top) = Ok (RReturn (PDict fields))).
    { apply (predicate_round_failure _ fields []); try assumption.
      unfold get_or. rewrite L. reflexivity. }
    unfold get_predicate_response.
    rewrite (session_ready_poll _ _ _ _ _ _ _ _ S).
    destruct (Z.to_nat max_retries) as [|n] eqn:N; [lia|].
    cbn [seq poll_rounds bind]. rewrite R. reflexivity.
  - assert (R : add_drop_round (PDict top) = Ok RNotReady).
    { unfold add_drop_round. rewrite !py_get_dict. cbn [bind].
      rewrite Z0, Hd, (py_or_truthy _ _ T), !py_get_dict. cbn [bind].
      rewrite Hs. unfold get_or. rewrite L. reflexivity. }
    destruct (poll_exhausted_cost add_drop_round "add-drop-response" request_id
                max_retries poll_interval timeout (fun _ => Ok (PDict top))
                student_id S Hk) as (Hf & Hg & _).
    { intros i _. unfold pending. cbn [bind]. rewrite R. reflexivity. }
    split; assumption.
Qed.

Lemma pollers_differ_on_silent_failure_witness :
  fst (get_predicate_response (Some "20240001") (PStr "req") 3 0.2%float 5%float
         (fun _ => Ok (answer (PDict [("success", PBool false)]))))
  = PDict [("success", PBool false)] /\
  fst (get_add_drop_response (Some "20240001") (PStr "req") 3 0.2%float 5%float
         (fun _ => Ok (answer (PDict [("success", PBool false)])))) = PNone.
Proof.
  destruct (pollers_differ_on_silent_failure (Some "20240001") (PStr "req") 3
              0.2%float 5%float (answer (PDict [("success", PBool false)]))
              [("success", PBool false)] eq_refl) as (A & B & _);
    [lia|reflexivity|reflexivity|].
  split; [rewrite A; reflexivity|exact B].
Defined.

(** X10.  Apart from the duplicate rewrite, [get_add_drop_response] hands
    the server's result object back untouched: a result flagged as a
    success, and an error whose text is not a duplicate notice, are returned
    exactly as received in the first round that brings one. *)
Theorem add_drop_passes_result_through (student_id : option string)
    (request_id : pyval) (max_retries : Z) (poll_interval timeout : float)
    (responses : nat -> res pyval) (i : nat) (data : pyval)
    (fields : list (string * pyval)) :
  session_ready student_id = true ->
  reaches_round add_drop_round responses max_retries i = true ->
  responses i = Ok data ->
  body_of data = Some fields ->
  truthy (get_or "success" fields PNone) = true \/ plain_error fields = true ->
  fst (get_add_drop_response student_id request_id max_retries poll_interval
         timeout responses) = PDict fields.
Proof.
  intros S R Hresp B H. unfold get_add_drop_response.
  apply (poll_answer add_drop_round _ _ _ _ _ responses student_id i); auto.
  rewrite Hresp. cbn [bind]. destruct H as [Hs|Hp].
  - apply add_drop_round_success; assumption.
  - apply add_drop_round_plain_error; assumption.
Qed.

Lemma add_drop_passes_result_through_witness :
  fst (get_add_drop_response (Some "20240001") (PStr "req-2") 10 0.2%float
         5%float (add_drop_polls env_conflict))
  = PDict [("success", PBool false);
           ("errorMessage", PDict [("text", PStr "与已选课程时间冲突")])].
Proof.
  apply (add_drop_passes_result_through (Some "20240001") (PStr "req-2") 10
           0.2%float 5%float (add_drop_polls env_conflict) 0%nat
           (failed_with "与已选课程时间冲突")); try reflexivity.
  right. reflexivity.
Defined.

(** ** More on the classification helpers *)

Lemma string_app_assoc (a b c : string) :
  ((a ++ b) ++ c = a ++ (b ++ c))%string.
Proof.
  induction a as [|x a IH]; cbn [String.append]; [reflexivity|].
  rewrite IH. reflexivity.
Qed.

Lemma prefix_spec (p s : string) :
  String.prefix p s = true <-> exists b, s = (p ++ b)%string.
Proof.
  revert s. induction p as [|c p IH]; intros s.
  - destruct s; cbn [String.prefix String.append]; split; eauto.
  - destruct s as [|c' s]; cbn [String.prefix String.append].
    + split; [discriminate|]. intros [b Hb]. discriminate Hb.
    + destruct (Ascii.ascii_dec c c') as [->|N].
      * rewrite IH. split; intros [b Hb]; exists b; congruence.
      * split; [discriminate|]. intros [b Hb]. congruence.
Qed.

(** [contains] is the substring relation. *)
Lemma contains_spec (needle hay : string) :
  contains needle hay = true <->
  exists a b, hay = (a ++ needle ++ b)%string.
Proof.
  induction hay as [|c rest IH]; cbn [contains].
  - rewrite prefix_spec. split.
    + intros [b Hb]. exists "", b. exact Hb.
    + intros (a & b & H). destruct a; [|discriminate H].
      exists b. exact H.
  - rewrite orb_true_iff, prefix_spec, IH. split.
    + intros [[b Hb]|(a & b & H)].
      * exists "", b. exact Hb.
      * exists (String c a), b. cbn [String.append]. congruence.
    + intros (a & b & H). destruct a as [|c' a].
      * left. exists b. exact H.
      * right. cbn [String.append] in H. exists a, b. congruence.
Qed.

(** X11.  On a string, [_is_duplicate_message] answers [True] exactly when
    one of the two known phrasings occurs somewhere in it; so a message that
    is recognised stays recognised inside any longer text. *)
Theorem is_duplicate_iff_marker_occurs (s : string) :
  (_is_duplicate_message (PStr s) = Ok true <->
   exists kw a b, In kw duplicate_keywords /\ s = (a ++ kw ++ b)%string) /\
  (_is_duplicate_message (PStr s) = Ok true ->
   forall before after,
     _is_duplicate_message (PStr (before ++ s ++ after)) = Ok true).
Proof.
  assert (Iff : forall t,
             _is_duplicate_message (PStr t) = Ok true <->
             exists kw a b, In kw duplicate_keywords /\ t = (a ++ kw ++ b)%string).
  { intros t. rewrite is_duplicate_str. unfold duplicate_keywords. split.
    - intros [= H]. apply andb_true_iff in H as [_ H].
      apply orb_true_iff in H as [H|H]; apply contains_spec in H as (a & b & H);
        eexists; exists a, b; (split; [|exact H]); cbn [In]; auto.
    - intros (kw & a & b & Hin & ->).
      assert (N : String.eqb (a ++ kw ++ b) "" = false).
      { apply String.eqb_neq. destruct Hin as [<-|[<-|[]]];
          destruct a; discriminate. }
      rewrite N. cbn [negb andb]. f_equal. apply orb_true_iff.
      destruct Hin as [<-|[<-|[]]]; [left|right];
        apply contains_spec; exists a, b; reflexivity. }
  split; [apply Iff|].
  intros H before after. apply Iff. apply Iff in H as (kw & a & b & Hin & ->).
  exists kw, (before ++ a)%string, (b ++ after)%string.
  split; [exact Hin|]. rewrite !string_app_assoc. reflexivity.
Qed.

Lemma is_duplicate_iff_marker_occurs_witness :
  _is_duplicate_message
    (PStr ("[FAIL] " ++ "Duplicate lessons are not allowed" ++ " (code 17)"))
  = Ok true.
Proof.
  apply (proj2 (is_duplicate_iff_marker_occurs "Duplicate lessons are not allowed")).
  reflexivity.
Defined.

(** ** Selection turn *)

Example get_turn_info_example :
  get_turn_info sample_session
    (Ok (turn_answer (PDict [("id", PInt 741); ("name", PStr "第一轮")])
                     (PDict [("id", PInt 61); ("nameZh", PStr "2025-2026-1")])))
  = (PDict [("turn", PDict [("id", PInt 741); ("name", PStr "第一轮")]);
            ("semester", PDict [("id", PInt 61); ("nameZh", PStr "2025-2026-1")])],
     {| session_student_id := Some "20240001";
        session_turn_id := PInt 741;
        session_semester_id := PInt 61 |}).
Proof. reflexivity. Qed.

Lemma get_turn_info_unusable (s : session) (response : res pyval) :
  turn_data_of response = None ->
  get_turn_info s response = (PNone, s).
Proof.
  unfold turn_data_of, get_turn_info. intros H.
  destruct (negb (session_ready (session_student_id s))); [reflexivity|].
  destruct response as [data|e]; [|reflexivity].
  destruct data as [| | | | | |top]; try reflexivity.
  cbn [bind]. rewrite !py_get_dict. cbn [bind].
  destruct (py_eq_zero (get_or "result" top PNone)
            && truthy (get_or "data" top PNone)); [discriminate|reflexivity].
Qed.

Lemma get_turn_info_usable (s : session) (response : res pyval)
    (turn_data : pyval) :
  session_ready (session_student_id s) = true ->
  turn_data_of response = Some turn_data ->
  get_turn_info s response
  = match py_item turn_data "turn" with
    | None => (PNone, s)
    | Some turn =>
        match py_item turn "id" with
        | None => (PNone, s)
        | Some tid =>
            match py_item turn_data "semester" with
            | None => (PNone, set_turn_id tid s)
            | Some semester =>
                match py_item semester "id" with
                | None => (PNone, set_turn_id tid s)
                | Some sem_id =>
                    match py_item turn "name", py_item semester "nameZh" with
                    | Some _, Some _ =>
                        (turn_data, set_semester_id sem_id (set_turn_id tid s))
                    | _, _ => (PNone, set_semester_id sem_id (set_turn_id tid s))
                    end
                end
            end
        end
    end.
Proof.
  unfold turn_data_of, get_turn_info. intros R H. rewrite R. cbn [negb].
  destruct response as [data|e]; [|discriminate].
  destruct data as [| | | | | |top]; try discriminate.
  cbn [bind]. rewrite !py_get_dict. cbn [bind].
  destruct (py_eq_zero (get_or "result" top PNone)
            && truthy (get_or "data" top PNone)); [|discriminate].
  injection H as <-. reflexivity.
Qed.

Lemma turn_data_truthy (response : res pyval) (turn_data : pyval) :
  turn_data_of response = Some turn_data -> truthy turn_data = true.
Proof.
  unfold turn_data_of. destruct response as [[| | | | | |top]|]; try discriminate.
  destruct (py_eq_zero _); cbn [andb]; [|discriminate].
  destruct (truthy (get_or "data" top PNone)) eqn:T; [|discriminate].
  intros [= <-]. exact T.
Qed.

(** X20.  When [get_turn_info] returns something other than [None], the
    student id was set, the value returned is the [data] object of an answer
    with [result == 0], and the client now holds exactly the turn id and the
    semester id found in it; the student id is never changed. *)
Theorem get_turn_info_success (s s' : session) (response : res pyval)
    (r : pyval) :
  get_turn_info s response = (r, s') ->
  session_student_id s' = session_student_id s /\
  (r <> PNone ->
   session_ready (session_student_id s) = true /\
   turn_data_of response = Some r /\
   nested r "turn" "id" = Some (session_turn_id s') /\
   nested r "semester" "id" = Some (session_semester_id s')).
Proof.
  intros H.
  destruct (session_ready (session_student_id s)) eqn:R.
  2:{ unfold get_turn_info in H. rewrite R in H. cbn [negb] in H.
      injection H as <- <-. split; [reflexivity|]. intros N. contradiction. }
  destruct (turn_data_of response) as [turn_data|] eqn:T.
  2:{ rewrite (get_turn_info_unusable s response T) in H.
      injection H as <- <-. split; [reflexivity|]. intros N. contradiction. }
  rewrite (get_turn_info_usable s response turn_data R T) in H.
  pose proof (turn_data_truthy _ _ T) as Tt.
  unfold nested.
  destruct (py_item turn_data "turn") as [turn|] eqn:E1;
    [|injection H as <- <-; split; [reflexivity|intros N; contradiction]].
  destruct (py_item turn "id") as [tid|] eqn:E2;
    [|injection H as <- <-; split; [reflexivity|intros N; contradiction]].
  destruct (py_item turn_data "semester") as [semester|] eqn:E3;
    [|injection H as <- <-; split; [reflexivity|intros N; contradiction]].
  destruct (py_item semester "id") as [sem_id|] eqn:E4;
    [|injection H as <- <-; split; [reflexivity|intros N; contradiction]].
  destruct (py_item turn "name"), (py_item semester "nameZh");
    injection H as <- <-; (split; [reflexivity|]); intros N;
    try contradiction.
  rewrite E1, E2, E3, E4. repeat split.
Qed.

Lemma get_turn_info_success_witness :
  nested
    (fst (get_turn_info sample_session
            (Ok (turn_answer (PDict [("id", PInt 741); ("name", PStr "第一轮")])
                             (PDict [("id", PInt 61);
                                     ("nameZh", PStr "2025-2026-1")])))))
    "turn" "id"
  = Some (PInt 741).
Proof.
  refine (proj1 (proj2 (proj2 (proj2 (get_turn_info_success sample_session _
                                        (Ok (turn_answer
                                               (PDict [("id", PInt 741);
                                                       ("name", PStr "第一轮")])
                                               (PDict [("id", PInt 61);
                                                       ("nameZh",
                                                        PStr "2025-2026-1")])))
                                        _ eq_refl) _)))).
  discriminate.
Defined.

(** X21.  [get_turn_info] can fail after it has begun to update the client.
    A request that fails, or an answer without usable data, leaves the
    client unchanged; but an answer whose turn id can be read while its
    semester id cannot makes the call return [None], so that
    [verify_credentials] reports failure, with the new turn id already
    stored and the old semester id kept. *)
Theorem get_turn_info_partial_update (s : session) (response : res pyval) :
  (turn_data_of response = None -> get_turn_info s response = (PNone, s)) /\
  (forall turn_data tid,
     session_ready (session_student_id s) = true ->
     turn_data_of response = Some turn_data ->
     nested turn_data "turn" "id" = Some tid ->
     nested turn_data "semester" "id" = None ->
     get_turn_info s response = (PNone, set_turn_id tid s) /\
     verify_credentials s response = (false, set_turn_id tid s)).
Proof.
  split; [apply get_turn_info_unusable|].
  intros turn_data tid R T Ht Hs.
  assert (E : get_turn_info s response = (PNone, set_turn_id tid s)).
  { rewrite (get_turn_info_usable s response turn_data R T).
    unfold nested in Ht, Hs.
    destruct (py_item turn_data "turn") as [turn|]; [|discriminate].
    rewrite Ht.
    destruct (py_item turn_data "semester") as [semester|]; [|reflexivity].
    rewrite Hs. reflexivity. }
  split; [exact E|]. unfold verify_credentials. rewrite E. reflexivity.
Qed.

Lemma get_turn_info_partial_update_witness :
  verify_credentials sample_session
    (Ok (turn_answer (PDict [("id", PInt 741); ("name", PStr "第一轮")]) PNone))
  = (false,
     {| session_student_id := Some "20240001";
        session_turn_id := PInt 741;
        session_semester_id := PInt 60 |}).
Proof.
  refine (proj2 (proj2 (get_turn_info_partial_update sample_session
                          (Ok (turn_answer
                                 (PDict [("id", PInt 741);
                                         ("name", PStr "第一轮")])
                                 PNone)))
                   (PDict [("turn", PDict [("id", PInt 741);
                                           ("name", PStr "第一轮")]);
                           ("semester", PNone)])
                   (PInt 741) eq_refl eq_refl eq_refl eq_refl)).
Defined.

(** ** More on one attempt *)

Section AttemptMore.

Variable py_int : string -> res Z.
Variable s : session.
Variable request_timeout : float.
Variable env : attempt_env.

Section Established.

Hypothesis est : established py_int s = true.





(** An error text that the duplicate check cannot read makes the intent
    stage raise. *)
Lemma intent_stage_unreadable_text (i : nat) (fields em : list (string * pyval))
    (e : exn) :
  intent_result env i = Some fields ->
  truthy (get_or "success" fields PNone) = false ->
  get_or "errorMessage" fields (PDict []) = PDict em ->
  _is_duplicate_message (_extract_text_field (PDict em)) = Raise e ->
  intent_stage py_int s request_timeout env = Raise e.
Proof.
  intros R S E Dup.
  pose proof (established_ready py_int s est) as ready.
  destruct (intent_result_shape env i fields R)
    as (Hreq & Hreach & data & Hresp & B).
  assert (Tm : truthy (_extract_text_field (PDict em)) = true).
  { destruct (truthy (_extract_text_field (PDict em))) eqn:T; [reflexivity|].
    rewrite (is_duplicate_falsy _ T) in Dup. discriminate. }
  assert (Em : lookup "errorMessage" fields = Some (PDict em)).
  { apply (get_or_found _ _ _ _ E). intros [= ->]. discriminate Tm. }
  pose proof (lookup_nonempty _ _ _ Em) as T.
  assert (Hpred : fst (get_predicate_response (session_student_id s)
                         (read_request_id (predicate_post env)) 8
                         0.15%float request_timeout (predicate_polls env))
                  = PDict fields).
  { unfold get_predicate_response.
    apply (poll_answer predicate_round _ _ _ _ _ _ (session_student_id s) i);
      auto.
    rewrite Hresp. cbn [bind].
    apply (predicate_round_failure data fields em); assumption. }
  unfold intent_stage.
  rewrite (intent_submission_established py_int s env est).
  cbn [fst snd bind]. rewrite Hreq. cbn [negb]. cbv zeta.
  rewrite Hpred, T, py_get_dict. cbn [bind]. rewrite S. cbn [negb orb].
  rewrite (error_text_dict _ _ T), (get_or_lookup _ _ PNone _ Em). cbn [bind].
  rewrite (py_or_truthy _ _ Tm), Dup. reflexivity.
Qed.

End Established.

Lemma read_request_id_raised (e : exn) : read_request_id (Raise e) = PNone.
Proof. reflexivity. Qed.



(** With both ids set, a student id that [int] refuses raises out of the
    submission. *)
Lemma submit_request_int_raises (turn_response post : res pyval) (e : exn) :
  truthy (session_turn_id s) = true ->
  session_ready (session_student_id s) = true ->
  int_of_student_id py_int s = Raise e ->
  submit_request py_int s turn_response post = (Raise e, s).
Proof.
  intros T R I. unfold submit_request, ensure_turn. rewrite T, R.
  cbn [negb orb]. rewrite I. reflexivity.
Qed.


Lemma attempt_of_raise (idx : nat) (e : exn) :
  intent_stage py_int s request_timeout env = Raise e ->
  _single_attempt py_int s request_timeout env idx
  = (false, (idx, MException e)).
Proof.
  intros E. unfold _single_attempt, attempt_body. rewrite E. reflexivity.
Qed.

End AttemptMore.



(** X13.  What goes wrong inside an attempt does not crash the worker.  On
    a client whose turn id and student id are set and whose student id
    [int] reads, when the failed intent result carries an error object
    whose extracted text makes the duplicate check raise (a non-zero
    number, [True]), the exception is caught by the attempt, which ends as
    a failure whose message names the exception.  So is the exception of
    [int] on a student id that it refuses: the attempt ends as a failure
    before anything is sent. *)
Theorem attempt_catches_unreadable_text (py_int : string -> res Z)
    (s : session) (request_timeout : float) (env : attempt_env) (idx : nat)
    (e : exn) :
  (forall i fields em,
     established py_int s = true ->
     intent_result env i = Some fields ->
     truthy (get_or "success" fields PNone) = false ->
     get_or "errorMessage" fields (PDict []) = PDict em ->
     _is_duplicate_message (_extract_text_field (PDict em)) = Raise e ->
     _single_attempt py_int s request_timeout env idx
     = (false, (idx, MException e))) /\
  (truthy (session_turn_id s) = true ->
   session_ready (session_student_id s) = true ->
   int_of_student_id py_int s = Raise e ->
   _single_attempt py_int s request_timeout env idx
   = (false, (idx, MException e))).
Proof.
  split.
  - intros i fields em E R S Em Dup.
    apply attempt_of_raise.
    apply (intent_stage_unreadable_text py_int s request_timeout env E i fields
             em e R S Em Dup).
  - intros T R I. apply attempt_of_raise. unfold intent_stage, intent_submission.
    unfold add_course_predicate.
    rewrite (submit_request_int_raises py_int s _ _ e T R I). reflexivity.
Qed.

Lemma attempt_catches_unreadable_text_witness :
  _single_attempt decimal_int sample_session 5%float env_bad_text 3
  = (false, (3%nat, MException TypeError)) /\
  _single_attempt decimal_int session_lettered_id 5%float env_success 3
  = (false, (3%nat, MException ValueError)).
Proof.
  split.
  - apply (proj1 (attempt_catches_unreadable_text decimal_int sample_session
                    5%float env_bad_text 3 TypeError)
             0%nat [("success", PBool false);
                    ("errorMessage", PDict [("text", PInt 5)])]
             [("text", PInt 5)]); reflexivity.
  - apply (proj2 (attempt_catches_unreadable_text decimal_int
                    session_lettered_id 5%float env_success 3 ValueError));
      reflexivity.
Defined.

Ltac break_match :=
  match goal with
  | |- context [bind ?c _] => destruct c eqn:?; cbn [bind]
  | |- context [match ?x with _ => _ end] => destruct x eqn:?
  end.

Lemma intent_stage_flag (py_int : string -> res Z) (s : session)
    (request_timeout : float) (env : attempt_env) (r : bool * attempt_msg) :
  intent_stage py_int s request_timeout env = Ok (Some r) ->
  fst r = winning_msg (snd r).
Proof.
  unfold intent_stage. cbv zeta.
  repeat break_match;
    intros H; try discriminate H; inversion H; subst; reflexivity.
Qed.

Lemma confirm_stage_flag (py_int : string -> res Z) (s : session)
    (request_timeout : float) (env : attempt_env) (r : bool * attempt_msg) :
  confirm_stage py_int s request_timeout env = Ok r ->
  fst r = winning_msg (snd r).
Proof.
  unfold confirm_stage. cbv zeta.
  repeat break_match;
    intros H; try discriminate H; inversion H; subst; reflexivity.
Qed.

(** X14.  The flag and the message of an attempt always agree, and the
    message carries the attempt's own index: the flag is [True] exactly for
    the messages "confirmed" and the three "already held" ones, and [False]
    for every failure, conflict and caught exception. *)
Theorem attempt_flag_matches_message (py_int : string -> res Z) (s : session)
    (request_timeout : float) (env : attempt_env) (idx : nat) :
  let r := _single_attempt py_int s request_timeout env idx in
  fst r = winning_msg (snd (snd r)) /\ fst (snd r) = idx.
Proof.
  cbv zeta. unfold _single_attempt, attempt_body.
  destruct (intent_stage py_int s request_timeout env) as [[r|]|e] eqn:I;
    cbn [bind].
  - pose proof (intent_stage_flag _ _ _ _ _ I) as F. destruct r as [ok msg].
    cbn [fst snd] in *. split; [exact F|reflexivity].
  - destruct (confirm_stage py_int s request_timeout env) as [r|e] eqn:C.
    + pose proof (confirm_stage_flag _ _ _ _ _ C) as F. destruct r as [ok msg].
      cbn [fst snd] in *. split; [exact F|reflexivity].
    + cbn [fst snd winning_msg]. split; reflexivity.
  - cbn [fst snd winning_msg]. split; reflexivity.
Qed.

(** ** More on the race scheduler *)

Section RaceMore.

Variable order : set_order.
Variable attempt : nat -> attempt_result.
Variable concurrency : Z.
Variable w : race_window.

Lemma launched_app (a b : list race_event) :
  launched (a ++ b) = launched a ++ launched b.
Proof. unfold launched. apply flat_map_app. Qed.

Lemma launched_launches (now : Z) (l : list nat) :
  launched (map (fun idx => ELaunch idx now) l) = l.
Proof.
  induction l as [|x l IH]; cbn; [reflexivity|]. f_equal. exact IH.
Qed.

Lemma launched_cancels (l : list nat) : launched (map ECancel l) = [].
Proof. induction l as [|x l IH]; cbn; [reflexivity|exact IH]. Qed.

Lemma refill_well_numbered (now : Z) (st : race_state) :
  well_numbered st ->
  well_numbered (refill concurrency (Z.to_nat concurrency) now st).
Proof.
  intros (Hl & Hn & Hb).
  destruct (refill_spec concurrency _ now st (refill_enough concurrency now st))
    as (Hc & Hf & _ & _ & He).
  set (n := Z.to_nat (concurrency - in_flight st)) in *.
  unfold well_numbered. rewrite Hc, Hf, He. split; [|split].
  - rewrite launched_app, launched_launches, Hl.
    rewrite <- seq_app. reflexivity.
  - apply NoDup_app; [exact Hn|apply seq_NoDup|].
    intros x Hx Hs. apply Hb in Hx. apply in_seq in Hs. lia.
  - intros f Hin. apply in_app_or in Hin as [Hin|Hin].
    + apply Hb in Hin. lia.
    + apply in_seq in Hin. lia.
Qed.

Lemma step_well_numbered (t : tick) (st : race_state) :
  tick_now t <= deadline w ->
  well_numbered st ->
  match race_step order attempt concurrency w t st with
  | Continue st' => well_numbered st'
  | Return _ st' => well_numbered st'
  end.
Proof.
  intros Le Hw.
  pose proof (refill_well_numbered (tick_now t) st Hw) as (Hl & Hn & Hb).
  destruct t as [now finished|now]; cbn [tick_now] in *.
  - destruct (race_step_completed order attempt concurrency w st now finished Le)
      as (st' & -> & Hc & Hf & He).
    assert (W : well_numbered st').
    { unfold well_numbered. rewrite Hc, Hf, He. split; [|split].
      - rewrite launched_app.
        destruct (existsb _ _); [rewrite launched_cancels|cbn [launched flat_map]];
          rewrite app_nil_r; exact Hl.
      - cbn [wait snd]. apply NoDup_filter. exact Hn.
      - intros f Hin. apply wait_not_done_iff in Hin as [Hin _].
        apply Hb. exact Hin. }
    destruct (existsb _ _); exact W.
  - rewrite (race_step_interrupt order attempt concurrency w st now Le).
    unfold well_numbered. cbn [cancel_rest attempt_counter futures events].
    split; [|split; assumption].
    rewrite launched_app, launched_cancels, app_nil_r. exact Hl.
Qed.

(** The loop over the done futures stops at the first success and leaves
    its message as the last error and as the status line. *)
Lemma process_done_winner (done : list nat) (st : race_state) :
  fst (process_done attempt done st) = true ->
  exists id,
    In id done /\ fst (attempt id) = true /\
    last_error (snd (process_done attempt done st)) = Some (snd (attempt id)) /\
    status_line (snd (process_done attempt done st))
      = Some (true, snd (attempt id)).
Proof.
  revert st. induction done as [|fut rest IH]; intros st; cbn [process_done].
  - discriminate.
  - destruct (attempt fut) as [[|] msg] eqn:A.
    + intros _. exists fut. rewrite A. cbn. auto.
    + intros H. destruct (IH _ H) as (id & Hin & Hok & Hl & Hs).
      exists id. split; [right; exact Hin|]. auto.
Qed.

Lemma race_step_true (st st' : race_state) (t : tick) :
  race_step order attempt concurrency w t st = Return true st' ->
  exists id,
    In id (futures (refill concurrency (Z.to_nat concurrency) (tick_now t) st)) /\
    fst (attempt id) = true /\
    last_error st' = Some (snd (attempt id)) /\
    status_line st' = Some (true, snd (attempt id)).
Proof.
  unfold race_step.
  destruct (tick_now t >? deadline w); [discriminate|].
  destruct t as [now finished|now]; cbn [tick_now]; [|discriminate].
  set (st1 := refill concurrency (Z.to_nat concurrency) now st).
  destruct (wait (futures st1) finished) as [d nd] eqn:W.
  destruct (process_done attempt d (set_futures nd st1)) as [ok st2] eqn:P.
  destruct ok; [|discriminate]. intros [= <-].
  destruct (process_done_winner d (set_futures nd st1)) as (id & Hin & Hok & Hl & Hs).
  { rewrite P. reflexivity. }
  rewrite P in Hl, Hs. cbn [snd] in Hl, Hs.
  exists id. split.
  - assert (In id (fst (wait (futures st1) finished))) as X
        by (rewrite W; exact Hin).
    apply wait_done_iff in X. apply X.
  - cbn [cancel_rest last_error status_line]. auto.
Qed.

Lemma loop_true_sound (ticks : list tick) (st st' : race_state) :
  well_numbered st ->
  race_loop order attempt concurrency w ticks st = Returned true st' ->
  exists id,
    (1 <= id <= attempt_counter st')%nat /\
    fst (attempt id) = true /\
    last_error st' = Some (snd (attempt id)) /\
    status_line st' = Some (true, snd (attempt id)).
Proof.
  revert st. induction ticks as [|t rest IH]; intros st Hw; cbn [race_loop];
    [discriminate|].
  destruct (race_step order attempt concurrency w t st) as [st1|b st1] eqn:S.
  - destruct (Z.gtb_spec (tick_now t) (deadline w)) as [Gt|Le].
    + rewrite race_step_timeout in S by lia. discriminate.
    + pose proof (step_well_numbered t st Le Hw) as W. rewrite S in W.
      apply IH. exact W.
  - intros [= -> ->].
    destruct (race_step_true st st' t S) as (id & Hin & Hok & Hl & Hs).
    exists id. split; [|auto].
    destruct (Z.gtb_spec (tick_now t) (deadline w)) as [Gt|Le].
    + rewrite race_step_timeout in S by lia. discriminate.
    + pose proof (refill_well_numbered (tick_now t) st Hw) as (_ & _ & Hb).
      apply Hb in Hin.
      destruct t as [now finished|now]; cbn [tick_now] in *.
      * destruct (race_step_completed order attempt concurrency w st now finished Le)
          as (st2 & E & Hc & _).
        rewrite S in E. destruct (existsb _ _); [|discriminate].
        injection E as <-. rewrite Hc. exact Hin.
      * rewrite race_step_interrupt in S by exact Le. discriminate.
Qed.

End RaceMore.

Lemma initial_well_numbered : well_numbered initial_state.
Proof.
  unfold well_numbered, initial_state. cbn. split; [reflexivity|].
  split; [constructor|]. intros f [].
Qed.

(** X15.  A race returns [True] only on evidence: some attempt it launched
    itself ended with a success flag, and that attempt's message is what the
    status line and the last error show.  Hence a race whose attempts all
    fail never returns [True]. *)
Theorem race_true_is_earned (order : set_order) (attempt : nat -> attempt_result)
    (concurrency : Z) (w : race_window) (ticks : list tick) :
  (forall st',
     race_loop order attempt concurrency w ticks initial_state = Returned true st' ->
     exists id,
       (1 <= id <= attempt_counter st')%nat /\
       fst (attempt id) = true /\
       last_error st' = Some (snd (attempt id)) /\
       status_line st' = Some (true, snd (attempt id))) /\
  ((forall id, fst (attempt id) = false) ->
   forall st',
     race_loop order attempt concurrency w ticks initial_state <> Returned true st').
Proof.
  split.
  - intros st' H.
    apply (loop_true_sound order attempt concurrency w ticks initial_state st'
             initial_well_numbered H).
  - intros Hall st' H.
    destruct (loop_true_sound order attempt concurrency w ticks initial_state st'
                initial_well_numbered H) as (id & _ & Hok & _).
    rewrite Hall in Hok. discriminate.
Qed.

Lemma race_true_is_earned_witness :
  race_loop in_launch_order (_single_attempt decimal_int sample_session 5%float env_conflict) 2
    (derive_window 0 0)
    [Completed 10 [1]%nat; Completed 20 [2; 3]%nat; KeyboardInterrupt 30]
    initial_state
  <> Returned true initial_state /\
  exists id,
    fst (_single_attempt decimal_int sample_session 5%float env_duplicate_intent id)
    = true.
Proof.
  split.
  - apply (proj2 (race_true_is_earned
                    in_launch_order (_single_attempt decimal_int sample_session 5%float env_conflict) 2
                    (derive_window 0 0)
                    [Completed 10 [1]%nat; Completed 20 [2; 3]%nat;
                     KeyboardInterrupt 30])).
    intros id. reflexivity.
  - destruct (proj1 (race_true_is_earned
                       in_launch_order (_single_attempt decimal_int sample_session 5%float
                          env_duplicate_intent) 2 (derive_window 0 0)
                       [Completed 10 [1]%nat])
                    _ eq_refl) as (id & _ & Hok & _).
    exists id. exact Hok.
Defined.

(** X16.  Attempts are numbered as they are launched: at every point of a
    race and when it ends, the indices launched so far are exactly
    1, 2, ..., [attempt_counter] in this order, each once, and the futures
    in flight are distinct attempts among them. *)
Theorem race_numbers_attempts (order : set_order) (attempt : nat -> attempt_result)
    (concurrency : Z) (w : race_window) (ticks : list tick) :
  Forall well_numbered (race_trace order attempt concurrency w ticks initial_state) /\
  match race_loop order attempt concurrency w ticks initial_state with
  | Returned _ st' => well_numbered st'
  | Running st' => well_numbered st'
  | _ => True
  end.
Proof.
  apply (race_invariant order attempt concurrency w well_numbered).
  - intros now st _ H. apply refill_well_numbered. exact H.
  - intros t st Le H. apply step_well_numbered; assumption.
  - exact initial_well_numbered.
Qed.

(** X17.  Each refill tops the pool up to exactly the concurrency: from a
    pool that is not over-full it launches the missing attempts and no
    more, numbers them consecutively after the counter, stamps each launch
    with the clock reading of the iteration, and leaves the futures already
    in flight in place; on a full pool it does nothing. *)
Theorem refill_tops_up (concurrency : Z) (now : Z) (st : race_state) :
  in_flight st <= concurrency ->
  let st1 := refill concurrency (Z.to_nat concurrency) now st in
  let fresh := seq (S (attempt_counter st))
                   (Z.to_nat (concurrency - in_flight st)) in
  in_flight st1 = concurrency /\
  futures st1 = futures st ++ fresh /\
  events st1 = events st ++ map (fun idx => ELaunch idx now) fresh /\
  attempt_counter st1 = (attempt_counter st + List.length fresh)%nat /\
  (in_flight st = concurrency -> futures st1 = futures st /\ events st1 = events st).
Proof.
  intros Le st1 fresh.
  destruct (refill_spec concurrency _ now st (refill_enough concurrency now st))
    as (Hc & Hf & _ & _ & He).
  fold st1 in Hc, Hf, He. fold fresh in Hf, He.
  split; [|split; [exact Hf|split; [exact He|split]]].
  - unfold st1. rewrite refill_in_flight. lia.
  - unfold fresh. rewrite length_seq. exact Hc.
  - intros Full. subst fresh. rewrite Hf, He.
    replace (Z.to_nat (concurrency - in_flight st)) with 0%nat by lia.
    cbn [seq map]. rewrite !app_nil_r. split; reflexivity.
Qed.

Lemma refill_tops_up_witness :
  futures (refill 4 (Z.to_nat 4) 50
             {| attempt_counter := 6%nat; futures := [3; 6]%nat;
                last_error := None; status_line := None; events := [] |})
  = [3; 6; 7; 8]%nat.
Proof.
  refine (proj1 (proj2 (refill_tops_up 4 50
                          {| attempt_counter := 6%nat; futures := [3; 6]%nat;
                             last_error := None; status_line := None;
                             events := [] |} _))).
  vm_compute. discriminate.
Defined.

Section RaceEnd.

Variable order : set_order.
Variable attempt : nat -> attempt_result.
Variable concurrency : Z.
Variable w : race_window.

Lemma launches_only (now : Z) (l : list nat) :
  Forall (fun e => is_launch e = true) (map (fun idx => ELaunch idx now) l).
Proof.
  apply Forall_forall. intros e Hin. apply in_map_iff in Hin as (x & <- & _).
  reflexivity.
Qed.

Lemma refill_never_cancelled (now : Z) (st : race_state) :
  never_cancelled st ->
  never_cancelled (refill concurrency (Z.to_nat concurrency) now st).
Proof.
  unfold never_cancelled. intros H.
  destruct (refill_spec concurrency _ now st (refill_enough concurrency now st))
    as (_ & _ & _ & _ & He).
  rewrite He. apply Forall_app. split; [exact H|apply launches_only].
Qed.

(** How a race can end, seen from its event log. *)
Lemma loop_cancels_last (ticks : list tick) (st : race_state) :
  never_cancelled st ->
  match race_loop order attempt concurrency w ticks st with
  | Running st' => never_cancelled st'
  | Returned b st' =>
      exists launches cancelled,
        Forall (fun e => is_launch e = true) launches /\
        ((events st' = launches ++ map ECancel cancelled /\
          Permutation cancelled (futures st')) \/
         (b = false /\ events st' = launches))
  | _ => True
  end.
Proof.
  revert st. induction ticks as [|t rest IH]; intros st Hn; cbn [race_loop];
    [exact Hn|].
  destruct (Z.gtb_spec (tick_now t) (deadline w)) as [Gt|Le].
  - rewrite race_step_timeout by lia.
    exists (events st), []. split; [exact Hn|]. right. split; reflexivity.
  - pose proof (refill_never_cancelled (tick_now t) st Hn) as H1.
    destruct t as [now finished|now]; cbn [tick_now] in *.
    + destruct (race_step_completed order attempt concurrency w st now finished Le)
        as (st' & -> & _ & Hf & He).
      destruct (existsb _ _).
      * exists (events (refill concurrency (Z.to_nat concurrency) now st)),
               (visit order (futures st')).
        split; [exact H1|]. left. split; [|apply visit_perm].
        rewrite He, Hf. reflexivity.
      * apply IH. unfold never_cancelled. rewrite He, app_nil_r. exact H1.
    + rewrite race_step_interrupt by exact Le.
      exists (events (refill concurrency (Z.to_nat concurrency) now st)),
             (visit order
                (futures (refill concurrency (Z.to_nat concurrency) now st))).
      split; [exact H1|]. left. split; [reflexivity|]. apply visit_perm.
Qed.

(** At most [concurrency] launches per iteration. *)
Lemma loop_launch_budget (ticks : list tick) (st : race_state) :
  0 <= concurrency ->
  match race_loop order attempt concurrency w ticks st with
  | Running st' | Returned _ st' =>
      Z.of_nat (attempt_counter st')
      <= Z.of_nat (attempt_counter st) + concurrency * Z.of_nat (List.length ticks)
  | _ => True
  end.
Proof.
  intros Hk. revert st.
  induction ticks as [|t rest IH]; intros st; cbn [race_loop List.length].
  - lia.
  - assert (F : forall now,
               Z.of_nat (attempt_counter
                           (refill concurrency (Z.to_nat concurrency) now st))
               <= Z.of_nat (attempt_counter st) + concurrency).
    { intros now.
      destruct (refill_spec concurrency _ now st
                  (refill_enough concurrency now st)) as (Hc & _).
      rewrite Hc. unfold in_flight. lia. }
    destruct (Z.gtb_spec (tick_now t) (deadline w)) as [Gt|Le].
    + rewrite race_step_timeout by lia. nia.
    + destruct t as [now finished|now]; cbn [tick_now] in *.
      * destruct (race_step_completed order attempt concurrency w st now finished Le)
          as (st' & -> & Hc & _).
        specialize (F now). specialize (IH st').
        destruct (existsb _ _).
        -- rewrite Hc. nia.
        -- destruct (race_loop order attempt concurrency w rest st');
             try exact I; rewrite Hc in IH; nia.
      * rewrite race_step_interrupt by exact Le.
        cbn [cancel_rest attempt_counter]. specialize (F now). nia.
Qed.

End RaceEnd.

(** X18.  [cancel] is called only when a race ends, and only on the success
    and Ctrl+C paths: while the race is running no future has been
    cancelled, and the event log of a finished race is its launches followed
    either by one cancel of every future still in flight, in whatever order
    the set is gone through, or, when it returned [False], possibly by
    nothing. *)
Theorem race_cancels_only_at_end (order : set_order) (attempt : nat -> attempt_result)
    (concurrency : Z) (w : race_window) (ticks : list tick) :
  match race_loop order attempt concurrency w ticks initial_state with
  | Running st' => never_cancelled st'
  | Returned b st' =>
      exists launches cancelled,
        Forall (fun e => is_launch e = true) launches /\
        ((events st' = launches ++ map ECancel cancelled /\
          Permutation cancelled (futures st')) \/
         (b = false /\ events st' = launches))
  | _ => True
  end.
Proof.
  apply loop_cancels_last. unfold never_cancelled, initial_state.
  cbn [events]. constructor.
Qed.

(** X19.  A race launches at most [concurrency] attempts per iteration of
    its loop: after any number of iterations the attempt counter is at most
    that number times the concurrency. *)
Theorem race_launch_rate (order : set_order) (attempt : nat -> attempt_result)
    (concurrency : Z) (w : race_window) (ticks : list tick) :
  0 <= concurrency ->
  match race_loop order attempt concurrency w ticks initial_state with
  | Running st' | Returned _ st' =>
      Z.of_nat (attempt_counter st') <= concurrency * Z.of_nat (List.length ticks)
  | _ => True
  end.
Proof.
  intros Hk.
  pose proof (loop_launch_budget order attempt concurrency w ticks initial_state Hk) as H.
  destruct (race_loop order attempt concurrency w ticks initial_state);
    try exact I; cbn [initial_state attempt_counter] in H; lia.
Qed.

Lemma race_launch_rate_witness :
  match race_loop in_launch_order (_single_attempt decimal_int sample_session 5%float env_conflict) 3
          (derive_window 0 0)
          [Completed 10 [1; 2; 3]%nat; Completed 20 [4]%nat] initial_state with
  | Running st' | Returned _ st' => Z.of_nat (attempt_counter st') <= 3 * 2
  | _ => True
  end.
Proof.
  apply (race_launch_rate in_launch_order (_single_attempt decimal_int sample_session 5%float env_conflict)
           3 (derive_window 0 0)
           [Completed 10 [1; 2; 3]%nat; Completed 20 [4]%nat]).
  lia.
Defined.

(** ** Forced repetition of the request *)

Section ForceLoop.

Variable py_int : string -> res Z.
Variable request_timeout : float.
Variable interval : float.
Variable envs : nat -> attempt_env.

(** Iteration [a + k] of a loop over [a, a + 1, ...] that starts on the
    client [s]. *)
Let outcome (a k : nat) (s : session) : res bool :=
  fst (force_iteration py_int request_timeout (envs (a + k))
         (force_client py_int request_timeout envs (seq a k) s)).

Lemma outcome_first (a : nat) (s : session) :
  outcome a 0 s = fst (force_iteration py_int request_timeout (envs a) s).
Proof. unfold outcome. cbn [seq force_client]. rewrite Nat.add_0_r. reflexivity. Qed.

Lemma outcome_next (a k : nat) (s : session) :
  outcome a (S k) s
  = outcome (S a) k (snd (force_iteration py_int request_timeout (envs a) s)).
Proof.
  unfold outcome. cbn [seq force_client].
  replace (a + S k)%nat with (S a + k)%nat by lia. reflexivity.
Qed.

Lemma force_loop_step (a : nat) (rest : list nat) (s : session) :
  fst (force_loop py_int request_timeout interval envs (a :: rest) s)
  = match force_iteration py_int request_timeout (envs a) s with
    | (Ok true, _) => Ok (true, [FAttempt a])
    | (Ok false, s1) =>
        match fst (force_loop py_int request_timeout interval envs rest s1) with
        | Ok later => Ok (fst later, FAttempt a :: FSleep interval :: snd later)
        | Raise e => Raise e
        end
    | (Raise e, _) => Raise e
    end.
Proof.
  cbn [force_loop]. unfold client_bind at 1.
  destruct (force_iteration py_int request_timeout (envs a) s) as [[[|]|e] s1];
    [reflexivity| |reflexivity].
  unfold client_bind.
  destruct (force_loop py_int request_timeout interval envs rest s1)
    as [[later|e] s2]; reflexivity.
Qed.

Lemma force_loop_accounting (n a : nat) (s : session) (won : bool)
    (tr : list force_event) :
  fst (force_loop py_int request_timeout interval envs (seq a n) s)
  = Ok (won, tr) ->
  exists m : nat,
    force_attempts tr = seq a m /\
    (m <= n)%nat /\
    (forall k : nat,
       (k < (if won then pred m else m))%nat -> outcome a k s = Ok false) /\
    (if won
     then (1 <= m)%nat /\ outcome a (pred m) s = Ok true /\
          force_sleeps tr = pred m
     else m = n /\ force_sleeps tr = n).
Proof.
  revert a s won tr.
  induction n as [|n IH]; intros a s won tr H.
  - cbn in H. injection H as <- <-. exists 0%nat. cbn.
    repeat split; lia.
  - cbn [seq] in H. rewrite force_loop_step in H.
    destruct (force_iteration py_int request_timeout (envs a) s)
      as [[[|]|e] s1] eqn:E; [| |discriminate].
    + injection H as <- <-. exists 1%nat. cbn [pred].
      split; [reflexivity|]. split; [lia|]. split; [intros k Hk; lia|].
      split; [lia|]. split; [|reflexivity].
      rewrite outcome_first, E. reflexivity.
    + destruct (fst (force_loop py_int request_timeout interval envs
                       (seq (S a) n) s1)) as [[won' tr']|e] eqn:L;
        [|discriminate].
      cbn [fst snd] in H. injection H as <- <-.
      destruct (IH _ _ _ _ L) as (m & Ha & Hm & Hf & Hw).
      assert (S1 : s1 = snd (force_iteration py_int request_timeout (envs a) s))
        by (rewrite E; reflexivity).
      exists (S m).
      split; [change (a :: force_attempts tr' = a :: seq (S a) m);
              rewrite Ha; reflexivity|].
      split; [lia|]. split.
      * intros k Hk. destruct k as [|k].
        -- rewrite outcome_first, E. reflexivity.
        -- rewrite outcome_next, <- S1. apply Hf.
           destruct won'; [destruct Hw as (H1 & _)|]; cbn [pred] in *; lia.
      * unfold force_sleeps in *. cbn [filter List.length].
        destruct won'.
        -- destruct Hw as (H1 & H2 & H3). split; [lia|]. split.
           ++ cbn [pred]. destruct m as [|m']; [lia|]. cbn [pred] in H2.
              rewrite outcome_next, <- S1. exact H2.
           ++ cbn [pred]. rewrite H3. lia.
        -- destruct Hw as (H1 & H2). split; [lia|]. rewrite H2. reflexivity.
Qed.

Lemma force_loop_raises (n a : nat) (s : session) (e : exn) :
  fst (force_loop py_int request_timeout interval envs (seq a n) s) = Raise e
  <->
  exists k : nat,
    (k < n)%nat /\
    (forall k' : nat, (k' < k)%nat -> outcome a k' s = Ok false) /\
    outcome a k s = Raise e.
Proof.
  revert a s.
  induction n as [|n IH]; intros a s.
  - cbn. split; [discriminate|]. intros (k & Hk & _). lia.
  - cbn [seq]. rewrite force_loop_step.
    pose proof (outcome_first a s) as O0.
    destruct (force_iteration py_int request_timeout (envs a) s)
      as [[[|]|e'] s1] eqn:E; cbn [fst snd] in O0.
    + split; [discriminate|]. intros (k & Hk & Hf & Hr).
      destruct k as [|k]; [congruence|].
      rewrite (Hf 0%nat) in O0 by lia. discriminate.
    + assert (S1 : s1 = snd (force_iteration py_int request_timeout (envs a) s))
        by (rewrite E; reflexivity).
      specialize (IH (S a) s1).
      destruct (fst (force_loop py_int request_timeout interval envs
                       (seq (S a) n) s1)) as [[won' tr']|e'].
      * split; [discriminate|]. intros (k & Hk & Hf & Hr).
        destruct k as [|k]; [congruence|].
        assert (X : @Ok (bool * list force_event) (won', tr') = Raise e);
          [|discriminate X].
        apply IH. exists k. split; [lia|]. split.
        -- intros k' Hk'. rewrite S1, <- outcome_next. apply Hf. lia.
        -- rewrite S1, <- outcome_next. exact Hr.
      * split.
        -- intros [= ->]. destruct (proj1 IH eq_refl) as (k & Hk & Hf & Hr).
           exists (S k). split; [lia|]. split.
           ++ intros k' Hk'. destruct k' as [|k']; [exact O0|].
              rewrite outcome_next, <- S1. apply Hf. lia.
           ++ rewrite outcome_next, <- S1. exact Hr.
        -- intros (k & Hk & Hf & Hr).
           destruct k as [|k]; [congruence|].
           assert (X : @Raise (bool * list force_event) e' = Raise e);
             [|exact X].
           apply IH. exists k. split; [lia|]. split.
           ++ intros k' Hk'. rewrite S1, <- outcome_next. apply Hf. lia.
           ++ rewrite S1, <- outcome_next. exact Hr.
    + split.
      * intros [= ->]. exists 0%nat. split; [lia|]. split; [|exact O0].
        intros k' Hk'. lia.
      * intros (k & Hk & Hf & Hr).
        destruct k as [|k]; [congruence|].
        rewrite (Hf 0%nat) in O0 by lia. discriminate.
Qed.

(** On a client with both ids set, a student id that [int] refuses makes
    the iteration raise before anything is sent. *)
Lemma force_iteration_int_raises (env : attempt_env) (s : session) (e : exn) :
  truthy (session_turn_id s) = true ->
  session_ready (session_student_id s) = true ->
  int_of_student_id py_int s = Raise e ->
  force_iteration py_int request_timeout env s = (Raise e, s).
Proof.
  intros T R I. unfold force_iteration, client_bind at 1.
  unfold add_course_predicate.
  rewrite (submit_request_int_raises py_int s _ _ e T R I). reflexivity.
Qed.

End ForceLoop.

Example force_send_requests_third_wins :
  fst (force_send_requests decimal_int 5 0.25
         (fun i => if Nat.eqb i 3 then env_success else env_offline) 5
         sample_session)
  = Ok (true, [FAttempt 1; FSleep 0.25; FAttempt 2; FSleep 0.25; FAttempt 3]).
Proof. reflexivity. Qed.

(** The refresh made by the first iteration serves the later ones. *)
Example force_send_requests_refreshes :
  force_client decimal_int 5 (fun _ => env_refreshing) [1; 2]%nat
    session_without_turn
  = {| session_student_id := Some "20240001";
       session_turn_id := PInt 741;
       session_semester_id := PInt 61 |}.
Proof. reflexivity. Qed.

(** X22.  When [force_send_requests] returns, it has made the attempts
    numbered [1..m] in order, with [m] at most [attempts]; every attempt but
    a winning one ended in the [time.sleep(interval)], so a [True] after [m]
    attempts costs [m - 1] sleeps and means attempt [m] itself won, and a
    [False] means all [attempts] were made, each followed by a sleep.  Each
    attempt runs on the client as the attempts before it left it. *)
Theorem force_send_requests_accounting (py_int : string -> res Z)
    (request_timeout interval : float) (envs : nat -> attempt_env)
    (attempts : Z) (s : session) (won : bool) (tr : list force_event) :
  fst (force_send_requests py_int request_timeout interval envs attempts s)
  = Ok (won, tr) ->
  exists m : nat,
    force_attempts tr = seq 1 m /\
    (m <= Z.to_nat attempts)%nat /\
    (forall j : nat,
       (1 <= j < 1 + (if won then pred m else m))%nat ->
       fst (force_iteration py_int request_timeout (envs j)
              (force_client py_int request_timeout envs (seq 1 (pred j)) s))
       = Ok false) /\
    (if won
     then (1 <= m)%nat /\
          fst (force_iteration py_int request_timeout (envs m)
                 (force_client py_int request_timeout envs (seq 1 (pred m)) s))
          = Ok true /\
          force_sleeps tr = pred m
     else m = Z.to_nat attempts /\ force_sleeps tr = Z.to_nat attempts).
Proof.
  unfold force_send_requests. intros H.
  destruct (force_loop_accounting _ _ _ _ _ _ _ _ _ H)
    as (m & Ha & Hm & Hf & Hw).
  exists m. split; [exact Ha|]. split; [exact Hm|]. split.
  - intros j Hj. specialize (Hf (pred j)).
    replace (1 + pred j)%nat with j in Hf by lia. apply Hf. lia.
  - destruct won; [|exact Hw].
    destruct Hw as (H1 & H2 & H3). split; [exact H1|]. split; [|exact H3].
    replace (1 + pred m)%nat with m in H2 by lia. exact H2.
Qed.

Lemma force_send_requests_accounting_witness :
  exists m : nat,
    force_attempts [FAttempt 1; FSleep 0.25; FAttempt 2; FSleep 0.25; FAttempt 3]
    = seq 1 m /\
    (m <= 5)%nat /\
    (forall j : nat,
       (1 <= j < 1 + pred m)%nat ->
       fst (force_iteration decimal_int 5
              (if Nat.eqb j 3 then env_success else env_offline)
              (force_client decimal_int 5
                 (fun i => if Nat.eqb i 3 then env_success else env_offline)
                 (seq 1 (pred j)) sample_session))
       = Ok false) /\
    ((1 <= m)%nat /\
     fst (force_iteration decimal_int 5
            (if Nat.eqb m 3 then env_success else env_offline)
            (force_client decimal_int 5
               (fun i => if Nat.eqb i 3 then env_success else env_offline)
               (seq 1 (pred m)) sample_session))
     = Ok true /\
     force_sleeps [FAttempt 1; FSleep 0.25; FAttempt 2; FSleep 0.25; FAttempt 3]
     = pred m).
Proof.
  exact (force_send_requests_accounting decimal_int 5 0.25
           (fun i => if Nat.eqb i 3 then env_success else env_offline)
           5 sample_session true
           [FAttempt 1; FSleep 0.25; FAttempt 2; FSleep 0.25; FAttempt 3]
           eq_refl).
Defined.

(** X23.  [force_send_requests] catches nothing: the call raises exactly when
    some attempt within the budget raises after all earlier attempts ended in
    their sleep, and then it raises that exception.  In particular, on a
    client whose turn id and student id are set, a student id that [int]
    refuses makes the first attempt, and so the call, raise the exception
    of [int] before anything is sent. *)
Theorem force_send_requests_propagates (py_int : string -> res Z)
    (request_timeout interval : float) (envs : nat -> attempt_env)
    (attempts : Z) (s : session) (e : exn) :
  (fst (force_send_requests py_int request_timeout interval envs attempts s)
   = Raise e <->
   exists m : nat,
     (1 <= m <= Z.to_nat attempts)%nat /\
     (forall j : nat,
        (1 <= j < m)%nat ->
        fst (force_iteration py_int request_timeout (envs j)
               (force_client py_int request_timeout envs (seq 1 (pred j)) s))
        = Ok false) /\
     fst (force_iteration py_int request_timeout (envs m)
            (force_client py_int request_timeout envs (seq 1 (pred m)) s))
     = Raise e) /\
  (1 <= attempts ->
   truthy (session_turn_id s) = true ->
   session_ready (session_student_id s) = true ->
   int_of_student_id py_int s = Raise e ->
   fst (force_send_requests py_int request_timeout interval envs attempts s)
   = Raise e).
Proof.
  assert (Iff : fst (force_send_requests py_int request_timeout interval envs
                       attempts s) = Raise e <->
                exists m : nat,
                  (1 <= m <= Z.to_nat attempts)%nat /\
                  (forall j : nat,
                     (1 <= j < m)%nat ->
                     fst (force_iteration py_int request_timeout (envs j)
                            (force_client py_int request_timeout envs
                               (seq 1 (pred j)) s))
                     = Ok false) /\
                  fst (force_iteration py_int request_timeout (envs m)
                         (force_client py_int request_timeout envs
                            (seq 1 (pred m)) s))
                  = Raise e).
  { unfold force_send_requests.
    rewrite (force_loop_raises py_int request_timeout interval envs).
    split.
    - intros (k & Hk & Hf & Hr). exists (S k). split; [lia|]. split.
      + intros j Hj. specialize (Hf (pred j)).
        replace (1 + pred j)%nat with j in Hf by lia. apply Hf. lia.
      + exact Hr.
    - intros (m & Hm & Hf & Hr). exists (pred m). split; [lia|]. split.
      + intros k' Hk'. specialize (Hf (S k')). cbn [pred] in Hf.
        apply Hf. lia.
      + replace (1 + pred m)%nat with m by lia. exact Hr. }
  split; [exact Iff|].
  intros Ha T R I. apply Iff. exists 1%nat. split; [lia|]. split.
  - intros j Hj. lia.
  - cbn [pred seq force_client].
    rewrite (force_iteration_int_raises py_int request_timeout (envs 1%nat) s e
               T R I).
    reflexivity.
Qed.

Lemma force_send_requests_propagates_witness :
  fst (force_send_requests decimal_int 5 0.25 (fun _ => env_success) 3
         session_lettered_id)
  = Raise ValueError.
Proof.
  apply (proj2 (force_send_requests_propagates decimal_int 5 0.25
                  (fun _ => env_success) 3 session_lettered_id ValueError));
    [lia|reflexivity|reflexivity|reflexivity].
Defined.

(** An error text that is not a string is another such case, while
    [_single_attempt] turns the same answer into a failed attempt. *)
Example force_send_requests_unreadable_text :
  fst (force_send_requests decimal_int 5 0.25
         (fun i => if Nat.eqb i 2 then env_bad_text else env_offline) 5
         sample_session)
  = Raise TypeError.
Proof. reflexivity. Qed.

(** ** Targets one after the other *)

Section RunnerFacts.

Variable race : nat -> race_result.
Variable reply : nat -> res string.

Lemma run_targets_passes (before : list pyval) :
  forall (i : nat) (rest : list pyval) (success_any : bool),
    (forall k : nat,
       (k < List.length before)%nat ->
       race (i + k)%nat = RaceLost \/
       (race (i + k)%nat = RaceWon /\ says_yes (reply (i + k)%nat) = true)) ->
    exists (evs : list runner_event) (flag : bool),
      raced evs = before /\
      (success_any = true -> flag = true) /\
      run_targets race reply i (before ++ rest) success_any
      = (fst (run_targets race reply (i + List.length before) rest flag),
         evs ++ snd (run_targets race reply (i + List.length before) rest flag)).
Proof.
  induction before as [|b before IH]; intros i rest success_any H.
  - exists [], success_any. cbn [List.length app]. rewrite Nat.add_0_r.
    split; [reflexivity|]. split; [auto|]. apply surjective_pairing.
  - assert (H' : forall k : nat,
               (k < List.length before)%nat ->
               race (S i + k)%nat = RaceLost \/
               (race (S i + k)%nat = RaceWon /\
                says_yes (reply (S i + k)%nat) = true)).
    { intros k Hk. replace (S i + k)%nat with (i + S k)%nat by lia.
      apply H. cbn [List.length]. lia. }
    assert (H0 := H 0%nat ltac:(cbn [List.length]; lia)).
    rewrite Nat.add_0_r in H0.
    cbn [List.length app run_targets].
    replace (i + S (List.length before))%nat
      with (S i + List.length before)%nat by lia.
    destruct H0 as [L|[W Y]].
    + rewrite L.
      destruct (IH (S i) rest success_any H') as (evs & flag & Hr & Hs & E).
      exists (RunRace i b :: RefreshTurn i :: evs), flag.
      split; [cbn; unfold raced in Hr; rewrite Hr; reflexivity|].
      split; [exact Hs|]. rewrite E. reflexivity.
    + rewrite W, Y.
      destruct (IH (S i) rest true H') as (evs & flag & Hr & Hs & E).
      exists (RunRace i b :: AskContinue i :: evs), flag.
      split; [cbn; unfold raced in Hr; rewrite Hr; reflexivity|].
      split; [intros _; apply Hs; reflexivity|]. rewrite E. reflexivity.
Qed.

Lemma raced_app (xs ys : list runner_event) :
  raced (xs ++ ys) = raced xs ++ raced ys.
Proof. unfold raced. apply flat_map_app. Qed.

Lemma run_targets_all_failed (lesson_ids : list pyval) :
  forall (i : nat) (success_any : bool),
    fst (run_targets race reply i lesson_ids success_any) = AllFailed <->
    success_any = false /\
    forall k : nat,
      (k < List.length lesson_ids)%nat -> race (i + k)%nat = RaceLost.
Proof.
  induction lesson_ids as [|b rest IH]; intros i success_any.
  - cbn. destruct success_any; split.
    + discriminate.
    + intros [X _]. discriminate.
    + intros _. split; [reflexivity|]. intros k Hk. lia.
    + reflexivity.
  - cbn [run_targets List.length].
    destruct (race i) eqn:R.
    + assert (N : ~ (forall k : nat,
                       (k < S (List.length rest))%nat ->
                       race (i + k)%nat = RaceLost)).
      { intros A. specialize (A 0%nat ltac:(lia)).
        rewrite Nat.add_0_r in A. congruence. }
      destruct (says_yes (reply i)).
      * destruct (run_targets race reply (S i) rest true) as [report evs] eqn:E.
        cbn [fst]. split.
        -- intros ->. pose proof (proj1 (IH (S i) true)) as X.
           rewrite E in X. destruct (X eq_refl) as [D _]. discriminate.
        -- intros [_ A]. contradiction.
      * cbn [fst]. split; [discriminate|]. intros [_ A]. contradiction.
    + destruct (run_targets race reply (S i) rest success_any)
        as [report evs] eqn:E.
      cbn [fst]. pose proof (IH (S i) success_any) as X. rewrite E in X.
      cbn [fst] in X. rewrite X. split; intros [S0 A]; (split; [exact S0|]).
      * intros k Hk. destruct k as [|k]; [rewrite Nat.add_0_r; exact R|].
        replace (i + S k)%nat with (S i + k)%nat by lia. apply A. lia.
      * intros k Hk. replace (S i + k)%nat with (i + S k)%nat by lia.
        apply A. lia.
    + cbn [fst]. split; [discriminate|]. intros [_ A].
      specialize (A 0%nat ltac:(lia)). rewrite Nat.add_0_r in A. congruence.
Qed.

End RunnerFacts.

(** X24.  Step 7 of [main] races the targets in the order of the list and
    stops for good at the first win that the operator does not answer with
    [y]: when every earlier target was lost, or won and answered with [y],
    exactly the targets up to that one are raced, none of the later ones is
    started, and the run ends after the success. *)
Theorem run_targets_stops_at_declined_win (race : nat -> race_result)
    (reply : nat -> res string) (i : nat) (before after : list pyval)
    (lesson_id : pyval) (success_any : bool) :
  (forall k : nat,
     (k < List.length before)%nat ->
     race (i + k)%nat = RaceLost \/
     (race (i + k)%nat = RaceWon /\ says_yes (reply (i + k)%nat) = true)) ->
  race (i + List.length before)%nat = RaceWon ->
  says_yes (reply (i + List.length before)%nat) = false ->
  fst (run_targets race reply i (before ++ lesson_id :: after) success_any)
  = StoppedAfterSuccess /\
  raced (snd (run_targets race reply i (before ++ lesson_id :: after)
                success_any))
  = before ++ [lesson_id].
Proof.
  intros H W N.
  destruct (run_targets_passes race reply before i (lesson_id :: after)
              success_any H) as (evs & flag & Hr & _ & E).
  rewrite E. cbn [run_targets fst snd]. rewrite W, N. cbn [fst snd].
  split; [reflexivity|]. rewrite raced_app, Hr. reflexivity.
Qed.

Lemma run_targets_stops_at_declined_win_witness :
  raced (snd (run_targets
                (fun i => if Nat.eqb i 2 then RaceWon else RaceLost)
                (fun _ => Ok "n") 1
                ([PInt 101] ++ PInt 102 :: [PInt 103]) false))
  = [PInt 101] ++ [PInt 102].
Proof.
  refine (proj2 (run_targets_stops_at_declined_win
                   (fun i => if Nat.eqb i 2 then RaceWon else RaceLost)
                   (fun _ => Ok "n") 1 [PInt 101] [PInt 103] (PInt 102) false
                   _ eq_refl eq_refl)).
  intros k Hk. left. cbn [List.length] in Hk.
  assert (E : k = 0%nat) by lia. rewrite E. reflexivity.
Defined.

(** X25.  Step 7 of [main] reports that all courses failed exactly when every
    target of the list was raced and lost: one win, or a Ctrl+C, rules the
    report out, whatever the operator answers. *)
Theorem run_targets_all_failed_iff (race : nat -> race_result)
    (reply : nat -> res string) (lesson_ids : list pyval) :
  fst (run_targets race reply 1 lesson_ids false) = AllFailed <->
  forall k : nat,
    (k < List.length lesson_ids)%nat -> race (1 + k)%nat = RaceLost.
Proof.
  rewrite (run_targets_all_failed race reply lesson_ids 1 false).
  split; [intros [_ A]; exact A|]. intros A. split; [reflexivity|exact A].
Qed.

(** X26.  Step 7 of [main] refreshes the turn with [get_turn_info] after
    every lost race and at no other time: the refreshes are, in order, the
    numbers of the raced targets whose race was lost. *)
Theorem run_targets_refreshes_after_losses (race : nat -> race_result)
    (reply : nat -> res string) (lesson_ids : list pyval) (i : nat)
    (success_any : bool) :
  refreshed (snd (run_targets race reply i lesson_ids success_any))
  = filter (fun j => lost (race j))
      (seq i (List.length
                (raced (snd (run_targets race reply i lesson_ids
                               success_any))))).
Proof.
  revert i success_any.
  induction lesson_ids as [|b rest IH]; intros i success_any.
  - reflexivity.
  - cbn [run_targets]. destruct (race i) eqn:R.
    + destruct (says_yes (reply i)).
      * specialize (IH (S i) true).
        destruct (run_targets race reply (S i) rest true) as [report evs].
        cbn [snd] in *.
        change (refreshed evs
                = filter (fun j => lost (race j))
                    (i :: seq (S i) (List.length (raced evs)))).
        cbn [filter]. rewrite R. cbn [lost]. exact IH.
      * cbn. rewrite R. reflexivity.
    + specialize (IH (S i) success_any).
      destruct (run_targets race reply (S i) rest success_any)
        as [report evs].
      cbn [snd] in *.
      change (i :: refreshed evs
              = filter (fun j => lost (race j))
                  (i :: seq (S i) (List.length (raced evs)))).
      cbn [filter]. rewrite R. cbn [lost]. rewrite IH. reflexivity.
    + cbn. rewrite R. reflexivity.
Qed.

Example run_targets_second_wins :
  run_targets (fun i => if Nat.eqb i 2 then RaceWon else RaceLost)
    (fun _ => Ok "n") 1 [PInt 101; PInt 102; PInt 103] false
  = (StoppedAfterSuccess,
     [RunRace 1 (PInt 101); RefreshTurn 1; RunRace 2 (PInt 102);
      AskContinue 2]).
Proof. reflexivity. Qed.
